(** * The layout plugin of the IDE: window settings, pane maximisation,
      fullscreen, panes menu and interface lock.

    Shallow embedding of [spyder/plugins/layout/plugin.py] (class [Layout]).
    The plugin is glue code over a GUI toolkit: every method mutates the
    plugin instance, the main window, the dock widgets of the dockable
    plugins and the configuration store.  All of these live in one [World]
    record that the methods thread through an error-and-state monad; Python
    exceptions are the [Raise] outcome.

    What the plugin only calls is kept apart from what it implements:
    - plain toolkit accessors (geometry, window-state flags, visibility) are
      the small functions of the section "Toolkit primitives";
    - the serialisation of the dock arrangement ([saveState] /
      [restoreState]), the hexadecimal codec, the layout classes and the slot
      connected to the maximise action are fields of the [Host] record: the
      development is parametric in them. *)

From Stdlib Require Import ZArith String Ascii List Bool Lia DecimalString.
From stdpp Require Import base option list strings gmap.

Set Warnings "-register-all".

Local Open Scope string_scope.
Local Open Scope Z_scope.

(** ** Python values *)

(** The values that travel through the configuration store and the settings
    tuples.  [VNoDefault] is the [NoDefault] marker object of the
    configuration system. *)
Inductive PyVal : Type :=
| VNone
| VNoDefault
| VBool (b : bool)
| VInt (z : Z)
| VStr (s : string)
| VTuple (items : list PyVal)
| VList (items : list PyVal).

(** Python truthiness, as used by [if v:] and [not v]. *)
Definition truthy (v : PyVal) : bool :=
  match v with
  | VNone => false
  | VNoDefault => true
  | VBool b => b
  | VInt z => negb (z =? 0)
  | VStr s => negb (String.eqb s "")
  | VTuple l | VList l => match l with [] => false | _ :: _ => true end
  end.

(** [v is None]. *)
Definition is_None (v : PyVal) : bool :=
  match v with VNone => true | _ => false end.

(** The exceptions the modelled methods can meet. *)
Inductive Exc : Type :=
| NoOptionError
| SpyderAPIError
| AttributeError
| TypeError
| IndexError
| RuntimeError.

Definition Exc_eqb (a b : Exc) : bool :=
  match a, b with
  | NoOptionError, NoOptionError | SpyderAPIError, SpyderAPIError
  | AttributeError, AttributeError | TypeError, TypeError
  | IndexError, IndexError | RuntimeError, RuntimeError => true
  | _, _ => false
  end.

(** An identifier of a quick layout: a number *index* or a registered
    layout id (the parameter [index_or_layout_id]). *)
Inductive LayoutId : Type :=
| IdIndex (i : Z)
| IdName (s : string).

Definition LayoutId_eqb (a b : LayoutId) : bool :=
  match a, b with
  | IdIndex i, IdIndex j => (i =? j)
  | IdName s, IdName t => String.eqb s t
  | _, _ => false
  end.

(** [str(i)] for an integer. *)
Definition str_of_Z (z : Z) : string := NilZero.string_of_int (Z.to_int z).

(** [str(index_or_layout_id)], as ['{}'.format] and [str] compute it. *)
Definition str_of_id (i : LayoutId) : string :=
  match i with IdIndex z => str_of_Z z | IdName s => s end.

(** ** The GUI objects *)

Record Rect := mkRect {
  r_left : Z; r_top : Z; r_width : Z; r_height : Z }.

(** A widget that can be the central widget of the main window or the
    content of a dock widget.  New-API plugins hand out [get_widget()];
    old-API plugins are widgets themselves.  Plugins are identified by
    their position in the list of dockable plugins. *)
Inductive Widget : Type :=
| WGet (plugin : nat)
| WSelf (plugin : nat).

(** A dock widget of the main window. *)
Record DockWidget := mkDock {
  dw_visible : bool;
  dw_floating : bool;
  dw_title_bar : bool;
  dw_toggle_view_enabled : bool;
  dw_widget : option Widget;
  dw_is_shown : bool;
  dw_tab_event_filter : bool }.

Definition QByteArray := list Byte.byte.

(** The main window.  Dock widgets are children of the main window; the
    plugins refer to them by position in [mw_docks]. *)
Record MainWindow := mkMain {
  mw_size : Z * Z;
  mw_pos : Z * Z;
  mw_window_state : Z;
  mw_window_flags : Z;
  mw_normal_geometry : Rect;
  mw_updates_enabled : bool;
  mw_visible : bool;
  mw_min_width : Z;
  mw_max_width : Z;
  mw_central : option Widget;
  mw_docks : list DockWidget;
  mw_statusbar_hidden : bool;
  mw_screen_geometry : Rect;
  mw_screen_virtual : Rect }.

Inductive Api : Type := NewApi | OldApi.

(** A dockable plugin, with its toggle-view action.  [dockwidget] is [None]
    for a plugin that failed its compatibility checks. *)
Record Plugin := mkPlugin {
  NAME : string;
  CONF_SECTION : string;
  api : Api;
  dockwidget : option nat;
  action_checked : bool;
  action_id : option string;
  ismaximized : bool;
  widget_shown : bool;
  visibility : bool;
  owned_widgets : list nat;
  focus_widget : nat }.

(** What the layout container holds: its actions and menus and the
    registered layouts (id and displayed name, in registration order).  An
    entry of [plugins_menu] is what was handed to [add_action]: the toggle
    action of a plugin, or [None]. *)
Record Container := mkContainer {
  fullscreen_action_icon : string;
  lock_action_icon : string;
  lock_action_text : string;
  maximize_action_checked : bool;
  plugins_menu : list (option nat);
  spyder_layouts : list (LayoutId * string) }.

(** Calls into other parts of the application whose effect is outside this
    plugin: they are recorded, in order. *)
Inductive Event : Type :=
| EvCriticalMessage (title msg : string)
| EvLayoutSetupReady (layout : LayoutId)
| EvUpdateLayoutMenuActions
| EvOutlineDockWithMaximizedEditor
| EvOutlineHideFromMaximizedEditor
| EvToolbarToggleLock (value : bool)
| EvConnectAboutToShow
| EvConnectAboutToHide.

(** The attributes of the [Layout] instance.  [_first_spyder_run] is the
    cached property: it is computed once in [on_initialize] and every later
    access returns the cached value. *)
Record Layout := mkLayout {
  _last_plugin : option nat;
  _fullscreen_flag : PyVal;
  _maximized_flag : PyVal;
  _saved_normal_geometry : option Rect;
  _state_before_maximizing : option QByteArray;
  _interface_locked : bool;
  _window_settings_applied_on_first_run : bool;
  _first_spyder_run : bool;
  window_size : option (Z * Z);
  window_position : option (Z * Z);
  _current_quick_layout : option LayoutId }.

Record World := mkWorld {
  self : Layout;
  main : MainWindow;
  plugins : list Plugin;
  conf : gmap (string * string) PyVal;
  conf_defaults : gmap (string * string) PyVal;
  container : Container;
  focus : option nat;
  toolbar_available : bool;
  trace : list Event }.

(** *** Field updates *)

Definition on_self (f : Layout -> Layout) (w : World) : World :=
  mkWorld (f (self w)) (main w) (plugins w) (conf w) (conf_defaults w)
          (container w) (focus w) (toolbar_available w) (trace w).
Definition on_main (f : MainWindow -> MainWindow) (w : World) : World :=
  mkWorld (self w) (f (main w)) (plugins w) (conf w) (conf_defaults w)
          (container w) (focus w) (toolbar_available w) (trace w).
Definition on_plugins (f : list Plugin -> list Plugin) (w : World) : World :=
  mkWorld (self w) (main w) (f (plugins w)) (conf w) (conf_defaults w)
          (container w) (focus w) (toolbar_available w) (trace w).
Definition on_conf (f : gmap (string * string) PyVal -> gmap (string * string) PyVal)
    (w : World) : World :=
  mkWorld (self w) (main w) (plugins w) (f (conf w)) (conf_defaults w)
          (container w) (focus w) (toolbar_available w) (trace w).
Definition on_container (f : Container -> Container) (w : World) : World :=
  mkWorld (self w) (main w) (plugins w) (conf w) (conf_defaults w)
          (f (container w)) (focus w) (toolbar_available w) (trace w).
Definition with_focus (x : option nat) (w : World) : World :=
  mkWorld (self w) (main w) (plugins w) (conf w) (conf_defaults w)
          (container w) x (toolbar_available w) (trace w).
Definition emit (e : Event) (w : World) : World :=
  mkWorld (self w) (main w) (plugins w) (conf w) (conf_defaults w)
          (container w) (focus w) (toolbar_available w) (trace w ++ [e]).

Definition with_last_plugin (x : option nat) (s : Layout) : Layout :=
  mkLayout x (_fullscreen_flag s) (_maximized_flag s) (_saved_normal_geometry s)
    (_state_before_maximizing s) (_interface_locked s)
    (_window_settings_applied_on_first_run s) (_first_spyder_run s)
    (window_size s) (window_position s) (_current_quick_layout s).
Definition with_fullscreen_flag (x : PyVal) (s : Layout) : Layout :=
  mkLayout (_last_plugin s) x (_maximized_flag s) (_saved_normal_geometry s)
    (_state_before_maximizing s) (_interface_locked s)
    (_window_settings_applied_on_first_run s) (_first_spyder_run s)
    (window_size s) (window_position s) (_current_quick_layout s).
Definition with_maximized_flag (x : PyVal) (s : Layout) : Layout :=
  mkLayout (_last_plugin s) (_fullscreen_flag s) x (_saved_normal_geometry s)
    (_state_before_maximizing s) (_interface_locked s)
    (_window_settings_applied_on_first_run s) (_first_spyder_run s)
    (window_size s) (window_position s) (_current_quick_layout s).
Definition with_saved_normal_geometry (x : option Rect) (s : Layout) : Layout :=
  mkLayout (_last_plugin s) (_fullscreen_flag s) (_maximized_flag s) x
    (_state_before_maximizing s) (_interface_locked s)
    (_window_settings_applied_on_first_run s) (_first_spyder_run s)
    (window_size s) (window_position s) (_current_quick_layout s).
Definition with_state_before_maximizing (x : option QByteArray) (s : Layout) : Layout :=
  mkLayout (_last_plugin s) (_fullscreen_flag s) (_maximized_flag s)
    (_saved_normal_geometry s) x (_interface_locked s)
    (_window_settings_applied_on_first_run s) (_first_spyder_run s)
    (window_size s) (window_position s) (_current_quick_layout s).
Definition with_interface_locked (x : bool) (s : Layout) : Layout :=
  mkLayout (_last_plugin s) (_fullscreen_flag s) (_maximized_flag s)
    (_saved_normal_geometry s) (_state_before_maximizing s) x
    (_window_settings_applied_on_first_run s) (_first_spyder_run s)
    (window_size s) (window_position s) (_current_quick_layout s).
Definition with_applied_on_first_run (x : bool) (s : Layout) : Layout :=
  mkLayout (_last_plugin s) (_fullscreen_flag s) (_maximized_flag s)
    (_saved_normal_geometry s) (_state_before_maximizing s) (_interface_locked s)
    x (_first_spyder_run s)
    (window_size s) (window_position s) (_current_quick_layout s).
Definition with_window_size (x : option (Z * Z)) (s : Layout) : Layout :=
  mkLayout (_last_plugin s) (_fullscreen_flag s) (_maximized_flag s)
    (_saved_normal_geometry s) (_state_before_maximizing s) (_interface_locked s)
    (_window_settings_applied_on_first_run s) (_first_spyder_run s)
    x (window_position s) (_current_quick_layout s).
Definition with_window_position (x : option (Z * Z)) (s : Layout) : Layout :=
  mkLayout (_last_plugin s) (_fullscreen_flag s) (_maximized_flag s)
    (_saved_normal_geometry s) (_state_before_maximizing s) (_interface_locked s)
    (_window_settings_applied_on_first_run s) (_first_spyder_run s)
    (window_size s) x (_current_quick_layout s).
Definition with_current_quick_layout (x : option LayoutId) (s : Layout) : Layout :=
  mkLayout (_last_plugin s) (_fullscreen_flag s) (_maximized_flag s)
    (_saved_normal_geometry s) (_state_before_maximizing s) (_interface_locked s)
    (_window_settings_applied_on_first_run s) (_first_spyder_run s)
    (window_size s) (window_position s) x.

Definition with_size (x : Z * Z) (m : MainWindow) : MainWindow :=
  mkMain x (mw_pos m) (mw_window_state m) (mw_window_flags m)
    (mw_normal_geometry m) (mw_updates_enabled m) (mw_visible m)
    (mw_min_width m) (mw_max_width m) (mw_central m) (mw_docks m)
    (mw_statusbar_hidden m) (mw_screen_geometry m) (mw_screen_virtual m).
Definition with_pos (x : Z * Z) (m : MainWindow) : MainWindow :=
  mkMain (mw_size m) x (mw_window_state m) (mw_window_flags m)
    (mw_normal_geometry m) (mw_updates_enabled m) (mw_visible m)
    (mw_min_width m) (mw_max_width m) (mw_central m) (mw_docks m)
    (mw_statusbar_hidden m) (mw_screen_geometry m) (mw_screen_virtual m).
Definition with_window_state (x : Z) (m : MainWindow) : MainWindow :=
  mkMain (mw_size m) (mw_pos m) x (mw_window_flags m)
    (mw_normal_geometry m) (mw_updates_enabled m) (mw_visible m)
    (mw_min_width m) (mw_max_width m) (mw_central m) (mw_docks m)
    (mw_statusbar_hidden m) (mw_screen_geometry m) (mw_screen_virtual m).
Definition with_window_flags (x : Z) (m : MainWindow) : MainWindow :=
  mkMain (mw_size m) (mw_pos m) (mw_window_state m) x
    (mw_normal_geometry m) (mw_updates_enabled m) (mw_visible m)
    (mw_min_width m) (mw_max_width m) (mw_central m) (mw_docks m)
    (mw_statusbar_hidden m) (mw_screen_geometry m) (mw_screen_virtual m).
Definition with_updates_enabled (x : bool) (m : MainWindow) : MainWindow :=
  mkMain (mw_size m) (mw_pos m) (mw_window_state m) (mw_window_flags m)
    (mw_normal_geometry m) x (mw_visible m)
    (mw_min_width m) (mw_max_width m) (mw_central m) (mw_docks m)
    (mw_statusbar_hidden m) (mw_screen_geometry m) (mw_screen_virtual m).
Definition with_visible (x : bool) (m : MainWindow) : MainWindow :=
  mkMain (mw_size m) (mw_pos m) (mw_window_state m) (mw_window_flags m)
    (mw_normal_geometry m) (mw_updates_enabled m) x
    (mw_min_width m) (mw_max_width m) (mw_central m) (mw_docks m)
    (mw_statusbar_hidden m) (mw_screen_geometry m) (mw_screen_virtual m).
Definition with_min_width (x : Z) (m : MainWindow) : MainWindow :=
  mkMain (mw_size m) (mw_pos m) (mw_window_state m) (mw_window_flags m)
    (mw_normal_geometry m) (mw_updates_enabled m) (mw_visible m)
    x (mw_max_width m) (mw_central m) (mw_docks m)
    (mw_statusbar_hidden m) (mw_screen_geometry m) (mw_screen_virtual m).
Definition with_max_width (x : Z) (m : MainWindow) : MainWindow :=
  mkMain (mw_size m) (mw_pos m) (mw_window_state m) (mw_window_flags m)
    (mw_normal_geometry m) (mw_updates_enabled m) (mw_visible m)
    (mw_min_width m) x (mw_central m) (mw_docks m)
    (mw_statusbar_hidden m) (mw_screen_geometry m) (mw_screen_virtual m).
Definition with_central (x : option Widget) (m : MainWindow) : MainWindow :=
  mkMain (mw_size m) (mw_pos m) (mw_window_state m) (mw_window_flags m)
    (mw_normal_geometry m) (mw_updates_enabled m) (mw_visible m)
    (mw_min_width m) (mw_max_width m) x (mw_docks m)
    (mw_statusbar_hidden m) (mw_screen_geometry m) (mw_screen_virtual m).
Definition with_docks (x : list DockWidget) (m : MainWindow) : MainWindow :=
  mkMain (mw_size m) (mw_pos m) (mw_window_state m) (mw_window_flags m)
    (mw_normal_geometry m) (mw_updates_enabled m) (mw_visible m)
    (mw_min_width m) (mw_max_width m) (mw_central m) x
    (mw_statusbar_hidden m) (mw_screen_geometry m) (mw_screen_virtual m).

Definition dw_with_visible (x : bool) (d : DockWidget) : DockWidget :=
  mkDock x (dw_floating d) (dw_title_bar d) (dw_toggle_view_enabled d)
    (dw_widget d) (dw_is_shown d) (dw_tab_event_filter d).
Definition dw_with_floating (x : bool) (d : DockWidget) : DockWidget :=
  mkDock (dw_visible d) x (dw_title_bar d) (dw_toggle_view_enabled d)
    (dw_widget d) (dw_is_shown d) (dw_tab_event_filter d).
Definition dw_with_title_bar (x : bool) (d : DockWidget) : DockWidget :=
  mkDock (dw_visible d) (dw_floating d) x (dw_toggle_view_enabled d)
    (dw_widget d) (dw_is_shown d) (dw_tab_event_filter d).
Definition dw_with_toggle_view_enabled (x : bool) (d : DockWidget) : DockWidget :=
  mkDock (dw_visible d) (dw_floating d) (dw_title_bar d) x
    (dw_widget d) (dw_is_shown d) (dw_tab_event_filter d).
Definition dw_with_widget (x : option Widget) (d : DockWidget) : DockWidget :=
  mkDock (dw_visible d) (dw_floating d) (dw_title_bar d)
    (dw_toggle_view_enabled d) x (dw_is_shown d) (dw_tab_event_filter d).
Definition dw_with_is_shown (x : bool) (d : DockWidget) : DockWidget :=
  mkDock (dw_visible d) (dw_floating d) (dw_title_bar d)
    (dw_toggle_view_enabled d) (dw_widget d) x (dw_tab_event_filter d).
Definition dw_with_tab_event_filter (x : bool) (d : DockWidget) : DockWidget :=
  mkDock (dw_visible d) (dw_floating d) (dw_title_bar d)
    (dw_toggle_view_enabled d) (dw_widget d) (dw_is_shown d) x.

Definition pl_with_action_checked (x : bool) (p : Plugin) : Plugin :=
  mkPlugin (NAME p) (CONF_SECTION p) (api p) (dockwidget p) x (action_id p)
    (ismaximized p) (widget_shown p) (visibility p) (owned_widgets p)
    (focus_widget p).
Definition pl_with_action_id (x : option string) (p : Plugin) : Plugin :=
  mkPlugin (NAME p) (CONF_SECTION p) (api p) (dockwidget p) (action_checked p) x
    (ismaximized p) (widget_shown p) (visibility p) (owned_widgets p)
    (focus_widget p).
Definition pl_with_ismaximized (x : bool) (p : Plugin) : Plugin :=
  mkPlugin (NAME p) (CONF_SECTION p) (api p) (dockwidget p) (action_checked p)
    (action_id p) x (widget_shown p) (visibility p) (owned_widgets p)
    (focus_widget p).
Definition pl_with_widget_shown (x : bool) (p : Plugin) : Plugin :=
  mkPlugin (NAME p) (CONF_SECTION p) (api p) (dockwidget p) (action_checked p)
    (action_id p) (ismaximized p) x (visibility p) (owned_widgets p)
    (focus_widget p).
Definition pl_with_visibility (x : bool) (p : Plugin) : Plugin :=
  mkPlugin (NAME p) (CONF_SECTION p) (api p) (dockwidget p) (action_checked p)
    (action_id p) (ismaximized p) (widget_shown p) x (owned_widgets p)
    (focus_widget p).

Definition ct_with_fullscreen_action_icon (x : string) (c : Container) : Container :=
  mkContainer x (lock_action_icon c) (lock_action_text c)
    (maximize_action_checked c) (plugins_menu c) (spyder_layouts c).
Definition ct_with_lock_action_icon (x : string) (c : Container) : Container :=
  mkContainer (fullscreen_action_icon c) x (lock_action_text c)
    (maximize_action_checked c) (plugins_menu c) (spyder_layouts c).
Definition ct_with_lock_action_text (x : string) (c : Container) : Container :=
  mkContainer (fullscreen_action_icon c) (lock_action_icon c) x
    (maximize_action_checked c) (plugins_menu c) (spyder_layouts c).
Definition ct_with_maximize_action_checked (x : bool) (c : Container) : Container :=
  mkContainer (fullscreen_action_icon c) (lock_action_icon c) (lock_action_text c)
    x (plugins_menu c) (spyder_layouts c).
Definition ct_with_plugins_menu (x : list (option nat)) (c : Container) : Container :=
  mkContainer (fullscreen_action_icon c) (lock_action_icon c) (lock_action_text c)
    (maximize_action_checked c) x (spyder_layouts c).

(** ** The monad of the methods *)

(** A method returns a value or raises; in both cases the mutations made so
    far stay. *)
Inductive Res (A : Type) : Type :=
| Ok (a : A) (w : World)
| Raise (e : Exc) (w : World).
Arguments Ok {A} a w.
Arguments Raise {A} e w.

Definition M (A : Type) : Type := World -> Res A.

Definition ret {A} (a : A) : M A := fun w => Ok a w.
Definition bind {A B} (m : M A) (k : A -> M B) : M B :=
  fun w => match m w with
           | Ok a w' => k a w'
           | Raise e w' => Raise e w'
           end.
Definition raise {A} (e : Exc) : M A := fun w => Raise e w.
Definition gets {A} (f : World -> A) : M A := fun w => Ok (f w) w.
Definition modify (f : World -> World) : M unit := fun w => Ok tt (f w).

(** [try: body except <catches>: handler]. *)
Definition try_except {A} (body : M A) (catches : Exc -> bool) (handler : M A) : M A :=
  fun w => match body w with
           | Ok a w' => Ok a w'
           | Raise e w' => if catches e then handler w' else Raise e w'
           end.

Notation "'let*' x ':=' m 'in' k" := (bind m (fun x => k))
  (at level 10, x name, m at level 100, k at level 200).
Notation "m '>>' k" := (bind m (fun _ => k))
  (at level 90, right associativity).

(** [for x in l: body]. *)
Fixpoint for_each {X} (l : list X) (body : X -> M unit) : M unit :=
  match l with
  | [] => ret tt
  | x :: l' => body x >> for_each l' body
  end.

(** A loop that also updates a local variable. *)
Fixpoint fold_each {X S} (l : list X) (acc : S) (body : X -> S -> M S) : M S :=
  match l with
  | [] => ret acc
  | x :: l' => let* acc' := body x acc in fold_each l' acc' body
  end.

Definition any_exception (e : Exc) : bool := true.
Definition except (e : Exc) : Exc -> bool := Exc_eqb e.

(** *** Methods that call each other recursively

    [set_window_settings] calls [setup_layout], which calls
    [set_window_settings] again: these methods take a bound on the depth of
    calls, and [None] is the outcome when the bound is reached. *)
Definition F (A : Type) : Type := World -> option (Res A).

Definition liftF {A} (m : M A) : F A := fun w => Some (m w).
Definition retF {A} (a : A) : F A := fun w => Some (Ok a w).
Definition bindF {A B} (m : F A) (k : A -> F B) : F B :=
  fun w => match m w with
           | None => None
           | Some (Ok a w') => k a w'
           | Some (Raise e w') => Some (Raise e w')
           end.
Definition out_of_fuel {A} : F A := fun _ => None.
Definition try_exceptF {A} (body : F A) (catches : Exc -> bool) (handler : F A) : F A :=
  fun w => match body w with
           | None => None
           | Some (Ok a w') => Some (Ok a w')
           | Some (Raise e w') => if catches e then handler w' else Some (Raise e w')
           end.

Notation "'let+' x ':=' m 'in' k" := (bindF m (fun x => k))
  (at level 10, x name, m at level 100, k at level 200).
Notation "m '>>+' k" := (bindF m (fun _ => k))
  (at level 90, right associativity).

(** *** Python operations on values *)

(** [v[i]]. *)
Definition subscript (v : PyVal) (i : nat) : M PyVal :=
  match v with
  | VTuple l | VList l =>
      match l !! i with Some x => ret x | None => raise IndexError end
  | VStr s =>
      match String.get i s with
      | Some c => ret (VStr (String c EmptyString))
      | None => raise IndexError
      end
  | _ => raise TypeError
  end.

(** The value as an integer argument ([bool] is a subclass of [int]). *)
Definition as_int (v : PyVal) : M Z :=
  match v with
  | VInt z => ret z
  | VBool b => ret (if b then 1 else 0)
  | _ => raise TypeError
  end.

(** [a < v] for an integer [a]. *)
Definition int_lt (a : Z) (v : PyVal) : M bool :=
  let* z := as_int v in ret (a <? z).

(** The items a [for] loop visits. *)
Definition py_iter (v : PyVal) : M (list PyVal) :=
  match v with
  | VTuple l | VList l => ret l
  | VStr s => ret (map (fun c => VStr (String c EmptyString)) (list_ascii_of_string s))
  | _ => raise TypeError
  end.

Definition PyVal_of_id (i : LayoutId) : PyVal :=
  match i with IdIndex z => VInt z | IdName s => VStr s end.

(** ** The configuration store *)

(** The plugin reads and writes options of the preferences store through
    [get_conf], [get_conf_default] and [set_conf].  The store is a finite map
    from (section, option) to a value; reading an option that is not there
    raises [NoOptionError]; the default of an option without one is the
    [NoDefault] marker. *)
Definition get_conf (opt section : string) : M PyVal :=
  fun w => match conf w !! (section, opt) with
           | Some v => Ok v w
           | None => Raise NoOptionError w
           end.

Definition get_conf_default (opt section : string) : M PyVal :=
  fun w => Ok (default VNoDefault (conf_defaults w !! (section, opt))) w.

Definition set_conf (opt : string) (value : PyVal) (section : string) : M unit :=
  modify (on_conf (insert (section, opt) value)).

(** The section of the plugin's own options. *)
Definition LAYOUT_CONF_SECTION : string := "quick_layouts".

(** ** Toolkit primitives *)

Definition WindowMinimized : Z := 1.
Definition WindowMaximized : Z := 2.
Definition WindowFullScreen : Z := 4.
Definition FramelessWindowHint : Z := 2048.
Definition WindowStaysOnTopHint : Z := 262144.

(** [windowState() & Qt.WindowMaximized] is bit 1 of the state and
    [windowState() & Qt.WindowFullScreen] is bit 2. *)
Definition isMaximized (m : MainWindow) : bool :=
  Z.testbit (mw_window_state m) 1.
Definition isFullScreen (m : MainWindow) : bool :=
  Z.testbit (mw_window_state m) 2.
Definition setWindowState (s : Z) (m : MainWindow) : MainWindow :=
  with_window_state s m.
Definition showNormal (m : MainWindow) : MainWindow :=
  with_visible true
    (with_window_state
       (Z.ldiff (mw_window_state m)
          (Z.lor WindowMinimized (Z.lor WindowMaximized WindowFullScreen))) m).
Definition showMaximized (m : MainWindow) : MainWindow :=
  with_visible true
    (with_window_state
       (Z.lor (Z.ldiff (mw_window_state m) (Z.lor WindowMinimized WindowFullScreen))
              WindowMaximized) m).
Definition showFullScreen (m : MainWindow) : MainWindow :=
  with_visible true
    (with_window_state
       (Z.lor (Z.ldiff (mw_window_state m) (Z.lor WindowMinimized WindowMaximized))
              WindowFullScreen) m).
Definition setGeometry (r : Rect) (m : MainWindow) : MainWindow :=
  with_size (r_width r, r_height r) (with_pos (r_left r, r_top r) m).
Definition setFixedWidth (x : Z) (m : MainWindow) : MainWindow :=
  with_max_width x (with_min_width x m).

(** [get_dockable_plugins()]: the dockable plugins, by position. *)
Definition get_dockable_plugins : M (list nat) :=
  gets (fun w => seq 0%nat (length (plugins w))).

(** The plugin object behind a reference. *)
Definition plugin_at (i : nat) : M Plugin :=
  fun w => match plugins w !! i with
           | Some p => Ok p w
           | None => Raise RuntimeError w
           end.

Definition plugin_update (i : nat) (f : Plugin -> Plugin) : M unit :=
  let* p := plugin_at i in
  modify (on_plugins (fun ps => <[i := f p]> ps)).

(** [plugin.dockwidget.<attribute>]: [AttributeError] on [None]. *)
Definition dock_of (r : option nat) : M DockWidget :=
  fun w => match r with
           | None => Raise AttributeError w
           | Some d =>
               match mw_docks (main w) !! d with
               | Some x => Ok x w
               | None => Raise RuntimeError w
               end
           end.

Definition dock_update (r : option nat) (f : DockWidget -> DockWidget) : M unit :=
  let* x := dock_of r in
  match r with
  | Some d => modify (on_main (fun m => with_docks (<[d := f x]> (mw_docks m)) m))
  | None => ret tt
  end.

Definition option_nat_eqb (a b : option nat) : bool :=
  match a, b with
  | Some x, Some y => Nat.eqb x y
  | None, None => true
  | _, _ => false
  end.

Fixpoint find_plugin (name : string) (ps : list Plugin) (i : nat) : option nat :=
  match ps with
  | [] => None
  | p :: ps' => if String.eqb (NAME p) name then Some i else find_plugin name ps' (S i)
  end.

(** [get_plugin(name, error=False)] for a dockable plugin. *)
Definition get_plugin (name : string) : M (option nat) :=
  gets (fun w => find_plugin name (plugins w) 0%nat).

Definition Plugins_Editor : string := "editor".
Definition Plugins_OutlineExplorer : string := "outline_explorer".

(** [plugin.get_widget()]: only new-API plugins have it. *)
Definition get_widget (i : nat) : M Widget :=
  let* p := plugin_at i in
  match api p with
  | NewApi => ret (WGet i)
  | OldApi => raise AttributeError
  end.

(** [<widget of plugin i>.isAncestorOf(focus_widget)]. *)
Definition isAncestorOf (i : nat) (focus_widget : option nat) : M bool :=
  let* p := plugin_at i in
  match focus_widget with
  | Some x => ret (existsb (Nat.eqb x) (owned_widgets p))
  | None => ret false
  end.

(** An element of the local list [order] of [create_plugins_menu]: a
    section name, a [None] separator, or the toggle action of a plugin. *)
Inductive OrderItem : Type :=
| OStr (s : string)
| ONone
| OAction (plugin : nat).

(** [order.index(name)], [None] standing for [ValueError]. *)
Fixpoint order_index (name : string) (order : list OrderItem) : option nat :=
  match order with
  | [] => None
  | OStr s :: rest =>
      if String.eqb s name then Some 0%nat else S <$> order_index name rest
  | _ :: rest => S <$> order_index name rest
  end.

(** ** What the host application provides *)

Record Host := mkHost {
  os_name : string;
  saveState : list DockWidget -> Z -> QByteArray;
  restoreState : QByteArray -> Z -> list DockWidget -> option (list DockWidget);
  fromHex : PyVal -> QByteArray;
  qbytearray_to_str : QByteArray -> string;
  set_main_window_layout :
    LayoutId -> MainWindow -> list Plugin -> MainWindow * list Plugin;
  DEFAULT_LAYOUTS : list LayoutId;
  SpyderLayout : LayoutId;
  maximize_action_toggled : bool -> M unit }.

(** ** The methods of [Layout] *)

Definition WINDOW_STATE_VERSION : Z := 4.

Section Methods.

Variable H : Host.

(** [self.main.saveState(version=...)] and [self.main.restoreState(...)]:
    the toolkit rejects a blob by returning [False], the arrangement is then
    the one it was. *)
Definition main_saveState (version : Z) : M QByteArray :=
  gets (fun w => saveState H (mw_docks (main w)) version).

Definition main_restoreState (state : QByteArray) (version : Z) : M bool :=
  fun w => match restoreState H state version (mw_docks (main w)) with
           | Some d => Ok true (on_main (with_docks d) w)
           | None => Ok false w
           end.

Definition _update_fullscreen_action : M unit :=
  let* flag := gets (fun w => _fullscreen_flag (self w)) in
  let icon := if truthy flag then "window_nofullscreen" else "window_fullscreen" in
  modify (on_container (ct_with_fullscreen_action_icon icon)).

Definition _update_lock_interface_action : M unit :=
  let* locked := gets (fun w => _interface_locked (self w)) in
  let icon := if locked then "drag_dock_widget" else "lock" in
  let text := if locked then "Unlock panes and toolbars"
              else "Lock panes and toolbars" in
  modify (on_container (ct_with_lock_action_icon icon)) >>
  modify (on_container (ct_with_lock_action_text text)).

Definition _apply_docktabbar_style : M unit :=
  let* ps := get_dockable_plugins in
  for_each ps (fun plugin =>
    let* p := plugin_at plugin in
    dock_update (dockwidget p) (dw_with_is_shown true) >>
    dock_update (dockwidget p) (dw_with_tab_event_filter true)).

Definition get_last_plugin : M (option nat) :=
  gets (fun w => _last_plugin (self w)).

Definition get_fullscreen_flag : M PyVal :=
  gets (fun w => _fullscreen_flag (self w)).

(** [self.get_container().get_layout(layout_id)]: the registered layout,
    [SpyderAPIError] when there is none. *)
Definition get_layout (layout_id : LayoutId) : M LayoutId :=
  fun w =>
    if existsb (fun e => LayoutId_eqb (fst e) layout_id) (spyder_layouts (container w))
    then Ok layout_id w
    else Raise SpyderAPIError w.

(** [layout.set_main_window_layout(self.main, self.get_dockable_plugins())]. *)
Definition apply_layout (layout : LayoutId) : M unit :=
  fun w =>
    let r := set_main_window_layout H layout (main w) (plugins w) in
    Ok tt (on_plugins (fun _ => snd r) (on_main (fun _ => fst r) w)).

Definition critical_message (title msg : string) : M unit :=
  modify (emit (EvCriticalMessage title msg)).

Definition load_window_settings (prefix : string) (default : bool) (section : string)
  : M (PyVal * PyVal * PyVal * PyVal * PyVal) :=
  let get_func := if default then get_conf_default else get_conf in
  let* window_size := get_func (prefix +:+ "size") section in
  let* hexstate :=
    if default then ret VNone
    else try_except (get_func (prefix +:+ "state") section)
                    any_exception (ret VNone) in
  let* pos := get_func (prefix +:+ "position") section in
  let* screen_shape := gets (fun w => mw_screen_virtual (main w)) in
  let current_width := r_width screen_shape in
  let current_height := r_height screen_shape in
  let* width := subscript pos 0 in
  let* height := subscript pos 1 in
  let* off_x := int_lt current_width width in
  let* off_screen := if off_x then ret true else int_lt current_height height in
  let* pos := if off_screen then get_conf_default (prefix +:+ "position") section
              else ret pos in
  let* is_maximized := get_func (prefix +:+ "is_maximized") section in
  let* is_fullscreen := get_func (prefix +:+ "is_fullscreen") section in
  ret (hexstate, window_size, pos, is_maximized, is_fullscreen).

Definition get_window_settings : M (PyVal * PyVal * PyVal * PyVal * PyVal) :=
  let* ws := gets (fun w => window_size (self w)) in
  let* window_size := match ws with
                      | Some (a, b) => ret (VTuple [VInt a; VInt b])
                      | None => raise AttributeError
                      end in
  let* is_fullscreen := gets (fun w => isFullScreen (main w)) in
  let* is_maximized :=
    if is_fullscreen then gets (fun w => _maximized_flag (self w))
    else gets (fun w => VBool (isMaximized (main w))) in
  let* wp := gets (fun w => window_position (self w)) in
  let* pos := match wp with
              | Some (a, b) => ret (VTuple [VInt a; VInt b])
              | None => raise AttributeError
              end in
  let* qba := main_saveState WINDOW_STATE_VERSION in
  let hexstate := VStr (qbytearray_to_str H qba) in
  ret (hexstate, window_size, pos, is_maximized, VBool is_fullscreen).

(** The attribute [self._last_plugin.<...>]: [AttributeError] on [None]. *)
Definition last_plugin_ref : M nat :=
  let* lp := gets (fun w => _last_plugin (self w)) in
  match lp with
  | Some i => ret i
  | None => raise AttributeError
  end.

Definition set_last_plugin (i : nat) : M unit :=
  modify (on_self (with_last_plugin (Some i))).

Definition setCentralWidget (x : option Widget) : M unit :=
  modify (on_main (with_central x)).

Definition maximize_dockwidget (restore : bool) : M unit :=
  let* editor := get_plugin Plugins_Editor in
  let* outline_explorer := get_plugin Plugins_OutlineExplorer in
  let* before := gets (fun w => _state_before_maximizing (self w)) in
  match before with
  | None =>
      if restore then ret tt
      else
        (* Select plugin to maximize *)
        let* st := main_saveState WINDOW_STATE_VERSION in
        modify (on_self (with_state_before_maximizing (Some st))) >>
        let* focus_widget := gets focus in
        let* ps := get_dockable_plugins in
        for_each ps (fun plugin =>
          let* p := plugin_at plugin in
          dock_update (dockwidget p) (dw_with_visible false) >>
          try_except
            (let* _w := get_widget plugin in
             let* anc := isAncestorOf plugin focus_widget in
             if anc then set_last_plugin plugin else ret tt)
            any_exception
            (let* anc := isAncestorOf plugin focus_widget in
             if anc then set_last_plugin plugin else ret tt)) >>
        let* lp := gets (fun w => _last_plugin (self w)) in
        let maximize_last_plugin : M unit :=
          let* lp := last_plugin_ref in
          let* p := plugin_at lp in
          dock_update (dockwidget p) (dw_with_toggle_view_enabled false) >>
          try_except
            (let* wd := get_widget lp in
             setCentralWidget (Some wd) >>
             plugin_update lp (pl_with_ismaximized true))
            (except AttributeError)
            (setCentralWidget (Some (WSelf lp)) >>
             plugin_update lp (pl_with_ismaximized true)) >>
          try_except
            (let* _w := get_widget lp in
             plugin_update lp (pl_with_widget_shown true) >>
             plugin_update lp (pl_with_visibility true))
            (except AttributeError)
            (plugin_update lp (pl_with_widget_shown true) >>
             plugin_update lp (pl_with_visibility true)) >>
          if option_nat_eqb (Some lp) editor then
            match outline_explorer with
            | Some _ => modify (emit EvOutlineDockWithMaximizedEditor)
            | None => ret tt
            end
          else ret tt in
        match lp with
        | None =>
            match editor with
            | Some e => set_last_plugin e >> maximize_last_plugin
            | None => ret tt
            end
        | Some _ => maximize_last_plugin
        end
  | Some saved =>
      (* Restore original layout (before maximizing current dockwidget) *)
      try_except
        (let* lp := last_plugin_ref in
         let* p := plugin_at lp in
         let* _d := dock_of (dockwidget p) in
         let* wd := get_widget lp in
         dock_update (dockwidget p) (dw_with_widget (Some wd)))
        (except AttributeError)
        (let* lp := last_plugin_ref in
         let* p := plugin_at lp in
         dock_update (dockwidget p) (dw_with_widget (Some (WSelf lp)))) >>
      let* lp := last_plugin_ref in
      let* p := plugin_at lp in
      dock_update (dockwidget p) (dw_with_toggle_view_enabled true) >>
      setCentralWidget None >>
      try_except
        (let* _w := get_widget lp in
         plugin_update lp (pl_with_ismaximized false))
        (except AttributeError)
        (plugin_update lp (pl_with_ismaximized false)) >>
      let* _valid := main_restoreState saved WINDOW_STATE_VERSION in
      modify (on_self (with_state_before_maximizing None)) >>
      (if option_nat_eqb (Some lp) editor then
         match outline_explorer with
         | Some _ => modify (emit EvOutlineHideFromMaximizedEditor)
         | None => ret tt
         end
       else ret tt) >>
      try_except
        (let* _w := get_widget lp in
         let* p := plugin_at lp in
         modify (with_focus (Some (focus_widget p))))
        (except AttributeError)
        (let* p := plugin_at lp in
         modify (with_focus (Some (focus_widget p))))
  end.

Definition unmaximize_dockwidget : M unit :=
  let* checked := gets (fun w => maximize_action_checked (container w)) in
  if checked then
    (* setChecked(False) unchecks the action and emits toggled(False) *)
    modify (on_container (ct_with_maximize_action_checked false)) >>
    maximize_action_toggled H false
  else ret tt.

Definition save_current_window_settings (prefix section : string) (none_state : bool)
  : M unit :=
  let* win_size := gets (fun w => mw_size (main w)) in
  let* pos := gets (fun w => mw_pos (main w)) in
  set_conf (prefix +:+ "size") (VTuple [VInt (fst win_size); VInt (snd win_size)])
           section >>
  (let* mx := gets (fun w => isMaximized (main w)) in
   set_conf (prefix +:+ "is_maximized") (VBool mx) section) >>
  (let* fs := gets (fun w => isFullScreen (main w)) in
   set_conf (prefix +:+ "is_fullscreen") (VBool fs) section) >>
  set_conf (prefix +:+ "position")
           (VTuple [VInt (if fst pos >? 0 then fst pos else 0);
                    VInt (if snd pos >? 0 then snd pos else 0)])
           section >>
  maximize_dockwidget true >>
  (if none_state then set_conf (prefix +:+ "state") VNone section
   else
     let* qba := main_saveState WINDOW_STATE_VERSION in
     set_conf (prefix +:+ "state") (VStr (qbytearray_to_str H qba)) section) >>
  let* hidden := gets (fun w => mw_statusbar_hidden (main w)) in
  set_conf (prefix +:+ "statusbar") (VBool (negb hidden)) section.

Definition not_maximized_at_all : M bool :=
  let* mx := gets (fun w => isMaximized (main w)) in
  let* flag := gets (fun w => _maximized_flag (self w)) in
  ret (negb (mx || truthy flag)).

Fixpoint set_window_settings (fuel : nat)
    (hexstate window_size pos is_maximized is_fullscreen : PyVal) {struct fuel}
  : F unit :=
  match fuel with
  | O => out_of_fuel
  | S fuel' =>
      let+ applied := liftF (gets (fun w => _window_settings_applied_on_first_run (self w))) in
      let+ first_run := liftF (gets (fun w => _first_spyder_run (self w))) in
      if applied && first_run then retF tt
      else
        liftF
          (modify (on_main (with_updates_enabled false)) >>
           (* Restore window properties *)
           let* s0 := subscript window_size 0 in
           let* s1 := subscript window_size 1 in
           let* width := as_int s0 in
           let* height := as_int s1 in
           modify (on_self (with_window_size (Some (width, height)))) >>
           let* p0 := subscript pos 0 in
           let* p1 := subscript pos 1 in
           let* x := as_int p0 in
           let* y := as_int p1 in
           modify (on_self (with_window_position (Some (x, y)))) >>
           modify (on_main (with_size (width, height))) >>
           modify (on_main (with_pos (x, y)))) >>+
        let rest : F unit :=
          liftF
            ((if truthy is_fullscreen
              then modify (on_main (setWindowState WindowFullScreen))
              else ret tt) >>
             (if truthy is_fullscreen
              then modify (on_self (with_maximized_flag is_maximized))
              else if truthy is_maximized
                   then modify (on_main (setWindowState WindowMaximized))
                   else ret tt) >>
             modify (on_self (with_applied_on_first_run true)) >>
             modify (on_main (with_updates_enabled true))) in
        if truthy hexstate then
          let+ hexstate_valid :=
            liftF (main_restoreState (fromHex H hexstate) WINDOW_STATE_VERSION) in
          if negb hexstate_valid then
            liftF (modify (on_main (with_updates_enabled true))) >>+
            setup_layout fuel' true
          else rest
        else rest
  end

with setup_layout (fuel : nat) (default : bool) {struct fuel} : F unit :=
  match fuel with
  | O => out_of_fuel
  | S fuel' =>
      let prefix := "window/" in
      let+ settings := liftF (load_window_settings prefix default "main") in
      let '(hexstate, window_size, pos, is_maximized, is_fullscreen) := settings in
      (if is_None hexstate then
         (* First Spyder execution *)
         liftF (modify (on_main (setWindowState WindowMaximized))) >>+
         (let+ _layout :=
            setup_default_layouts fuel' (SpyderLayout H)
              hexstate window_size pos is_maximized is_fullscreen in
          retF tt) >>+
         liftF
           ((if default then
               let* layouts := gets (fun w => spyder_layouts (container w)) in
               let order := VList (map (fun e => PyVal_of_id (fst e)) layouts) in
               set_conf "order" order LAYOUT_CONF_SECTION >>
               set_conf "active" order LAYOUT_CONF_SECTION >>
               set_conf "names" order LAYOUT_CONF_SECTION >>
               let ui_names := VList (map (fun e => VStr (snd e)) layouts) in
               set_conf "ui_names" ui_names LAYOUT_CONF_SECTION >>
               modify (emit EvUpdateLayoutMenuActions)
             else ret tt) >>
            let section := "quick_layouts" in
            let* order := get_conf "order" LAYOUT_CONF_SECTION in
            let* names := py_iter order in
            for_each (seq 0%nat (length names)) (fun index =>
              save_current_window_settings
                ("layout_" +:+ str_of_Z (Z.of_nat index) +:+ "/") section true) >>
            (* Store the initial layout as the default *)
            save_current_window_settings "layout_default/" section true >>
            modify (on_self (with_current_quick_layout (Some (SpyderLayout H)))))
       else retF tt) >>+
      set_window_settings fuel' hexstate window_size pos is_maximized is_fullscreen
  end

with setup_default_layouts (fuel : nat) (layout_id : LayoutId)
    (hexstate window_size pos is_maximized is_fullscreen : PyVal) {struct fuel}
  : F LayoutId :=
  match fuel with
  | O => out_of_fuel
  | S fuel' =>
      liftF (modify (on_main (with_updates_enabled false))) >>+
      let+ first_run := liftF (gets (fun w => _first_spyder_run (self w))) in
      let+ widths :=
        if first_run then
          set_window_settings fuel' hexstate window_size pos is_maximized is_fullscreen >>+
          retF None
        else
          liftF
            ((let* lp := gets (fun w => _last_plugin (self w)) in
              match lp with
              | Some i =>
                  let* p := plugin_at i in
                  if ismaximized p then maximize_dockwidget true else ret tt
              | None => ret tt
              end) >>
             (let* nm := not_maximized_at_all in
              if nm then modify (on_main showMaximized) else ret tt) >>
             let* min_width := gets (fun w => mw_min_width (main w)) in
             let* max_width := gets (fun w => mw_max_width (main w)) in
             let* base_width := gets (fun w => fst (mw_size (main w))) in
             modify (on_main (setFixedWidth base_width)) >>
             ret (Some (min_width, max_width))) in
      liftF
        ((* Layout selection *)
         let* layout := get_layout layout_id in
         (* Apply selected layout *)
         apply_layout layout >>
         (match widths with
          | None => set_conf "first_time" (VBool false) LAYOUT_CONF_SECTION
          | Some (min_width, max_width) =>
              modify (on_main (with_min_width min_width)) >>
              modify (on_main (with_max_width max_width)) >>
              let* nm := not_maximized_at_all in
              if nm then modify (on_main showMaximized) else ret tt
          end) >>
         modify (on_main (with_updates_enabled true)) >>
         modify (emit (EvLayoutSetupReady layout)) >>
         ret layout)
  end.

(** [plugin.toggle_view_action] exists for new-API plugins only. *)
Definition toggle_view_action (plugin : nat) : M unit :=
  let* p := plugin_at plugin in
  match api p with
  | NewApi => ret tt
  | OldApi => raise AttributeError
  end.

Definition in_DEFAULT_LAYOUTS (i : LayoutId) : bool :=
  existsb (LayoutId_eqb i) (DEFAULT_LAYOUTS H).

Definition custom_layout_error : string :=
  "Error opening the custom layout.  Please close"
  +:+ " Spyder and try again.  If the issue persists,"
  +:+ " then you must use 'Reset to Spyder default' "
  +:+ "from the layout menu.".

Definition quick_layout_switch (fuel : nat) (index_or_layout_id : LayoutId)
  : F (option LayoutId) :=
  (* We need to do this first so the new layout is applied as expected. *)
  liftF unmaximize_dockwidget >>+
  let section := "quick_layouts" in
  let+ returned :=
    try_exceptF
      (let+ settings :=
         liftF (load_window_settings
                  ("layout_" +:+ str_of_id index_or_layout_id +:+ "/") false section) in
       let '(hexstate, window_size, pos, is_maximized, is_fullscreen) := settings in
       if is_None hexstate then
         if negb (in_DEFAULT_LAYOUTS index_or_layout_id) then
           liftF (critical_message "Warning" custom_layout_error) >>+
           retF true
         else
           (let+ _layout :=
              setup_default_layouts fuel index_or_layout_id
                hexstate window_size pos is_maximized is_fullscreen in
            retF false)
       else
         set_window_settings fuel hexstate window_size pos is_maximized is_fullscreen >>+
         retF false)
      (except NoOptionError)
      (liftF
         (try_except
            (let* layout := get_layout index_or_layout_id in
             apply_layout layout >>
             modify (emit (EvLayoutSetupReady layout)))
            (except SpyderAPIError)
            (critical_message "Warning"
               ("Quick switch layout #" +:+ str_of_id index_or_layout_id
                +:+ " has not yet been defined."))) >>+
       retF false) in
  if returned then retF None
  else
    liftF
      ((* Make sure the flags are correctly set for visible panes *)
       (let* ps := get_dockable_plugins in
        for_each ps (fun plugin =>
          try_except (toggle_view_action plugin) (except AttributeError) (ret tt) >>
          let* p := plugin_at plugin in
          let* d := dock_of (dockwidget p) in
          plugin_update plugin (pl_with_action_checked (dw_visible d)))) >>
       _apply_docktabbar_style >>
       ret (Some index_or_layout_id)).

Definition toggle_fullscreen : M unit :=
  let* flag := gets (fun w => _fullscreen_flag (self w)) in
  (if truthy flag then
     modify (on_self (with_fullscreen_flag (VBool false))) >>
     (if String.eqb (os_name H) "nt" then
        modify (on_main (fun m =>
          with_window_flags
            (Z.lxor (mw_window_flags m)
                    (Z.lor FramelessWindowHint WindowStaysOnTopHint)) m)) >>
        let* g := gets (fun w => _saved_normal_geometry (self w)) in
        match g with
        | Some r => modify (on_main (setGeometry r))
        | None => raise TypeError
        end
      else ret tt) >>
     modify (on_main showNormal) >>
     let* mflag := gets (fun w => _maximized_flag (self w)) in
     if truthy mflag then modify (on_main showMaximized) else ret tt
   else
     (let* mx := gets (fun w => isMaximized (main w)) in
      modify (on_self (with_maximized_flag (VBool mx)))) >>
     modify (on_self (with_fullscreen_flag (VBool true))) >>
     (let* g := gets (fun w => mw_normal_geometry (main w)) in
      modify (on_self (with_saved_normal_geometry (Some g)))) >>
     if String.eqb (os_name H) "nt" then
       modify (on_main (fun m =>
         with_window_flags
           (Z.lor (Z.lor (mw_window_flags m) FramelessWindowHint)
                  WindowStaysOnTopHint) m)) >>
       let* r := gets (fun w => mw_screen_geometry (main w)) in
       modify (on_main (setGeometry
         (mkRect (r_left r - 1) (r_top r - 1) (r_width r + 2) (r_height r + 2)))) >>
       modify (on_main showNormal)
     else modify (on_main showFullScreen)) >>
  _update_fullscreen_action.

Definition plugins_menu_order : list OrderItem :=
  [ OStr "editor"; OStr "ipython_console"; OStr "variable_explorer";
    OStr "debugger"; OStr "help"; OStr "plots"; ONone;
    OStr "explorer"; OStr "outline_explorer"; OStr "project_explorer";
    OStr "find_in_files"; ONone;
    OStr "historylog"; OStr "profiler"; OStr "pylint"; ONone;
    OStr "onlinehelp"; OStr "internal_console"; ONone ].

(** [self.plugins_menu.add_action(action)]. *)
Definition add_action (action : option nat) : M unit :=
  modify (on_container (fun c => ct_with_plugins_menu (plugins_menu c ++ [action]) c)).

(** One round of the first loop of [create_plugins_menu]; the toggle action
    of a plugin is an object, hence true in [if action:]. *)
Definition create_plugins_menu_step (plugin : nat) (order : list OrderItem)
  : M (list OrderItem) :=
  try_except (toggle_view_action plugin) (except AttributeError)
    (let* p := plugin_at plugin in
     plugin_update plugin
       (pl_with_action_id (Some ("switch to " +:+ CONF_SECTION p)))) >>
  let* p := plugin_at plugin in
  match dockwidget p with
  | None => ret order
  | Some _ =>
      let* d := dock_of (dockwidget p) in
      plugin_update plugin (pl_with_action_checked (dw_visible d)) >>
      let name := CONF_SECTION p in
      match order_index name order with
      | Some pos => ret (<[pos := OAction plugin]> order)
      | None => ret (order ++ [OAction plugin])%list
      end
  end.

Definition create_plugins_menu : M unit :=
  let order := plugins_menu_order in
  let* ps := get_dockable_plugins in
  let* order := fold_each ps order create_plugins_menu_step in
  let actions := order in
  for_each actions (fun action =>
    match action with
    | OStr _ => ret tt
    | ONone => add_action None
    | OAction a => add_action (Some a)
    end) >>
  modify (emit EvConnectAboutToShow) >>
  modify (emit EvConnectAboutToHide).

Definition toggle_lock (value : option bool) : M unit :=
  let* locked := gets (fun w => _interface_locked (self w)) in
  modify (on_self (with_interface_locked
                     (match value with None => negb locked | Some v => v end))) >>
  (let* locked := gets (fun w => _interface_locked (self w)) in
   set_conf "panes_locked" (VBool locked) "main") >>
  _update_lock_interface_action >>
  (* Apply lock to panes *)
  (let* ps := get_dockable_plugins in
   for_each ps (fun plugin =>
     let* p := plugin_at plugin in
     match dockwidget p with
     | None => ret tt
     | Some _ =>
         let* locked := gets (fun w => _interface_locked (self w)) in
         if locked then
           (let* d := dock_of (dockwidget p) in
            if dw_floating d then dock_update (dockwidget p) (dw_with_floating false)
            else ret tt) >>
           dock_update (dockwidget p) (dw_with_title_bar false)
         else dock_update (dockwidget p) (dw_with_title_bar true)
     end)) >>
  (* Apply lock to toolbars *)
  let* toolbar := gets toolbar_available in
  if toolbar then
    let* locked := gets (fun w => _interface_locked (self w)) in
    modify (emit (EvToolbarToggleLock locked))
  else ret tt.

End Methods.

(** ** Further methods of [Layout] *)

(** [for x in l: body], where the body may [break]: a round yields [true]
    when it left the loop. *)
Fixpoint for_each_break {X} (l : list X) (body : X -> M bool) : M unit :=
  match l with
  | [] => ret tt
  | x :: l' => let* stop := body x in
               if stop then ret tt else for_each_break l' body
  end.

Section ToggleView.

(** The slot that a dockable plugin connects to the signal [toggled] of
    its toggle-view action, with the plugin and the new state.  It shows or
    closes the pane and belongs to the plugin, not to [Layout]. *)
Variable toggle_view : nat -> bool -> M unit.

(** [setChecked(value)] on the toggle-view action of a plugin: when the
    state changes, the action emits [toggled(value)] and the slot runs. *)
Definition toggle_view_setChecked (plugin : nat) (value : bool) : M unit :=
  let* p := plugin_at plugin in
  if Bool.eqb (action_checked p) value then ret tt
  else
    plugin_update plugin (pl_with_action_checked value) >>
    toggle_view plugin value.

Definition close_current_dockwidget : M unit :=
  let* widget := gets focus in
  let* ps := get_dockable_plugins in
  for_each_break ps (fun plugin =>
    try_except
      (let* _w := get_widget plugin in
       let* anc := isAncestorOf plugin widget in
       if anc then
         toggle_view_action plugin >>
         toggle_view_setChecked plugin false >>
         ret true
       else ret false)
      (except AttributeError)
      (let* anc := isAncestorOf plugin widget in
       if anc then
         toggle_view_setChecked plugin false >>
         ret true
       else ret false)).

End ToggleView.

(** ** A small host and a small application, for concrete runs *)

Module Demo.

(** Hexadecimal text of a blob, and back (characters that are no
    hexadecimal digit are skipped, an odd number of digits is read with a
    leading zero). *)
Definition hex_digit (n : N) : ascii :=
  ascii_of_N (if (n <? 10)%N then 48 + n else 87 + n)%N.

Definition hex_of_byte (b : Byte.byte) : list ascii :=
  let n := Byte.to_N b in [hex_digit (n / 16)%N; hex_digit (n mod 16)%N].

Definition toHex (q : QByteArray) : string :=
  string_of_list_ascii (flat_map hex_of_byte q).

Definition nibble_of (c : ascii) : option N :=
  let n := N_of_ascii c in
  if ((48 <=? n) && (n <=? 57))%N then Some (n - 48)%N
  else if ((97 <=? n) && (n <=? 102))%N then Some (n - 87)%N
  else if ((65 <=? n) && (n <=? 70))%N then Some (n - 55)%N
  else None.

Definition byte_of_N (n : N) : Byte.byte :=
  match Byte.of_N n with Some b => b | None => Byte.x00 end.

Fixpoint pair_nibbles (l : list N) : list Byte.byte :=
  match l with
  | hi :: lo :: rest => byte_of_N (hi * 16 + lo)%N :: pair_nibbles rest
  | _ => []
  end.

Definition decode_hex (s : string) : QByteArray :=
  let ns := omap nibble_of (list_ascii_of_string s) in
  pair_nibbles (if Nat.even (length ns) then ns else 0%N :: ns).

(** The arrangement that a blob records: which docks are visible and
    which float, after a byte for the version. *)
Definition byte_of_dock (d : DockWidget) : Byte.byte :=
  match dw_visible d, dw_floating d with
  | false, false => Byte.x00
  | true, false => Byte.x01
  | false, true => Byte.x02
  | true, true => Byte.x03
  end.

Definition dock_of_byte (b : Byte.byte) (d : DockWidget) : DockWidget :=
  let n := Byte.to_N b in
  dw_with_visible (N.testbit n 0) (dw_with_floating (N.testbit n 1) d).

Fixpoint restore_docks (bs : list Byte.byte) (ds : list DockWidget) : list DockWidget :=
  match bs, ds with
  | b :: bs', d :: ds' => dock_of_byte b d :: restore_docks bs' ds'
  | _, _ => ds
  end.

Definition demo_saveState (ds : list DockWidget) (version : Z) : QByteArray :=
  byte_of_N (Z.to_N version) :: map byte_of_dock ds.

Definition demo_restoreState (q : QByteArray) (version : Z) (ds : list DockWidget)
  : option (list DockWidget) :=
  match q with
  | v :: bs =>
      if (Byte.to_N v =? Z.to_N version)%N && (length bs =? length ds)%nat
      then Some (restore_docks bs ds)
      else None
  | [] => None
  end.

Definition demo_fromHex (v : PyVal) : QByteArray :=
  match v with VStr s => decode_hex s | _ => [] end.

(** A layout that shows every dock. *)
Definition demo_layout (l : LayoutId) (m : MainWindow) (ps : list Plugin)
  : MainWindow * list Plugin :=
  (with_docks (map (dw_with_visible true) (mw_docks m)) m, ps).

Definition host0 : Host :=
  mkHost "posix" demo_saveState demo_restoreState demo_fromHex toHex demo_layout
         [IdName "Spyder Default Layout"; IdName "Matlab layout"]
         (IdName "Spyder Default Layout")
         (fun _ => ret tt).

(** The maximise action is connected to [maximize_dockwidget]. *)
Definition host : Host :=
  mkHost "posix" demo_saveState demo_restoreState demo_fromHex toHex demo_layout
         [IdName "Spyder Default Layout"; IdName "Matlab layout"]
         (IdName "Spyder Default Layout")
         (fun _ => maximize_dockwidget host0 false).

Definition host_nt : Host :=
  mkHost "nt" demo_saveState demo_restoreState demo_fromHex toHex demo_layout
         [IdName "Spyder Default Layout"; IdName "Matlab layout"]
         (IdName "Spyder Default Layout")
         (fun _ => maximize_dockwidget host0 false).

Definition dock0 : DockWidget := mkDock true false true true None false false.

Definition editor : Plugin :=
  mkPlugin "editor" "editor" NewApi (Some 0%nat) true None false true true
           [10%nat; 11%nat] 10%nat.
Definition console : Plugin :=
  mkPlugin "ipython_console" "ipython_console" NewApi (Some 1%nat) true None
           false true true [20%nat] 20%nat.
Definition help : Plugin :=
  mkPlugin "help" "help" NewApi (Some 2%nat) false None false true false
           [30%nat] 30%nat.
Definition legacy : Plugin :=
  mkPlugin "legacy" "legacy" OldApi (Some 3%nat) false None false true false
           [40%nat] 40%nat.
Definition broken : Plugin :=
  mkPlugin "plots" "plots" NewApi None false None false false false
           [50%nat] 50%nat.

Definition screen : Rect := mkRect 0 0 1920 1080.

Definition main0 : MainWindow :=
  mkMain (1260, 740) (10, 10) 0 0 (mkRect 10 10 1260 740) true true 0 16777215
         None
         [dock0; dock0; dw_with_visible false dock0; dw_with_visible false dock0]
         false screen screen.

Definition layout0 : Layout :=
  mkLayout None VNone VNone None None false false false None None None.

Definition defaults0 : gmap (string * string) PyVal :=
  <[("main", "window/size") := VTuple [VInt 1260; VInt 740]]>
  (<[("main", "window/position") := VTuple [VInt 10; VInt 10]]>
  (<[("main", "window/is_maximized") := VBool true]>
  (<[("main", "window/is_fullscreen") := VBool false]>
  (<[("main", "panes_locked") := VBool true]>
  (<[("quick_layouts", "order") := VList []]> ∅))))).

Definition container0 : Container :=
  mkContainer "window_fullscreen" "lock" "Lock panes and toolbars" false []
    [(IdName "Spyder Default Layout", "Spyder Default Layout");
     (IdName "Matlab layout", "Matlab layout")].

Definition world0 : World :=
  mkWorld layout0 main0 [editor; console; help; legacy; broken]
          defaults0 defaults0 container0 None true [].

(** The same application without the plugin that has no dock widget. *)
Definition world1 : World := on_plugins (take 4) world0.

(** The stored position lies beyond the screen. *)
Definition world_offscreen : World :=
  on_conf (insert ("main", "window/position") (VTuple [VInt 5000; VInt 10])) world0.

(** The main window is maximized. *)
Definition world_maximized : World := on_main (setWindowState WindowMaximized) world0.

(** Stored quick layouts without a state: a custom one, number 7, and a
    default one. *)
Definition store_layout (name : string) (c : gmap (string * string) PyVal)
  : gmap (string * string) PyVal :=
  <[("quick_layouts", "layout_" +:+ name +:+ "/size") := VTuple [VInt 1000; VInt 700]]>
  (<[("quick_layouts", "layout_" +:+ name +:+ "/state") := VNone]>
  (<[("quick_layouts", "layout_" +:+ name +:+ "/position") := VTuple [VInt 5; VInt 5]]>
  (<[("quick_layouts", "layout_" +:+ name +:+ "/is_maximized") := VBool false]>
  (<[("quick_layouts", "layout_" +:+ name +:+ "/is_fullscreen") := VBool false]> c)))).

Definition world_layouts : World :=
  on_conf (fun c => store_layout "7" (store_layout "Matlab layout" c)) world1.

End Demo.

(** * The vocabulary of the properties *)

(** The world a run ends in, whether it returned or raised. *)
Definition world_of {A} (r : Res A) : World :=
  match r with Ok _ w => w | Raise _ w => w end.

(** A computation leaves a component of the world as it was. *)
Definition preserves {X A} (proj : World -> X) (m : M A) : Prop :=
  forall w, proj (world_of (m w)) = proj w.

(** Components that updates of the main window, of the plugins or of the
    focus do not reach. *)
Definition ignores_gui {X} (proj : World -> X) : Prop :=
  (forall g w, proj (on_main g w) = proj w) /\
  (forall g w, proj (on_plugins g w) = proj w) /\
  (forall x w, proj (with_focus x w) = proj w) /\
  (forall e w, proj (emit e w) = proj w).

(** Every dock-widget reference of a plugin points into the dock area of
    the main window. *)
Definition docks_wfb (w : World) : bool :=
  forallb (fun p => match dockwidget p with
                    | Some d => (d <? length (mw_docks (main w)))%nat
                    | None => true
                    end) (plugins w).

(** The state in which a locked or unlocked dock widget is left. *)
Definition lock_applied (locked : bool) (x : DockWidget) : Prop :=
  dw_title_bar x = negb locked /\ (locked = true -> dw_floating x = false).

(** The loop of [toggle_lock] under "Apply lock to panes". *)
Definition toggle_lock_panes : M unit :=
  let* ps := get_dockable_plugins in
  for_each ps (fun plugin =>
    let* p := plugin_at plugin in
    match dockwidget p with
    | None => ret tt
    | Some _ =>
        let* locked := gets (fun w => _interface_locked (self w)) in
        if locked then
          (let* d := dock_of (dockwidget p) in
           if dw_floating d then dock_update (dockwidget p) (dw_with_floating false)
           else ret tt) >>
          dock_update (dockwidget p) (dw_with_title_bar false)
        else dock_update (dockwidget p) (dw_with_title_bar true)
    end).

(** The end of [toggle_lock], under "Apply lock to toolbars". *)
Definition toggle_lock_toolbars : M unit :=
  let* toolbar := gets toolbar_available in
  if toolbar then
    let* locked := gets (fun w => _interface_locked (self w)) in
    modify (emit (EvToolbarToggleLock locked))
  else ret tt.

(** The flag that [toggle_lock(value)] sets. *)
Definition toggle_lock_new (value : option bool) (w : World) : bool :=
  match value with None => negb (_interface_locked (self w)) | Some v => v end.

(** The world after the flag, the option and the action were updated. *)
Definition toggle_lock_recorded (value : option bool) (w : World) : World :=
  let new := toggle_lock_new value w in
  on_container (ct_with_lock_action_text
                  (if new then "Unlock panes and toolbars"
                   else "Lock panes and toolbars"))
    (on_container (ct_with_lock_action_icon (if new then "drag_dock_widget" else "lock"))
       (on_conf (insert ("main", "panes_locked") (VBool new))
          (on_self (with_interface_locked new) w))).

(** The in-memory flag and the option [panes_locked] of section [main]. *)
Definition flag_and_option (w : World) : bool * option PyVal :=
  (_interface_locked (self w), conf w !! ("main", "panes_locked")).

(** On Windows, leaving fullscreen needs the geometry that entering it
    saved. *)
Definition fullscreen_ready (H : Host) (w : World) : bool :=
  implb (truthy (_fullscreen_flag (self w)) && String.eqb (os_name H) "nt")
        (match _saved_normal_geometry (self w) with Some _ => true | None => false end).

(** The window on entering fullscreen. *)
Definition entered_fullscreen (H : Host) (m : MainWindow) : MainWindow :=
  if String.eqb (os_name H) "nt" then
    let r := mw_screen_geometry m in
    showNormal
      (setGeometry (mkRect (r_left r - 1) (r_top r - 1) (r_width r + 2) (r_height r + 2))
         (with_window_flags
            (Z.lor (Z.lor (mw_window_flags m) FramelessWindowHint) WindowStaysOnTopHint)
            m))
  else showFullScreen m.

(** The icon that [_update_fullscreen_action] sets for a flag. *)
Definition fullscreen_icon (flag : bool) : string :=
  if flag then "window_nofullscreen" else "window_fullscreen".

(** The getter that [load_window_settings] selects. *)
Definition get_func (default : bool) : string -> string -> M PyVal :=
  if default then get_conf_default else get_conf.

(** The stored layout blob, as [load_window_settings] reads it. *)
Definition loaded_hexstate (prefix : string) (default : bool) (section : string)
    (w : World) : PyVal :=
  if default then VNone
  else match conf w !! (section, prefix +:+ "state") with
       | Some v => v
       | None => VNone
       end.

(** What [get_conf_default] yields for an option. *)
Definition default_value (w : World) (opt section : string) : PyVal :=
  default VNoDefault (conf_defaults w !! (section, opt)).

(** The first part of [set_window_settings]: size and position. *)
Definition restore_window_properties (window_size pos : PyVal) : M unit :=
  modify (on_main (with_updates_enabled false)) >>
  let* s0 := subscript window_size 0 in
  let* s1 := subscript window_size 1 in
  let* width := as_int s0 in
  let* height := as_int s1 in
  modify (on_self (with_window_size (Some (width, height)))) >>
  let* p0 := subscript pos 0 in
  let* p1 := subscript pos 1 in
  let* x := as_int p0 in
  let* y := as_int p1 in
  modify (on_self (with_window_position (Some (x, y)))) >>
  modify (on_main (with_size (width, height))) >>
  modify (on_main (with_pos (x, y))).

(** The last part of [set_window_settings]: fullscreen and maximized. *)
Definition apply_window_state (is_maximized is_fullscreen : PyVal) : M unit :=
  (if truthy is_fullscreen
   then modify (on_main (setWindowState WindowFullScreen))
   else ret tt) >>
  (if truthy is_fullscreen
   then modify (on_self (with_maximized_flag is_maximized))
   else if truthy is_maximized
        then modify (on_main (setWindowState WindowMaximized))
        else ret tt) >>
  modify (on_self (with_applied_on_first_run true)) >>
  modify (on_main (with_updates_enabled true)).

(** The short-circuit of the first run. *)
Definition first_run_short_circuit (w : World) : bool :=
  _window_settings_applied_on_first_run (self w) && _first_spyder_run (self w).

(** The world once size and position were applied. *)
Definition with_geometry (width height x y : Z) (w : World) : World :=
  on_main (with_pos (x, y))
    (on_main (with_size (width, height))
       (on_self (with_window_position (Some (x, y)))
          (on_self (with_window_size (Some (width, height)))
             (on_main (with_updates_enabled false) w)))).


(** What the setter leaves in the window state for the two flags. *)
Definition window_state_after (m f : bool) (state : Z) : Z :=
  if f then WindowFullScreen else if m then WindowMaximized else state.

(** The world after [set_window_settings] applied a hexstate that the
    toolkit accepted. *)
Definition settings_applied (docks : list DockWidget) (width height x y : Z)
    (m f : bool) (w : World) : World :=
  on_main (with_updates_enabled true)
    (on_self (with_applied_on_first_run true)
       (on_self (if f then with_maximized_flag (VBool m) else fun s => s)
          (on_main (fun mw => with_window_state
                                (window_state_after m f (mw_window_state mw)) mw)
             (on_main (with_docks docks) (with_geometry width height x y w))))).

(** The end of [quick_layout_switch]: the flags of the toggle actions, the
    style of the dock tab bars, and the returned identifier. *)
Definition quick_layout_switch_finish (index_or_layout_id : LayoutId)
  : M (option LayoutId) :=
  (let* ps := get_dockable_plugins in
   for_each ps (fun plugin =>
     try_except (toggle_view_action plugin) (except AttributeError) (ret tt) >>
     let* p := plugin_at plugin in
     let* d := dock_of (dockwidget p) in
     plugin_update plugin (pl_with_action_checked (dw_visible d)))) >>
  _apply_docktabbar_style >>
  ret (Some index_or_layout_id).

(** The guarded part of [quick_layout_switch]; its value tells whether the
    method returned from inside it. *)
Definition quick_layout_switch_try (H : Host) (fuel : nat) (index_or_layout_id : LayoutId)
  : F bool :=
  try_exceptF
    (let+ settings :=
       liftF (load_window_settings
                ("layout_" +:+ str_of_id index_or_layout_id +:+ "/") false
                "quick_layouts") in
     let '(hexstate, window_size, pos, is_maximized, is_fullscreen) := settings in
     if is_None hexstate then
       if negb (in_DEFAULT_LAYOUTS H index_or_layout_id) then
         liftF (critical_message "Warning" custom_layout_error) >>+
         retF true
       else
         (let+ _layout :=
            setup_default_layouts H fuel index_or_layout_id
              hexstate window_size pos is_maximized is_fullscreen in
          retF false)
     else
       set_window_settings H fuel hexstate window_size pos is_maximized is_fullscreen >>+
       retF false)
    (except NoOptionError)
    (liftF
       (try_except
          (let* layout := get_layout index_or_layout_id in
           apply_layout H layout >>
           modify (emit (EvLayoutSetupReady layout)))
          (except SpyderAPIError)
          (critical_message "Warning"
             ("Quick switch layout #" +:+ str_of_id index_or_layout_id
              +:+ " has not yet been defined."))) >>+
     retF false).

(** [focus_widget] lies inside the widget of the plugin. *)
Definition owns (p : Plugin) (focus_widget : option nat) : bool :=
  match focus_widget with
  | Some x => existsb (Nat.eqb x) (owned_widgets p)
  | None => false
  end.

(** One round of the loop of [maximize_dockwidget]. *)
Definition hide_and_select (focus_widget : option nat) (plugin : nat) : M unit :=
  let* p := plugin_at plugin in
  dock_update (dockwidget p) (dw_with_visible false) >>
  try_except
    (let* _w := get_widget plugin in
     let* anc := isAncestorOf plugin focus_widget in
     if anc then set_last_plugin plugin else ret tt)
    any_exception
    (let* anc := isAncestorOf plugin focus_widget in
     if anc then set_last_plugin plugin else ret tt).

(** The part of [maximize_dockwidget] under "Maximize last_plugin". *)
Definition maximize_last_plugin (editor outline_explorer : option nat) : M unit :=
  let* lp := last_plugin_ref in
  let* p := plugin_at lp in
  dock_update (dockwidget p) (dw_with_toggle_view_enabled false) >>
  try_except
    (let* wd := get_widget lp in
     setCentralWidget (Some wd) >>
     plugin_update lp (pl_with_ismaximized true))
    (except AttributeError)
    (setCentralWidget (Some (WSelf lp)) >>
     plugin_update lp (pl_with_ismaximized true)) >>
  try_except
    (let* _w := get_widget lp in
     plugin_update lp (pl_with_widget_shown true) >>
     plugin_update lp (pl_with_visibility true))
    (except AttributeError)
    (plugin_update lp (pl_with_widget_shown true) >>
     plugin_update lp (pl_with_visibility true)) >>
  if option_nat_eqb (Some lp) editor then
    match outline_explorer with
    | Some _ => modify (emit EvOutlineDockWithMaximizedEditor)
    | None => ret tt
    end
  else ret tt.

(** [maximize_dockwidget] when no pane is maximized and [restore] is false. *)
Definition maximize_branch (H : Host) : M unit :=
  let* editor := get_plugin Plugins_Editor in
  let* outline_explorer := get_plugin Plugins_OutlineExplorer in
  let* st := main_saveState H WINDOW_STATE_VERSION in
  modify (on_self (with_state_before_maximizing (Some st))) >>
  let* focus_widget := gets focus in
  let* ps := get_dockable_plugins in
  for_each ps (hide_and_select focus_widget) >>
  let* lp := gets (fun w => _last_plugin (self w)) in
  match lp with
  | None =>
      match editor with
      | Some e => set_last_plugin e >> maximize_last_plugin editor outline_explorer
      | None => ret tt
      end
  | Some _ => maximize_last_plugin editor outline_explorer
  end.

(** [maximize_dockwidget] when a pane is maximized. *)
Definition restore_branch (H : Host) (saved : QByteArray) : M unit :=
  let* editor := get_plugin Plugins_Editor in
  let* outline_explorer := get_plugin Plugins_OutlineExplorer in
  try_except
    (let* lp := last_plugin_ref in
     let* p := plugin_at lp in
     let* _d := dock_of (dockwidget p) in
     let* wd := get_widget lp in
     dock_update (dockwidget p) (dw_with_widget (Some wd)))
    (except AttributeError)
    (let* lp := last_plugin_ref in
     let* p := plugin_at lp in
     dock_update (dockwidget p) (dw_with_widget (Some (WSelf lp)))) >>
  let* lp := last_plugin_ref in
  let* p := plugin_at lp in
  dock_update (dockwidget p) (dw_with_toggle_view_enabled true) >>
  setCentralWidget None >>
  try_except
    (let* _w := get_widget lp in
     plugin_update lp (pl_with_ismaximized false))
    (except AttributeError)
    (plugin_update lp (pl_with_ismaximized false)) >>
  let* _valid := main_restoreState H saved WINDOW_STATE_VERSION in
  modify (on_self (with_state_before_maximizing None)) >>
  (if option_nat_eqb (Some lp) editor then
     match outline_explorer with
     | Some _ => modify (emit EvOutlineHideFromMaximizedEditor)
     | None => ret tt
     end
   else ret tt) >>
  try_except
    (let* _w := get_widget lp in
     let* p := plugin_at lp in
     modify (with_focus (Some (focus_widget p))))
    (except AttributeError)
    (let* p := plugin_at lp in
     modify (with_focus (Some (focus_widget p)))).

(** All dockable plugins have a dock widget of the main window, and the
    remembered plugin, if any, is one of them. *)
Definition maximize_ready (w : World) : bool :=
  forallb (fun p => match dockwidget p with
                    | Some d => (d <? length (mw_docks (main w)))%nat
                    | None => false
                    end) (plugins w)
  && match _last_plugin (self w) with
     | Some t => (t <? length (plugins w))%nat
     | None => true
     end.

(** The plugin that the loop of [maximize_dockwidget] leaves in
    [_last_plugin]: the last plugin, among those visited, that holds the
    focus, and the one remembered before when there is none. *)
Definition select_step (ps : list Plugin) (focus_widget : option nat)
    (acc : option nat) (i : nat) : option nat :=
  match ps !! i with
  | Some p => if owns p focus_widget then Some i else acc
  | None => acc
  end.

(** [_last_plugin] after the rounds for the plugins [visited]. *)
Definition selected (ps : list Plugin) (focus_widget : option nat)
    (visited : list nat) (remembered : option nat) : option nat :=
  fold_left (select_step ps focus_widget) visited remembered.

(** The dockable plugin that holds the focus, if any. *)
Definition focused_plugin (w : World) : option nat :=
  selected (plugins w) (focus w) (seq 0 (length (plugins w))) None.

(** The plugin that [maximize_dockwidget] maximizes. *)
Definition maximize_target (w : World) : option nat :=
  match focused_plugin w with
  | Some t => Some t
  | None =>
      match _last_plugin (self w) with
      | Some t => Some t
      | None => find_plugin Plugins_Editor (plugins w) 0
      end
  end.

(** The widget of a plugin: [get_widget()] for the new API, the plugin
    itself for the old one. *)
Definition widget_of (t : nat) (p : Plugin) : Widget :=
  match api p with NewApi => WGet t | OldApi => WSelf t end.

(** The dock area once the maximized pane is back in its dock widget and
    the saved state was handed to [restoreState]. *)
Definition restored_docks (H : Host) (saved : QByteArray) (t : nat) (p : Plugin)
    (d : nat) (x : DockWidget) (docks : list DockWidget) : list DockWidget :=
  let docks1 :=
    <[d := dw_with_toggle_view_enabled true (dw_with_widget (Some (widget_of t p)) x)]>
      docks in
  match restoreState H saved WINDOW_STATE_VERSION docks1 with
  | Some ds => ds
  | None => docks1
  end.

(** What C2 as stated takes for the maximized plugin: the focused plugin,
    or the Editor. *)
Definition claimed_target (w : World) : option nat :=
  match focused_plugin w with
  | Some t => Some t
  | None => find_plugin Plugins_Editor (plugins w) 0
  end.

Module MaximizeTwice.

(** The console has the focus and is maximized, then restored; the focus
    then leaves the dockable plugins and a pane is maximized again. *)
Definition start : World := with_focus (Some 20%nat) Demo.world1.
Definition maximized : World := world_of (maximize_dockwidget Demo.host false start).
Definition restored : World := world_of (maximize_dockwidget Demo.host false maximized).
Definition unfocused : World := with_focus None restored.
Definition maximized_again : World :=
  world_of (maximize_dockwidget Demo.host false unfocused).

End MaximizeTwice.

(** What one round does to [order] for a plugin with a dock widget. *)
Definition place (order : list OrderItem) (i : nat) (name : string) : list OrderItem :=
  match order_index name order with
  | Some pos => <[pos := OAction i]> order
  | None => (order ++ [OAction i])%list
  end.

(** The rounds for all plugins with a dock widget. *)
Definition place_all (shown : list (nat * string)) (order : list OrderItem)
  : list OrderItem :=
  fold_left (fun o e => place o (fst e) (snd e)) shown order.

(** The section names still present in [order]. *)
Definition names_of (order : list OrderItem) : list string :=
  omap (fun e => match e with OStr s => Some s | _ => None end) order.

(** The first of the plugins with configuration section [s]. *)
Fixpoint find_section (s : string) (shown : list (nat * string)) : option nat :=
  match shown with
  | [] => None
  | e :: rest => if String.eqb (snd e) s then Some (fst e) else find_section s rest
  end.

(** A section name gives way to the action of the plugin of that section. *)
Definition resolve_item (shown : list (nat * string)) (e : OrderItem) : OrderItem :=
  match e with
  | OStr s => match find_section s shown with
              | Some i => OAction i
              | None => OStr s
              end
  | _ => e
  end.

(** The plugins whose section is not a name of the list. *)
Definition unlisted (B : list OrderItem) (shown : list (nat * string))
  : list (nat * string) :=
  filter (fun e => snd e ∉ names_of B) shown.

(** The plugin at position [i] with its section, if it has a dock widget. *)
Definition shown_entry (ps : list Plugin) (i : nat) : option (nat * string) :=
  match ps !! i with
  | Some p => match dockwidget p with
              | Some _ => Some (i, CONF_SECTION p)
              | None => None
              end
  | None => None
  end.

(** The dockable plugins that have a dock widget, in the order of
    [get_dockable_plugins()]. *)
Definition shown_plugins (w : World) : list (nat * string) :=
  omap (shown_entry (plugins w)) (seq 0 (length (plugins w))).

(** What the round for the plugin at position [i] does to [order]. *)
Definition place_plugin (ps : list Plugin) (order : list OrderItem) (i : nat)
  : list OrderItem :=
  match shown_entry ps i with
  | Some e => place order (fst e) (snd e)
  | None => order
  end.

(** What the menu receives for the final list. *)
Definition items_of (order : list OrderItem) : list (option nat) :=
  flat_map (fun e => match e with
                     | OStr _ => []
                     | ONone => [None]
                     | OAction a => [Some a]
                     end) order.

(** The menu items for the names of the list: an action for each name
    whose section is the section of a shown plugin, [None] for each
    separator. *)
Definition listed_items (shown : list (nat * string)) : list (option nat) :=
  items_of (map (resolve_item shown) plugins_menu_order).

(** A plugin takes the place of a name of the list: its section is a name
    of the list and it is the first of the plugins with that section. *)
Definition takes_position (B : list OrderItem) (shown : list (nat * string))
    (e : nat * string) : Prop :=
  snd e ∈ names_of B /\ find_section (snd e) shown = Some (fst e).

(** The plugins that take no place of the list: the ones whose section is
    no name of the list, and the later plugins of a section that has a
    plugin already. *)
Definition appended (B : list OrderItem) (shown : list (nat * string))
  : list (nat * string) :=
  filter (fun e => ~ takes_position B shown e) shown.

(** The menu items appended after the items of the list. *)
Definition appended_items (shown : list (nat * string)) : list (option nat) :=
  map (fun e => Some (fst e)) (appended plugins_menu_order shown).

(** The menu items appended after the items of the list if the plugins
    were told apart by their section alone. *)
Definition unlisted_items (shown : list (nat * string)) : list (option nat) :=
  map (fun e => Some (fst e)) (unlisted plugins_menu_order shown).

Module SharedSection.

(** Two panes with the configuration section of the editor. *)
Definition second_editor : Plugin :=
  mkPlugin "editor_2" "editor" NewApi (Some 1%nat) true None false true true
           [20%nat] 20%nat.

Definition world : World :=
  on_plugins (fun _ => [Demo.editor; second_editor]) Demo.world0.

End SharedSection.

(** * Further vocabulary *)

(** The main window without its dock area and its central widget, and the
    stores of options: what maximizing or restoring a pane leaves alone. *)
Definition window_frame (w : World)
  : MainWindow * gmap (string * string) PyVal * gmap (string * string) PyVal :=
  (with_docks [] (with_central None (main w)), conf w, conf_defaults w).

(** The position that [save_current_window_settings] stores. *)
Definition saved_position (w : World) : Z * Z :=
  (if fst (mw_pos (main w)) >? 0 then fst (mw_pos (main w)) else 0,
   if snd (mw_pos (main w)) >? 0 then snd (mw_pos (main w)) else 0).

(** The test of [load_window_settings] for a position outside the virtual
    screen. *)
Definition off_screen_check (current_width current_height : Z) (pos : PyVal) : M bool :=
  let* width := subscript pos 0 in
  let* height := subscript pos 1 in
  let* off_x := int_lt current_width width in
  if off_x then ret true else int_lt current_height height.

(** The world once [save_current_window_settings] stored size, flags and
    position. *)
Definition geometry_saved (prefix section : string) (w : World) : World :=
  on_conf (insert (section, prefix +:+ "position")
             (VTuple [VInt (fst (saved_position w)); VInt (snd (saved_position w))]))
    (on_conf (insert (section, prefix +:+ "is_fullscreen")
                (VBool (isFullScreen (main w))))
       (on_conf (insert (section, prefix +:+ "is_maximized")
                   (VBool (isMaximized (main w))))
          (on_conf (insert (section, prefix +:+ "size")
                      (VTuple [VInt (fst (mw_size (main w)));
                               VInt (snd (mw_size (main w)))])) w))).

(** The [state] option that [save_current_window_settings] stores. *)
Definition saved_state (H : Host) (none_state : bool) (w : World) : PyVal :=
  if none_state then VNone
  else VStr (qbytearray_to_str H (saveState H (mw_docks (main w)) WINDOW_STATE_VERSION)).

(** The end of [save_current_window_settings], after the maximized pane
    was restored. *)
Definition state_saved (H : Host) (prefix section : string) (none_state : bool)
    (w : World) : World :=
  on_conf (insert (section, prefix +:+ "statusbar")
             (VBool (negb (mw_statusbar_hidden (main w)))))
    (on_conf (insert (section, prefix +:+ "state") (saved_state H none_state w)) w).

(** The dockable plugins before position [i] all have a dock widget of the
    main window. *)
Definition docks_ready_before (i : nat) (w : World) : bool :=
  forallb (fun p => match dockwidget p with
                    | Some d => (d <? length (mw_docks (main w)))%nat
                    | None => false
                    end) (take i (plugins w)).

(** Whether this is the first run of Spyder. *)
Definition first_spyder_run (w : World) : bool := _first_spyder_run (self w).

(** A method with a bound on the depth of calls leaves a component of the
    world as it was, whenever it ends. *)
Definition preservesF {X A} (proj : World -> X) (m : F A) : Prop :=
  forall w r, m w = Some r -> proj (world_of r) = proj w.

Module FirstRun.

(** The first run of Spyder, and the world after window settings without
    a state were applied. *)
Definition start : World :=
  on_self (fun s => mkLayout None VNone VNone None None false false true None None None)
    Demo.world1.
Definition applied : World :=
  match set_window_settings Demo.host 1 VNone (VTuple [VInt 900; VInt 600])
          (VTuple [VInt 3; VInt 4]) (VBool true) (VBool false) start with
  | Some r => world_of r
  | None => start
  end.

End FirstRun.

(** From one world to a later one no dock widget started to float. *)
Definition no_new_floating (w w' : World) : Prop :=
  forall d x', mw_docks (main w') !! d = Some x' ->
    exists x, mw_docks (main w) !! d = Some x /\
              (dw_floating x' = true -> dw_floating x = true).

(** A computation takes every world to one related to it, however it
    ends. *)
Definition stable {A} (R : World -> World -> Prop) (m : M A) : Prop :=
  forall w, R w (world_of (m w)).

(** The plugin that [close_current_dockwidget] closes: the first dockable
    plugin that holds the focus, with its position. *)
Definition first_owner (w : World) : option (nat * Plugin) :=
  list_find (fun p => owns p (focus w) = true) (plugins w).

(** What a run of [close_current_dockwidget] from [w] comes to for the
    plugin at position [i] that holds the focus: nothing when its
    toggle-view action is unchecked already; otherwise the action is
    unchecked and, when the slot of the action returns, the method returns
    from the world the slot left. *)
Definition closes (toggle_view : nat -> bool -> M unit) (run : Res unit)
    (i : nat) (p : Plugin) (w : World) : Prop :=
  if action_checked p then
    forall w',
      toggle_view i false
        (on_plugins (fun ps => <[i := pl_with_action_checked false p]> ps) w)
      = Ok tt w' ->
      run = Ok tt w'
  else run = Ok tt w.

Module ClosePane.

(** A slot that shows or hides the dock widget of the plugin. *)
Definition toggle_view (plugin : nat) (checked : bool) : M unit :=
  let* p := plugin_at plugin in
  dock_update (dockwidget p) (dw_with_visible checked).

(** The console has the focus. *)
Definition start : World := with_focus (Some 20%nat) Demo.world1.

End ClosePane.

(** The plugin remembered in [_last_plugin], if any, is a dockable plugin. *)
Definition last_plugin_known (w : World) : bool :=
  match _last_plugin (self w) with
  | Some t => (t <? length (plugins w))%nat
  | None => true
  end.

(** A layout is registered under the identifier. *)
Definition registered (layout_id : LayoutId) (w : World) : bool :=
  existsb (fun e => LayoutId_eqb (fst e) layout_id) (spyder_layouts (container w)).

(** [setup_default_layouts], outside the first run, up to the selection of
    the layout, when no pane is maximized. *)
Definition prepared_for_layout (w : World) : World :=
  on_main (setFixedWidth (fst (mw_size (main w))))
    ((if negb (isMaximized (main w) || truthy (_maximized_flag (self w)))
      then on_main showMaximized else fun w0 => w0)
       (on_main (with_updates_enabled false) w)).

(** The world once a layout arranged the window and the plugins. *)
Definition layout_applied (H : Host) (layout : LayoutId) (w : World) : World :=
  on_plugins (fun _ => snd (set_main_window_layout H layout (main w) (plugins w)))
    (on_main (fun _ => fst (set_main_window_layout H layout (main w) (plugins w))) w).

(** The world once [setup_default_layouts] regenerated a default layout
    outside the first run, no pane being maximized: the window was prepared,
    the layout arranged the window and the plugins, the width limits were
    put back, the window was maximized unless it was so already, its
    updates were enabled and the layout was announced. *)
Definition default_layout_regenerated (H : Host) (layout : LayoutId) (w : World)
  : World :=
  let arranged :=
    on_main (with_max_width (mw_max_width (main w)))
      (on_main (with_min_width (mw_min_width (main w)))
         (layout_applied H layout (prepared_for_layout w))) in
  emit (EvLayoutSetupReady layout)
    (on_main (with_updates_enabled true)
       ((if negb (isMaximized (main arranged) || truthy (_maximized_flag (self w)))
         then on_main showMaximized else fun w0 => w0) arranged)).

(** The same on the first run, once the window settings were applied: the
    layout arranged the window and the plugins, the option [first_time] was
    cleared, the updates were enabled and the layout was announced. *)
Definition default_layout_regenerated_first_run (H : Host) (layout : LayoutId)
    (w : World) : World :=
  emit (EvLayoutSetupReady layout)
    (on_main (with_updates_enabled true)
       (on_conf (insert (LAYOUT_CONF_SECTION, "first_time") (VBool false))
          (layout_applied H layout (on_main (with_updates_enabled false) w)))).

(** The message of [quick_layout_switch] for a layout that is neither
    stored nor registered. *)
Definition not_defined_message (index_or_layout_id : LayoutId) : Event :=
  EvCriticalMessage "Warning"
    ("Quick switch layout #" +:+ str_of_id index_or_layout_id
     +:+ " has not yet been defined.").





(** The two window hints of the fullscreen mode on Windows. *)
Definition fullscreen_hints : Z := Z.lor FramelessWindowHint WindowStaysOnTopHint.

(** The registered layouts. *)
Definition layouts_of (w : World) : list (LayoutId * string) :=
  spyder_layouts (container w).

(** The stored options and the current quick layout. *)
Definition options_and_current (w : World)
  : gmap (string * string) PyVal * option LayoutId :=
  (conf w, _current_quick_layout (self w)).

(** The identifiers and the displayed names of the registered layouts, as
    [setup_layout] stores them. *)
Definition layout_ids (w : World) : PyVal :=
  VList (map (fun e => PyVal_of_id (fst e)) (layouts_of w)).
Definition layout_ui_names (w : World) : PyVal :=
  VList (map (fun e => VStr (snd e)) (layouts_of w)).

(** The world after [toggle_fullscreen] left fullscreen. *)
Definition left_fullscreen (H : Host) (w : World) : World :=
  on_container (ct_with_fullscreen_action_icon (fullscreen_icon false))
    (on_main (fun m =>
        (if truthy (_maximized_flag (self w)) then showMaximized else fun m0 => m0)
          (showNormal
             (if String.eqb (os_name H) "nt" then
                match _saved_normal_geometry (self w) with
                | Some g =>
                    setGeometry g
                      (with_window_flags
                         (Z.lxor (mw_window_flags m)
                            (Z.lor FramelessWindowHint WindowStaysOnTopHint)) m)
                | None => m
                end
              else m)))
       (on_self (with_fullscreen_flag (VBool false)) w)).

(** A method with a bound on the depth of calls returned a value. *)
Definition returned {A} (r : option (Res A)) : bool :=
  match r with Some (Ok _ _) => true | _ => false end.

Module ResetLayouts.

(** The layouts are reset to the defaults in an application that has
    stored quick layouts. *)
Definition reset : World :=
  match setup_layout Demo.host 3 true Demo.world_layouts with
  | Some r => world_of r
  | None => Demo.world_layouts
  end.

End ResetLayouts.

(** * Properties *)

(** ** Reasoning about runs *)

Lemma preserves_ret {X A} (proj : World -> X) (a : A) : preserves proj (ret a).
Proof. intros w; reflexivity. Qed.

Lemma preserves_raise {X A} (proj : World -> X) (e : Exc) :
  preserves proj (@raise A e).
Proof. intros w; reflexivity. Qed.

Lemma preserves_gets {X A} (proj : World -> X) (f : World -> A) :
  preserves proj (gets f).
Proof. intros w; reflexivity. Qed.

Lemma preserves_modify {X} (proj : World -> X) (f : World -> World) :
  (forall w, proj (f w) = proj w) -> preserves proj (modify f).
Proof. intros Hf w; apply Hf. Qed.

Lemma preserves_bind {X A B} (proj : World -> X) (m : M A) (k : A -> M B) :
  preserves proj m -> (forall a, preserves proj (k a)) -> preserves proj (bind m k).
Proof.
  intros Hm Hk w. unfold bind. specialize (Hm w).
  destruct (m w) as [a w'|e w']; simpl in *.
  - rewrite Hk. exact Hm.
  - exact Hm.
Qed.

Lemma preserves_try {X A} (proj : World -> X) (body handler : M A) catches :
  preserves proj body -> preserves proj handler ->
  preserves proj (try_except body catches handler).
Proof.
  intros Hb Hh w. unfold try_except. specialize (Hb w).
  destruct (body w) as [a w'|e w']; simpl in *; [exact Hb|].
  destruct (catches e); simpl; [rewrite Hh|]; exact Hb.
Qed.

Lemma preserves_for_each {X Y} (proj : World -> X) (l : list Y) body :
  (forall y, preserves proj (body y)) -> preserves proj (for_each l body).
Proof.
  intros Hb. induction l as [|y l IH]; simpl.
  - apply preserves_ret.
  - apply preserves_bind; [apply Hb | intros _; exact IH].
Qed.

Lemma preserves_plugin_at {X} (proj : World -> X) i : preserves proj (plugin_at i).
Proof. intros w. unfold plugin_at. destruct (plugins w !! i); reflexivity. Qed.

Lemma preserves_dock_of {X} (proj : World -> X) r : preserves proj (dock_of r).
Proof.
  intros w. unfold dock_of. destruct r as [d|]; [|reflexivity].
  destruct (mw_docks (main w) !! d); reflexivity.
Qed.

Create HintDb frame.

#[export] Hint Resolve preserves_ret preserves_raise preserves_gets
  preserves_plugin_at preserves_dock_of : frame.

Lemma ignores_gui_conf : ignores_gui conf.
Proof. repeat split; auto. Qed.

Section Frames.

Variable H : Host.
Context {X : Type} (proj : World -> X).
Hypothesis Hproj : ignores_gui proj.

Lemma preserves_on_main g : preserves proj (modify (on_main g)).
Proof. apply preserves_modify. apply Hproj. Qed.

Lemma preserves_on_plugins g : preserves proj (modify (on_plugins g)).
Proof. apply preserves_modify. apply Hproj. Qed.

Lemma preserves_with_focus x : preserves proj (modify (with_focus x)).
Proof. apply preserves_modify. apply Hproj. Qed.

Lemma preserves_emit e : preserves proj (modify (emit e)).
Proof. apply preserves_modify. apply Hproj. Qed.

Lemma preserves_plugin_update i f : preserves proj (plugin_update i f).
Proof.
  unfold plugin_update. apply preserves_bind; [auto with frame|].
  intros p. apply preserves_on_plugins.
Qed.

Lemma preserves_dock_update r f : preserves proj (dock_update r f).
Proof.
  unfold dock_update. apply preserves_bind; [auto with frame|].
  intros x. destruct r; [apply preserves_on_main | apply preserves_ret].
Qed.

Lemma preserves_get_widget i : preserves proj (get_widget i).
Proof.
  unfold get_widget. apply preserves_bind; [auto with frame|].
  intros p. destruct (api p); auto with frame.
Qed.

Lemma preserves_isAncestorOf i x : preserves proj (isAncestorOf i x).
Proof.
  unfold isAncestorOf. apply preserves_bind; [auto with frame|].
  intros p. destruct x; auto with frame.
Qed.

Lemma preserves_last_plugin_ref : preserves proj last_plugin_ref.
Proof.
  unfold last_plugin_ref. apply preserves_bind; [auto with frame|].
  intros lp. destruct lp; auto with frame.
Qed.

Lemma preserves_main_restoreState q v : preserves proj (main_restoreState H q v).
Proof.
  intros w. unfold main_restoreState.
  destruct (restoreState H q v (mw_docks (main w))); [|reflexivity].
  simpl. apply Hproj.
Qed.

End Frames.

#[export] Hint Resolve preserves_on_main preserves_on_plugins preserves_with_focus
  preserves_emit preserves_plugin_update preserves_dock_update
  preserves_get_widget preserves_isAncestorOf preserves_last_plugin_ref
  preserves_main_restoreState ignores_gui_conf : frame.

(** Walks through the structure of a method to show that it leaves a
    component alone. *)
Ltac frame_step :=
  match goal with
  | |- preserves _ (bind _ _) => apply preserves_bind
  | |- preserves _ (try_except _ _ _) => apply preserves_try
  | |- preserves _ (for_each _ _) => apply preserves_for_each
  | |- preserves _ (modify _) =>
      first [ solve [auto with frame]
            | apply preserves_modify; intros; reflexivity ]
  | |- preserves _ (match ?x with _ => _ end) => destruct x
  | |- preserves _ _ => solve [auto with frame]
  | |- forall _, _ => intro
  end.
Ltac frame := cbv zeta; repeat frame_step.

(** Maximising or restoring a pane never touches the configuration. *)
Lemma preserves_conf_maximize_dockwidget (H : Host) restore :
  preserves conf (maximize_dockwidget H restore).
Proof.
  unfold maximize_dockwidget, get_plugin, main_saveState, get_dockable_plugins,
    set_last_plugin, setCentralWidget.
  frame.
Qed.

(** ** Strings used as option names *)

Lemma append_inv_prefix (p a b : string) : p +:+ a = p +:+ b -> a = b.
Proof.
  induction p as [|c p IH]; simpl; intros E; [exact E|].
  injection E as E. auto.
Qed.

Lemma option_name_ne (p a b : string) : a <> b -> p +:+ a <> p +:+ b.
Proof. intros Hne E. apply Hne. exact (append_inv_prefix p a b E). Qed.

Lemma conf_key_ne (section p a b : string) :
  a <> b -> (section, p +:+ a) <> (section, p +:+ b).
Proof. intros Hne E. injection E as E. exact (option_name_ne p a b Hne E). Qed.

(** ** Restoring when nothing is maximized *)

(** C9.  [maximize_dockwidget(restore=True)] with no saved pre-maximize
    state returns at once and the world is the one it was: the last-plugin
    reference, the saved state, the visibility of every dock widget and the
    central widget of the main window are unchanged. *)
Theorem maximize_dockwidget_restore_noop (H : Host) (w : World) :
  _state_before_maximizing (self w) = None ->
  maximize_dockwidget H true w = Ok tt w.
Proof.
  intros Hnone. unfold maximize_dockwidget, bind, get_plugin, gets.
  rewrite Hnone. reflexivity.
Qed.

Lemma maximize_dockwidget_restore_noop_witness :
  maximize_dockwidget Demo.host true Demo.world0 = Ok tt Demo.world0.
Proof. apply (maximize_dockwidget_restore_noop Demo.host Demo.world0). reflexivity. Defined.

(** ** The saved window position *)

(** C8.  Whatever the position (x, y) of the main window,
    [save_current_window_settings] leaves under the option
    [prefix + 'position'] the pair (x if x > 0 else 0, y if y > 0 else 0),
    whose two coordinates are not negative; this holds for the world the
    call ends in, also when restoring the maximized pane raises. *)
Theorem save_current_window_settings_position
    (H : Host) (prefix section : string) (none_state : bool) (w : World) :
  let x := fst (mw_pos (main w)) in
  let y := snd (mw_pos (main w)) in
  let sx := if x >? 0 then x else 0 in
  let sy := if y >? 0 then y else 0 in
  conf (world_of (save_current_window_settings H prefix section none_state w))
    !! (section, prefix +:+ "position") = Some (VTuple [VInt sx; VInt sy])
  /\ 0 <= sx /\ 0 <= sy.
Proof.
  intros x y sx sy. split.
  - unfold save_current_window_settings.
    unfold bind at 1 2. unfold gets at 1 2.
    unfold bind at 1. unfold set_conf at 1. unfold modify at 1.
    unfold bind at 1. unfold bind at 1. unfold gets at 1.
    unfold set_conf at 1. unfold modify at 1.
    unfold bind at 1. unfold bind at 1. unfold gets at 1.
    unfold set_conf at 1. unfold modify at 1.
    unfold bind at 1. unfold set_conf at 1. unfold modify at 1.
    unfold bind at 1.
    match goal with
    | |- context [maximize_dockwidget H true ?w1] =>
        pose proof (preserves_conf_maximize_dockwidget H true w1) as Hc;
        destruct (maximize_dockwidget H true w1) as [[] w2|e w2]
    end; simpl in Hc.
    + assert (Hpos : conf w2 !! (section, prefix +:+ "position")
                     = Some (VTuple [VInt sx; VInt sy])).
      { rewrite Hc. apply lookup_insert_eq. }
      unfold bind, gets, set_conf, modify, main_saveState.
      destruct none_state; simpl;
        rewrite lookup_insert_ne by (apply conf_key_ne; discriminate);
        rewrite lookup_insert_ne by (apply conf_key_ne; discriminate);
        exact Hpos.
    + simpl. rewrite Hc. apply lookup_insert_eq.
  - subst sx sy. split.
    + destruct (Z.gtb_spec x 0); lia.
    + destruct (Z.gtb_spec y 0); lia.
Qed.

(** ** Loops over the dockable plugins *)

(** A loop whose every round returns keeps an invariant that may mention
    the items already visited. *)
Lemma for_each_inv {X} (I : list X -> World -> Prop) (body : X -> M unit) :
  forall (l pre : list X) (w : World),
    I pre w ->
    (forall done x w0, I done w0 -> x ∈ l ->
       exists w1, body x w0 = Ok tt w1 /\ I (done ++ [x])%list w1) ->
    exists w', for_each l body w = Ok tt w' /\ I (pre ++ l)%list w'.
Proof.
  induction l as [|x l IH]; intros pre w HI Hstep; simpl.
  - exists w. rewrite app_nil_r. split; [reflexivity | exact HI].
  - destruct (Hstep pre x w HI) as (w1 & Hb & HI1); [left|].
    unfold bind. rewrite Hb.
    destruct (IH (pre ++ [x])%list w1 HI1) as (w' & Hl & HI').
    { intros done y w0 HI0 Hy. apply Hstep; [exact HI0 | right; exact Hy]. }
    exists w'. split; [exact Hl|]. rewrite <- app_assoc in HI'. exact HI'.
Qed.

Lemma docks_wfb_lookup (w : World) i p d :
  docks_wfb w = true -> plugins w !! i = Some p -> dockwidget p = Some d ->
  (d < length (mw_docks (main w)))%nat.
Proof.
  unfold docks_wfb. rewrite forallb_forall. intros Hall Hi Hd.
  assert (Hin : In p (plugins w)).
  { apply list_elem_of_In. eapply list_elem_of_lookup_2; eauto. }
  specialize (Hall p Hin). rewrite Hd in Hall. apply Nat.ltb_lt in Hall. exact Hall.
Qed.

Lemma dock_update_run (w : World) d x f :
  mw_docks (main w) !! d = Some x ->
  dock_update (Some d) f w
  = Ok tt (on_main (fun m => with_docks (<[d := f x]> (mw_docks m)) m) w).
Proof. intros Hx. unfold dock_update, bind, dock_of. rewrite Hx. reflexivity. Qed.

(** ** Locking the interface *)

Lemma toggle_lock_unfold (value : option bool) (w : World) :
  toggle_lock value w
  = (toggle_lock_panes >> toggle_lock_toolbars) (toggle_lock_recorded value w).
Proof. reflexivity. Qed.

Lemma ignores_gui_flag_and_option : ignores_gui flag_and_option.
Proof. repeat split; auto. Qed.

#[export] Hint Resolve ignores_gui_flag_and_option : frame.

Lemma preserves_flag_and_option_panes : preserves flag_and_option toggle_lock_panes.
Proof. unfold toggle_lock_panes, get_dockable_plugins. frame. Qed.

Lemma preserves_flag_and_option_toolbars : preserves flag_and_option toggle_lock_toolbars.
Proof. unfold toggle_lock_toolbars. frame. Qed.

Lemma toggle_lock_panes_ok (w : World) :
  docks_wfb w = true ->
  exists w', toggle_lock_panes w = Ok tt w' /\
    self w' = self w /\ plugins w' = plugins w /\
    length (mw_docks (main w')) = length (mw_docks (main w)) /\
    forall i p d, plugins w !! i = Some p -> dockwidget p = Some d ->
      exists x, mw_docks (main w') !! d = Some x /\
                lock_applied (_interface_locked (self w)) x.
Proof.
  intros Hwf. unfold toggle_lock_panes, bind at 1, get_dockable_plugins, gets.
  set (locked := _interface_locked (self w)).
  set (n := length (plugins w)).
  pose (I := fun (done : list nat) (w0 : World) =>
    self w0 = self w /\ plugins w0 = plugins w /\
    length (mw_docks (main w0)) = length (mw_docks (main w)) /\
    forall i p d, i ∈ done -> plugins w !! i = Some p -> dockwidget p = Some d ->
      exists x, mw_docks (main w0) !! d = Some x /\ lock_applied locked x).
  match goal with
  | |- exists w', for_each ?l ?body w = _ /\ _ =>
      destruct (for_each_inv I body l [] w) as (w' & Hrun & HI)
  end.
  - repeat split; auto. intros i p d Hin. inversion Hin.
  - intros done x w0 (Hs & Hp & Hlen & Hdone) Hx.
    apply elem_of_seq in Hx. destruct Hx as [_ Hx]. simpl in Hx.
    destruct (lookup_lt_is_Some_2 (plugins w) x Hx) as [p Hpx].
    unfold bind at 1, plugin_at. rewrite Hp, Hpx.
    destruct (dockwidget p) as [d|] eqn:Hd.
    + pose proof (docks_wfb_lookup w x p d Hwf Hpx Hd) as Hlt.
      rewrite <- Hlen in Hlt.
      destruct (lookup_lt_is_Some_2 _ _ Hlt) as [dk Hdk].
      unfold bind at 1, gets. rewrite Hs. fold locked.
      assert (Hkeep : forall (f : DockWidget -> DockWidget) (y : DockWidget) (w1 : World),
                 self w1 = self w -> plugins w1 = plugins w ->
                 length (mw_docks (main w1)) = length (mw_docks (main w)) ->
                 mw_docks (main w1) !! d = Some y ->
                 (forall i p d, i ∈ done -> plugins w !! i = Some p ->
                    dockwidget p = Some d ->
                    exists x, mw_docks (main w1) !! d = Some x /\ lock_applied locked x) ->
                 lock_applied locked (f y) ->
                 (forall z, lock_applied locked z -> lock_applied locked (f z)) ->
                 I (done ++ [x])%list
                   (on_main (fun m => with_docks (<[d := f y]> (mw_docks m)) m) w1)).
      { intros f y w1 Hs1 Hp1 Hlen1 Hy Hdone1 Hfy Hf.
        repeat split; auto.
        - simpl. rewrite length_insert. exact Hlen1.
        - intros i q e Hi Hq He. simpl.
          destruct (decide (e = d)) as [->|Hne].
          + exists (f y). split; [|exact Hfy].
            apply list_lookup_insert_eq. eapply lookup_lt_Some; eauto.
          + rewrite list_lookup_insert_ne by congruence.
            apply elem_of_app in Hi. destruct Hi as [Hi|Hi].
            * eapply Hdone1; eauto.
            * apply list_elem_of_singleton in Hi. subst i.
              rewrite Hpx in Hq. injection Hq as <-. congruence. }
      destruct locked eqn:Hl.
      * unfold bind at 1. unfold bind at 1. unfold dock_of. rewrite Hdk.
        destruct (dw_floating dk) eqn:Hfl.
        -- rewrite (dock_update_run w0 d dk) by exact Hdk.
           match goal with
           | |- context [dock_update (Some d) ?f ?w1] =>
               rewrite (dock_update_run w1 d (dw_with_floating false dk))
           end.
           2:{ simpl. apply list_lookup_insert_eq. eapply lookup_lt_Some; eauto. }
           eexists. split; [reflexivity|].
           match goal with
           | |- I _ (on_main ?g (on_main ?g0 w0)) =>
               replace (on_main g (on_main g0 w0))
                 with (on_main (fun m => with_docks
                         (<[d := dw_with_title_bar false (dw_with_floating false dk)]>
                            (mw_docks m)) m) w0)
           end.
           2:{ unfold on_main, with_docks; simpl. rewrite list_insert_insert_eq.
               reflexivity. }
           apply (Hkeep (fun z => dw_with_title_bar false (dw_with_floating false z)) dk w0);
             auto.
           ++ split; [reflexivity | reflexivity].
           ++ intros z _. split; reflexivity.
        -- unfold ret at 1.
           rewrite (dock_update_run w0 d dk) by exact Hdk.
           eexists. split; [reflexivity|].
           apply (Hkeep (dw_with_title_bar false) dk w0); auto.
           ++ split; [reflexivity | intros _; exact Hfl].
           ++ intros z [_ Hz]. split; [reflexivity | exact Hz].
      * rewrite (dock_update_run w0 d dk) by exact Hdk.
        eexists. split; [reflexivity|].
        apply (Hkeep (dw_with_title_bar true) dk w0); auto.
        -- split; [reflexivity | discriminate].
        -- intros z _. split; [reflexivity | discriminate].
    + eexists. split; [reflexivity|].
      repeat split; auto.
      intros i q e Hi Hq He.
      apply elem_of_app in Hi. destruct Hi as [Hi|Hi].
      * eapply Hdone; eauto.
      * apply list_elem_of_singleton in Hi. subst i.
        rewrite Hpx in Hq. injection Hq as <-. congruence.
  - destruct HI as (Hs & Hp & Hlen & Hall).
    exists w'. split; [exact Hrun|]. repeat split; auto.
    intros i p d Hi Hd. apply (Hall i p d); auto.
    simpl. apply elem_of_seq. split; [lia|]. simpl.
    eapply lookup_lt_Some; eauto.
Qed.

(** C10.  After [toggle_lock], however it ends, the in-memory flag and the
    option 'panes_locked' of section 'main' both hold the new value: the
    negation of the old flag for [value=None], [value] otherwise.  When the
    dock-widget references are sound the call returns, and every dockable
    plugin with a dock widget has its title bar removed and floating
    disabled when locked, its title bar set when unlocked. *)
Theorem toggle_lock_flag_option_panes (value : option bool) (w : World) :
  let new := toggle_lock_new value w in
  let w' := world_of (toggle_lock value w) in
  _interface_locked (self w') = new /\
  conf w' !! ("main", "panes_locked") = Some (VBool new) /\
  (docks_wfb w = true ->
   toggle_lock value w = Ok tt w' /\
   forall i p d, plugins w !! i = Some p -> dockwidget p = Some d ->
     exists x, mw_docks (main w') !! d = Some x /\ lock_applied new x).
Proof.
  intros new w'. subst w'. rewrite toggle_lock_unfold.
  set (w1 := toggle_lock_recorded value w).
  assert (Hfo : flag_and_option (world_of ((toggle_lock_panes >> toggle_lock_toolbars) w1))
                = (new, Some (VBool new))).
  { rewrite (preserves_bind flag_and_option toggle_lock_panes (fun _ => toggle_lock_toolbars)).
    - unfold flag_and_option, w1, toggle_lock_recorded. simpl.
      rewrite lookup_insert_eq. reflexivity.
    - apply preserves_flag_and_option_panes.
    - intros _. apply preserves_flag_and_option_toolbars. }
  unfold flag_and_option in Hfo. injection Hfo as Hflag Hopt.
  split; [exact Hflag|]. split; [exact Hopt|].
  intros Hwf.
  destruct (toggle_lock_panes_ok w1) as (w2 & Hrun & Hs & Hp & Hlen & Hall).
  { exact Hwf. }
  unfold bind. rewrite Hrun. unfold toggle_lock_toolbars, bind, gets, modify.
  destruct (toolbar_available w2); simpl; (split; [reflexivity|]);
    intros i p d Hi Hd; apply (Hall i p d Hi Hd).
Qed.

Lemma toggle_lock_flag_option_panes_witness :
  toggle_lock None Demo.world0 = Ok tt (world_of (toggle_lock None Demo.world0)) /\
  forall i p d, plugins Demo.world0 !! i = Some p -> dockwidget p = Some d ->
    exists x, mw_docks (main (world_of (toggle_lock None Demo.world0))) !! d = Some x /\
              lock_applied (toggle_lock_new None Demo.world0) x.
Proof.
  apply (proj2 (proj2 (toggle_lock_flag_option_panes None Demo.world0))).
  reflexivity.
Defined.

(** ** Fullscreen *)

Lemma isMaximized_showNormal m : isMaximized (showNormal m) = false.
Proof.
  unfold isMaximized, showNormal, with_visible, with_window_state.
  cbn [mw_window_state].
  rewrite Z.ldiff_spec by lia. apply andb_false_r.
Qed.

Lemma isFullScreen_showNormal m : isFullScreen (showNormal m) = false.
Proof.
  unfold isFullScreen, showNormal, with_visible, with_window_state.
  cbn [mw_window_state].
  rewrite Z.ldiff_spec by lia. apply andb_false_r.
Qed.

Lemma isMaximized_showMaximized m : isMaximized (showMaximized m) = true.
Proof.
  unfold isMaximized, showMaximized, with_visible, with_window_state.
  cbn [mw_window_state].
  rewrite Z.lor_spec. apply orb_true_r.
Qed.

Lemma isFullScreen_showMaximized m : isFullScreen (showMaximized m) = false.
Proof.
  unfold isFullScreen, showMaximized, with_visible, with_window_state.
  cbn [mw_window_state].
  rewrite Z.lor_spec, Z.ldiff_spec by lia.
  rewrite orb_false_r. apply andb_false_r.
Qed.

Lemma isFullScreen_showFullScreen m : isFullScreen (showFullScreen m) = true.
Proof.
  unfold isFullScreen, showFullScreen, with_visible, with_window_state.
  cbn [mw_window_state].
  rewrite Z.lor_spec. apply orb_true_r.
Qed.

Lemma isMaximized_showFullScreen m : isMaximized (showFullScreen m) = false.
Proof.
  unfold isMaximized, showFullScreen, with_visible, with_window_state.
  cbn [mw_window_state].
  rewrite Z.lor_spec, Z.ldiff_spec by lia.
  rewrite orb_false_r. apply andb_false_r.
Qed.

Lemma toggle_fullscreen_enter (H : Host) (w : World) :
  truthy (_fullscreen_flag (self w)) = false ->
  toggle_fullscreen H w
  = Ok tt
      (on_container (ct_with_fullscreen_action_icon (fullscreen_icon true))
         (on_main (fun m => entered_fullscreen H m)
            (on_self (with_saved_normal_geometry (Some (mw_normal_geometry (main w))))
               (on_self (with_fullscreen_flag (VBool true))
                  (on_self (with_maximized_flag (VBool (isMaximized (main w)))) w))))).
Proof.
  intros Hf. unfold toggle_fullscreen, entered_fullscreen.
  unfold bind at 1, gets at 1. rewrite Hf.
  destruct (String.eqb (os_name H) "nt"); reflexivity.
Qed.

Lemma toggle_fullscreen_leave (H : Host) (w : World) :
  truthy (_fullscreen_flag (self w)) = true ->
  fullscreen_ready H w = true ->
  exists w', toggle_fullscreen H w = Ok tt w' /\
    _fullscreen_flag (self w') = VBool false /\
    _maximized_flag (self w') = _maximized_flag (self w) /\
    _saved_normal_geometry (self w') = _saved_normal_geometry (self w) /\
    fullscreen_action_icon (container w') = fullscreen_icon false /\
    isFullScreen (main w') = false /\
    isMaximized (main w') = truthy (_maximized_flag (self w)).
Proof.
  intros Hf Hready. unfold fullscreen_ready in Hready. rewrite Hf in Hready.
  unfold toggle_fullscreen. unfold bind at 1, gets at 1. rewrite Hf.
  destruct (String.eqb (os_name H) "nt"); simpl in Hready.
  - destruct (_saved_normal_geometry (self w)) as [g|] eqn:Hg; [|discriminate].
    unfold bind, gets, modify, _update_fullscreen_action. simpl. rewrite Hg. simpl.
    destruct (truthy (_maximized_flag (self w))) eqn:Hm; simpl;
      eexists; (split; [reflexivity|]); simpl; repeat split; auto;
      first [ apply isFullScreen_showMaximized | apply isMaximized_showMaximized
            | apply isFullScreen_showNormal | apply isMaximized_showNormal ].
  - unfold bind, gets, modify, _update_fullscreen_action. simpl.
    destruct (truthy (_maximized_flag (self w))) eqn:Hm; simpl;
      eexists; (split; [reflexivity|]); simpl; repeat split; auto;
      first [ apply isFullScreen_showMaximized | apply isMaximized_showMaximized
            | apply isFullScreen_showNormal | apply isMaximized_showNormal ].
Qed.

(** C3.  Every call of [toggle_fullscreen] inverts the flag that
    [get_fullscreen_flag] reports and sets the icon of the fullscreen action
    for the new flag.  Entering fullscreen records whether the window was
    maximized and its normal geometry, then switches the display; leaving it
    shows the window normal and maximizes it again exactly when the recorded
    flag says so, so that entering and leaving gives back the maximized
    state the window had at first. *)
Theorem toggle_fullscreen_inverts (H : Host) (w : World) :
  fullscreen_ready H w = true ->
  let was := truthy (_fullscreen_flag (self w)) in
  exists w', toggle_fullscreen H w = Ok tt w' /\
    get_fullscreen_flag w' = Ok (VBool (negb was)) w' /\
    fullscreen_action_icon (container w') = fullscreen_icon (negb was) /\
    (was = false ->
       _maximized_flag (self w') = VBool (isMaximized (main w)) /\
       _saved_normal_geometry (self w') = Some (mw_normal_geometry (main w)) /\
       main w' = entered_fullscreen H (main w) /\
       exists w'', toggle_fullscreen H w' = Ok tt w'' /\
         get_fullscreen_flag w'' = Ok (VBool false) w'' /\
         isFullScreen (main w'') = false /\
         isMaximized (main w'') = isMaximized (main w)) /\
    (was = true ->
       isFullScreen (main w') = false /\
       isMaximized (main w') = truthy (_maximized_flag (self w))).
Proof.
  intros Hready was. subst was.
  destruct (truthy (_fullscreen_flag (self w))) eqn:Hf.
  - destruct (toggle_fullscreen_leave H w Hf Hready)
      as (w' & Hrun & Hflag & Hm & Hg & Hicon & Hfs & Hmx).
    exists w'. split; [exact Hrun|]. unfold get_fullscreen_flag, gets.
    rewrite Hflag. repeat split; auto; discriminate.
  - rewrite (toggle_fullscreen_enter H w Hf).
    eexists. split; [reflexivity|]. unfold get_fullscreen_flag, gets. simpl.
    split; [reflexivity|]. split; [reflexivity|]. split; [|discriminate].
    intros _. split; [reflexivity|]. split; [reflexivity|]. split; [reflexivity|].
    match goal with
    | |- exists w'', toggle_fullscreen H ?w1 = _ /\ _ =>
        destruct (toggle_fullscreen_leave H w1) as
          (w2 & Hrun & Hflag & Hm & Hg & Hicon & Hfs & Hmx)
    end.
    + reflexivity.
    + unfold fullscreen_ready. simpl. apply implb_true_r.
    + exists w2. split; [exact Hrun|]. rewrite Hflag.
      split; [reflexivity|]. split; [exact Hfs | exact Hmx].
Qed.

Lemma toggle_fullscreen_inverts_witness :
  exists w', toggle_fullscreen Demo.host_nt Demo.world0 = Ok tt w' /\
    get_fullscreen_flag w' = Ok (VBool true) w' /\
    fullscreen_action_icon (container w') = fullscreen_icon true.
Proof.
  destruct (toggle_fullscreen_inverts Demo.host_nt Demo.world0) as (w' & H1 & H2 & H3 & _).
  - reflexivity.
  - exists w'. repeat split; assumption.
Defined.

(** ** Loading the window settings *)

(** C6.  Let the selected getter yield the position (x, y), the size and the
    two flags.  [load_window_settings] returns the configured default
    position exactly when the width of the virtual screen is less than x or
    its height is less than y, and the position (x, y) itself otherwise; the
    size and the two flags are returned as they were read. *)
Theorem load_window_settings_position
    (prefix : string) (default : bool) (section : string) (w : World)
    (vsize vmax vfs : PyVal) (x y : Z) :
  get_func default (prefix +:+ "size") section w = Ok vsize w ->
  get_func default (prefix +:+ "position") section w = Ok (VTuple [VInt x; VInt y]) w ->
  get_func default (prefix +:+ "is_maximized") section w = Ok vmax w ->
  get_func default (prefix +:+ "is_fullscreen") section w = Ok vfs w ->
  let current_width := r_width (mw_screen_virtual (main w)) in
  let current_height := r_height (mw_screen_virtual (main w)) in
  let default_position := default_value w (prefix +:+ "position") section in
  load_window_settings prefix default section w
  = Ok (loaded_hexstate prefix default section w,
        vsize,
        (if (current_width <? x) || (current_height <? y)
         then default_position else VTuple [VInt x; VInt y]),
        vmax, vfs) w.
Proof.
  intros Hsize Hpos Hmax Hfs cw ch dp.
  unfold load_window_settings. fold (get_func default).
  unfold bind at 1. rewrite Hsize.
  unfold bind at 1.
  assert (Hhex : (if default then ret VNone
                  else try_except (get_func default (prefix +:+ "state") section)
                         any_exception (ret VNone)) w
                 = Ok (loaded_hexstate prefix default section w) w).
  { unfold loaded_hexstate. destruct default; [reflexivity|].
    unfold try_except, get_func, get_conf.
    destruct (conf w !! (section, prefix +:+ "state")); reflexivity. }
  rewrite Hhex.
  unfold bind at 1. rewrite Hpos.
  unfold bind at 1, gets at 1.
  unfold bind at 1, subscript at 1. cbn [lookup list_lookup]. unfold ret at 1.
  unfold bind at 1, subscript at 1. cbn [lookup list_lookup]. unfold ret at 1.
  unfold bind at 1, int_lt at 1, bind at 1, as_int at 1, ret at 1 2.
  fold cw ch.
  destruct (cw <? x) eqn:Hx; cbn [orb].
  - unfold bind at 1, ret at 1. unfold bind at 1, get_conf_default at 1.
    fold (default_value w (prefix +:+ "position") section). fold dp. unfold bind at 1. rewrite Hmax. unfold bind at 1. rewrite Hfs.
    reflexivity.
  - unfold bind at 1, int_lt at 1, bind at 1, as_int at 1, ret at 1 2.
    destruct (ch <? y) eqn:Hy.
    + unfold bind at 1, get_conf_default at 1.
      fold (default_value w (prefix +:+ "position") section). fold dp. unfold bind at 1. rewrite Hmax. unfold bind at 1. rewrite Hfs.
      reflexivity.
    + unfold bind at 1, ret at 1. unfold bind at 1. rewrite Hmax.
      unfold bind at 1. rewrite Hfs. reflexivity.
Qed.

Lemma load_window_settings_position_witness :
  load_window_settings "window/" false "main" Demo.world_offscreen
  = Ok (VNone, VTuple [VInt 1260; VInt 740], VTuple [VInt 10; VInt 10],
        VBool true, VBool false) Demo.world_offscreen.
Proof.
  apply (load_window_settings_position "window/" false "main" Demo.world_offscreen
           (VTuple [VInt 1260; VInt 740]) (VBool true) (VBool false) 5000 10);
    vm_compute; reflexivity.
Defined.

(** ** Applying window settings *)

Section Settings.

Variable H : Host.

Lemma set_window_settings_unfold (fuel : nat)
    (hexstate window_size pos is_maximized is_fullscreen : PyVal) :
  set_window_settings H (S fuel) hexstate window_size pos is_maximized is_fullscreen
  = (let+ applied :=
       liftF (gets (fun w => _window_settings_applied_on_first_run (self w))) in
     let+ first_run := liftF (gets (fun w => _first_spyder_run (self w))) in
     if applied && first_run then retF tt
     else
       liftF (restore_window_properties window_size pos) >>+
       if truthy hexstate then
         let+ hexstate_valid :=
           liftF (main_restoreState H (fromHex H hexstate) WINDOW_STATE_VERSION) in
         if negb hexstate_valid then
           liftF (modify (on_main (with_updates_enabled true))) >>+
           setup_layout H fuel true
         else liftF (apply_window_state is_maximized is_fullscreen)
       else liftF (apply_window_state is_maximized is_fullscreen)).
Proof. reflexivity. Qed.

Lemma restore_window_properties_run (width height x y : Z) (w : World) :
  restore_window_properties (VTuple [VInt width; VInt height]) (VTuple [VInt x; VInt y]) w
  = Ok tt (with_geometry width height x y w).
Proof. reflexivity. Qed.

(** *** Every call returns when the bound is large enough *)







Lemma load_window_settings_default_hexstate prefix section w r w' :
  load_window_settings prefix true section w = Ok r w' ->
  fst (fst (fst (fst r))) = VNone.
Proof.
  unfold load_window_settings, bind.
  repeat match goal with
         | |- context [match ?m ?w0 with Ok _ _ => _ | Raise _ _ => _ end] =>
             destruct (m w0) eqn:?; try discriminate
         end.
  intros E. injection E as <- _.
  match goal with
  | Hx : ret VNone _ = Ok _ _ |- _ => injection Hx as <- _
  end.
  reflexivity.
Qed.



End Settings.


(** ** Reading back the window settings *)

Lemma set_window_settings_valid (H : Host) (fuel : nat) (hexstate : PyVal)
    (width height x y : Z) (m f : bool) (w : World) (docks : list DockWidget) :
  first_run_short_circuit w = false ->
  truthy hexstate = true ->
  restoreState H (fromHex H hexstate) WINDOW_STATE_VERSION (mw_docks (main w))
  = Some docks ->
  set_window_settings H (S fuel) hexstate (VTuple [VInt width; VInt height])
    (VTuple [VInt x; VInt y]) (VBool m) (VBool f) w
  = Some (Ok tt (settings_applied docks width height x y m f w)).
Proof.
  intros Hshort Hh Hvalid. rewrite set_window_settings_unfold.
  unfold bindF at 1, liftF at 1, gets at 1.
  unfold bindF at 1, liftF at 1, gets at 1.
  unfold first_run_short_circuit in Hshort. rewrite Hshort.
  unfold bindF at 1, liftF at 1.
  rewrite restore_window_properties_run. rewrite Hh.
  unfold bindF at 1, liftF at 1, main_restoreState.
  cbn [main with_geometry on_main on_self mw_docks with_pos with_size
       with_updates_enabled].
  rewrite Hvalid. cbn [negb].
  destruct f, m; reflexivity.
Qed.

(** Where the accessor gives back what the setter was given.  Outside the
    first-run short-circuit, let [set_window_settings] apply a tuple whose
    hexstate is not empty, is accepted by [restoreState], and is the text
    [saveState] yields for the restored arrangement.  If the tuple asks for
    fullscreen or for a maximized window, or if the window was neither
    fullscreen nor maximized before the call, then [get_window_settings]
    returns that same tuple; for a fullscreen tuple the reported
    [is_maximized] is the saved flag. *)
Theorem get_window_settings_after_set (H : Host) (fuel : nat) (h : string)
    (width height x y : Z) (m f : bool) (w : World) (docks : list DockWidget) :
  first_run_short_circuit w = false ->
  truthy (VStr h) = true ->
  restoreState H (fromHex H (VStr h)) WINDOW_STATE_VERSION (mw_docks (main w))
  = Some docks ->
  qbytearray_to_str H (saveState H docks WINDOW_STATE_VERSION) = h ->
  f || m || negb (isFullScreen (main w) || isMaximized (main w)) = true ->
  let settings :=
    (VStr h, VTuple [VInt width; VInt height], VTuple [VInt x; VInt y],
     VBool m, VBool f) in
  exists w',
    set_window_settings H (S fuel) (VStr h) (VTuple [VInt width; VInt height])
      (VTuple [VInt x; VInt y]) (VBool m) (VBool f) w = Some (Ok tt w') /\
    get_window_settings H w' = Ok settings w' /\
    (f = true -> _maximized_flag (self w') = VBool m).
Proof.
  intros Hshort Hh Hvalid Hround Hcase settings.
  exists (settings_applied docks width height x y m f w).
  split; [apply set_window_settings_valid; assumption|].
  subst settings. split.
  - assert (Hstate : Z.testbit (window_state_after m f (mw_window_state (main w))) 2 = f
                     /\ (f = false ->
                         Z.testbit (window_state_after m f (mw_window_state (main w))) 1
                         = m)).
    { destruct f; [split; [reflexivity | discriminate]|].
      destruct m; [split; reflexivity|].
      cbn [orb] in Hcase. apply negb_true_iff, orb_false_iff in Hcase.
      destruct Hcase as [Hfs Hmx]. split; [exact Hfs | intros _; exact Hmx]. }
    destruct Hstate as [Hfs Hmx].
    unfold get_window_settings, bind, gets, main_saveState, ret.
    unfold isFullScreen, isMaximized.
    assert (Hst : mw_window_state (main (settings_applied docks width height x y m f w))
                  = window_state_after m f (mw_window_state (main w))) by reflexivity.
    assert (Hdk : mw_docks (main (settings_applied docks width height x y m f w)) = docks)
      by reflexivity.
    assert (Hws : window_size (self (settings_applied docks width height x y m f w))
                  = Some (width, height)) by (destruct f; reflexivity).
    assert (Hwp : window_position (self (settings_applied docks width height x y m f w))
                  = Some (x, y)) by (destruct f; reflexivity).
    rewrite Hws. cbv beta iota. rewrite Hst, Hfs.
    destruct f; cbv beta iota.
    + rewrite Hwp. unfold gets. cbv beta iota. rewrite Hdk, Hround. reflexivity.
    + rewrite Hst, (Hmx eq_refl), Hwp. unfold gets. cbv beta iota.
      rewrite Hdk, Hround. reflexivity.
  - intros ->. reflexivity.
Qed.

Lemma get_window_settings_after_set_witness :
  exists w',
    set_window_settings Demo.host 1 (VStr "0401010000") (VTuple [VInt 800; VInt 600])
      (VTuple [VInt 1; VInt 2]) (VBool true) (VBool true) Demo.world0
    = Some (Ok tt w') /\
    get_window_settings Demo.host w'
    = Ok (VStr "0401010000", VTuple [VInt 800; VInt 600], VTuple [VInt 1; VInt 2],
          VBool true, VBool true) w' /\
    (true = true -> _maximized_flag (self w') = VBool true).
Proof.
  apply (get_window_settings_after_set Demo.host 0 "0401010000" 800 600 1 2
           true true Demo.world0
           (Demo.restore_docks [Byte.x01; Byte.x01; Byte.x00; Byte.x00]
              (mw_docks Demo.main0)));
    reflexivity.
Defined.

(** C1.  The docstrings of [get_window_settings] and [set_window_settings]
    call each other symmetric, yet the setter never takes the window out of
    the maximized state.  On a maximized window, outside the first-run
    short-circuit, let it apply the tuple made of the hexstate of the
    present arrangement, the size and the position the window already has,
    and [False] for both flags: the window is left exactly as it was, and
    [get_window_settings] then reports [is_maximized] as [True]. *)
Theorem set_window_settings_keeps_maximized :
  let w := Demo.world_maximized in
  let settings :=
    (VStr "0401010000", VTuple [VInt 1260; VInt 740], VTuple [VInt 10; VInt 10],
     VBool false, VBool false) in
  first_run_short_circuit w = false /\
  mw_size (main w) = (1260, 740) /\
  mw_pos (main w) = (10, 10) /\
  qbytearray_to_str Demo.host
    (saveState Demo.host (mw_docks (main w)) WINDOW_STATE_VERSION) = "0401010000" /\
  isMaximized (main w) = true /\
  exists w' got,
    set_window_settings Demo.host 1 (VStr "0401010000")
      (VTuple [VInt 1260; VInt 740]) (VTuple [VInt 10; VInt 10])
      (VBool false) (VBool false) w
    = Some (Ok tt w') /\
    main w' = main w /\
    get_window_settings Demo.host w' = Ok got w' /\
    got = (VStr "0401010000", VTuple [VInt 1260; VInt 740],
           VTuple [VInt 10; VInt 10], VBool true, VBool false) /\
    got <> settings.
Proof.
  cbv zeta.
  split; [reflexivity|]. split; [reflexivity|]. split; [reflexivity|].
  split; [vm_compute; reflexivity|]. split; [reflexivity|].
  exists (settings_applied
            (Demo.restore_docks [Byte.x01; Byte.x01; Byte.x00; Byte.x00]
               (mw_docks Demo.main0))
            1260 740 10 10 false false Demo.world_maximized).
  eexists.
  split; [apply set_window_settings_valid; vm_compute; reflexivity|].
  split; [vm_compute; reflexivity|].
  split; [vm_compute; reflexivity|].
  split; [reflexivity | discriminate].
Qed.

(** ** Switching to a quick layout *)

Section QuickLayouts.

Variable H : Host.

Lemma quick_layout_switch_unfold (fuel : nat) (index_or_layout_id : LayoutId) :
  quick_layout_switch H fuel index_or_layout_id
  = (liftF (unmaximize_dockwidget H) >>+
     let+ returned := quick_layout_switch_try H fuel index_or_layout_id in
     if returned then retF None
     else liftF (quick_layout_switch_finish index_or_layout_id)).
Proof. reflexivity. Qed.

Lemma quick_layout_switch_finish_value (i : LayoutId) (w w' : World) r :
  quick_layout_switch_finish i w = Ok r w' -> r = Some i.
Proof.
  unfold quick_layout_switch_finish. unfold bind at 1.
  match goal with
  | |- context [match ?m w with _ => _ end] => destruct (m w) as [a w1|e w1]
  end; [|discriminate].
  unfold bind at 1.
  destruct (_apply_docktabbar_style w1) as [b w2|e w2]; [|discriminate].
  unfold ret. intros E. injection E as <- _. reflexivity.
Qed.

(** The guarded part returns from the method only after the message about
    a custom layout. *)
Lemma quick_layout_switch_try_returned (fuel : nat) (i : LayoutId) (w w' : World) :
  quick_layout_switch_try H fuel i w = Some (Ok true w') ->
  in_DEFAULT_LAYOUTS H i = false /\
  last (trace w') = Some (EvCriticalMessage "Warning" custom_layout_error).
Proof.
  unfold quick_layout_switch_try, try_exceptF.
  match goal with
  | |- context [match ?body w with _ => _ end] => destruct (body w) as [[b wb|e we]|] eqn:Hbody
  end.
  - intros E. injection E as -> ->.
    unfold bindF at 1 in Hbody. unfold liftF at 1 in Hbody.
    destruct (load_window_settings _ _ _ w)
      as [[[[[hexstate window_size] pos] is_maximized] is_fullscreen] w1|e w1];
      [|discriminate].
    destruct (is_None hexstate).
    + destruct (in_DEFAULT_LAYOUTS H i) eqn:Hin; cbn [negb] in Hbody.
      * unfold bindF in Hbody.
        destruct (setup_default_layouts H fuel i _ _ _ _ _ w1) as [[l wl|e wl]|];
          discriminate.
      * unfold bindF, liftF, critical_message, modify, retF in Hbody.
        injection Hbody as <-. split; [reflexivity|].
        unfold emit; simpl. apply last_snoc.
    + unfold bindF in Hbody.
      destruct (set_window_settings H fuel _ _ _ _ _ w1) as [[u wu|e wu]|];
        discriminate.
  - destruct (except NoOptionError e); [|discriminate].
    unfold bindF, liftF.
    match goal with
    | |- context [match ?m we with _ => _ end] => destruct (m we)
    end; discriminate.
  - discriminate.
Qed.

End QuickLayouts.

(** ** Maximizing a pane *)

Section Maximize.

Variable H : Host.

Lemma maximize_dockwidget_unfold_maximize (w : World) :
  _state_before_maximizing (self w) = None ->
  maximize_dockwidget H false w = maximize_branch H w.
Proof.
  intros Hn. unfold maximize_dockwidget, maximize_branch.
  unfold bind at 1, get_plugin at 1, gets at 1.
  unfold bind at 1, get_plugin at 1, gets at 1.
  unfold bind at 1, gets at 1. rewrite Hn.
  reflexivity.
Qed.

Lemma maximize_dockwidget_unfold_restore (restore : bool) (w : World) saved :
  _state_before_maximizing (self w) = Some saved ->
  maximize_dockwidget H restore w = restore_branch H saved w.
Proof.
  intros Hs. unfold maximize_dockwidget, restore_branch.
  unfold bind at 1, get_plugin at 1, gets at 1.
  unfold bind at 1, get_plugin at 1, gets at 1.
  unfold bind at 1, gets at 1. rewrite Hs.
  reflexivity.
Qed.

End Maximize.

Lemma plugin_at_run (w : World) i p :
  plugins w !! i = Some p -> plugin_at i w = Ok p w.
Proof. intros Hp. unfold plugin_at. rewrite Hp. reflexivity. Qed.

Lemma plugin_update_run (w : World) i p f :
  plugins w !! i = Some p ->
  plugin_update i f w = Ok tt (on_plugins (fun ps => <[i := f p]> ps) w).
Proof. intros Hp. unfold plugin_update, bind. rewrite (plugin_at_run w i p Hp). reflexivity. Qed.

Lemma get_widget_run (w : World) i p :
  plugins w !! i = Some p ->
  get_widget i w = match api p with
                   | NewApi => Ok (WGet i) w
                   | OldApi => Raise AttributeError w
                   end.
Proof.
  intros Hp. unfold get_widget, bind. rewrite (plugin_at_run w i p Hp).
  destruct (api p); reflexivity.
Qed.

Lemma isAncestorOf_run (w : World) i p x :
  plugins w !! i = Some p -> isAncestorOf i x w = Ok (owns p x) w.
Proof.
  intros Hp. unfold isAncestorOf, bind. rewrite (plugin_at_run w i p Hp).
  destruct x; reflexivity.
Qed.

Lemma maximize_ready_dock (w : World) i p :
  maximize_ready w = true -> plugins w !! i = Some p ->
  exists d x, dockwidget p = Some d /\ mw_docks (main w) !! d = Some x.
Proof.
  unfold maximize_ready. intros Hr Hp.
  apply andb_true_iff in Hr. destruct Hr as [Hall _].
  rewrite forallb_forall in Hall.
  assert (Hin : In p (plugins w)).
  { apply list_elem_of_In. eapply list_elem_of_lookup_2; eauto. }
  specialize (Hall p Hin). destruct (dockwidget p) as [d|]; [|discriminate].
  apply Nat.ltb_lt in Hall.
  destruct (lookup_lt_is_Some_2 _ _ Hall) as [x Hx].
  exists d, x. auto.
Qed.

Lemma selected_remembered ps fw visited remembered :
  selected ps fw visited remembered
  = match selected ps fw visited None with
    | Some t => Some t
    | None => remembered
    end.
Proof.
  unfold selected. revert remembered.
  induction visited as [|i l IH] using rev_ind; intros remembered; [reflexivity|].
  rewrite !fold_left_app. simpl. unfold select_step at 1 3.
  destruct (ps !! i) as [p|]; [|apply IH].
  destruct (owns p fw); [reflexivity | apply IH].
Qed.

Lemma selected_lt ps fw visited remembered t :
  selected ps fw visited remembered = Some t ->
  (forall r, remembered = Some r -> (r < length ps)%nat) ->
  (t < length ps)%nat.
Proof.
  unfold selected. revert remembered.
  induction visited as [|i l IH]; simpl; intros remembered Hsel Hrem.
  - apply Hrem. exact Hsel.
  - apply (IH _ Hsel). intros r. unfold select_step.
    destruct (ps !! i) as [p|] eqn:Hp; [|apply Hrem].
    destruct (owns p fw); [|apply Hrem].
    intros E. injection E as <-. eapply lookup_lt_Some; eauto.
Qed.

Lemma find_plugin_lt name ps i t :
  find_plugin name ps i = Some t -> (i <= t < i + length ps)%nat.
Proof.
  revert i. induction ps as [|p ps IH]; simpl; intros i; [discriminate|].
  destruct (String.eqb (NAME p) name).
  - intros E. injection E as <-. lia.
  - intros E. apply IH in E. lia.
Qed.

Lemma hide_and_select_run (w : World) fw i p d x :
  plugins w !! i = Some p -> dockwidget p = Some d ->
  mw_docks (main w) !! d = Some x ->
  hide_and_select fw i w
  = Ok tt
      ((if owns p fw then on_self (with_last_plugin (Some i)) else fun w0 => w0)
         (on_main (fun m => with_docks (<[d := dw_with_visible false x]> (mw_docks m)) m)
            w)).
Proof.
  intros Hp Hd Hx. unfold hide_and_select.
  unfold bind at 1. rewrite (plugin_at_run w i p Hp). rewrite Hd.
  unfold bind at 1. rewrite (dock_update_run w d x _ Hx).
  set (w1 := on_main _ w).
  assert (Hp1 : plugins w1 !! i = Some p) by exact Hp.
  unfold try_except, bind.
  rewrite (get_widget_run w1 i p Hp1).
  destruct (api p); cbn [any_exception];
    rewrite (isAncestorOf_run w1 i p fw Hp1);
    destruct (owns p fw); reflexivity.
Qed.

Lemma hide_and_select_loop (w : World) :
  maximize_ready w = true ->
  exists w',
    for_each (seq 0 (length (plugins w))) (hide_and_select (focus w)) w = Ok tt w' /\
    plugins w' = plugins w /\
    length (mw_docks (main w')) = length (mw_docks (main w)) /\
    mw_central (main w') = mw_central (main w) /\
    _state_before_maximizing (self w') = _state_before_maximizing (self w) /\
    _last_plugin (self w')
    = selected (plugins w) (focus w) (seq 0 (length (plugins w))) (_last_plugin (self w)) /\
    forall i p d, plugins w !! i = Some p -> dockwidget p = Some d ->
      exists x, mw_docks (main w') !! d = Some x /\ dw_visible x = false.
Proof.
  intros Hready.
  pose (I := fun (done : list nat) (w0 : World) =>
    plugins w0 = plugins w /\
    length (mw_docks (main w0)) = length (mw_docks (main w)) /\
    mw_central (main w0) = mw_central (main w) /\
    _state_before_maximizing (self w0) = _state_before_maximizing (self w) /\
    _last_plugin (self w0) = selected (plugins w) (focus w) done (_last_plugin (self w)) /\
    forall i p d, i ∈ done -> plugins w !! i = Some p -> dockwidget p = Some d ->
      exists x, mw_docks (main w0) !! d = Some x /\ dw_visible x = false).
  destruct (for_each_inv I (hide_and_select (focus w))
              (seq 0 (length (plugins w))) [] w) as (w' & Hrun & HI).
  - repeat split; auto. intros i p d Hin. inversion Hin.
  - intros done i w0 (Hp & Hlen & Hc & Hs & Hl & Hdone) Hi.
    apply elem_of_seq in Hi. destruct Hi as [_ Hi]. simpl in Hi.
    destruct (lookup_lt_is_Some_2 (plugins w) i Hi) as [p Hpi].
    destruct (maximize_ready_dock w i p Hready Hpi) as (d & x0 & Hd & Hx0).
    assert (Hlt : (d < length (mw_docks (main w0)))%nat).
    { rewrite Hlen. eapply lookup_lt_Some; eauto. }
    destruct (lookup_lt_is_Some_2 _ _ Hlt) as [x Hx].
    assert (Hpi0 : plugins w0 !! i = Some p) by (rewrite Hp; exact Hpi).
    rewrite (hide_and_select_run w0 (focus w) i p d x Hpi0 Hd Hx).
    eexists. split; [reflexivity|].
    assert (Hsel : selected (plugins w) (focus w) (done ++ [i]) (_last_plugin (self w))
                   = if owns p (focus w) then Some i else _last_plugin (self w0)).
    { unfold selected. rewrite fold_left_app. simpl. unfold select_step at 1.
      rewrite Hpi. destruct (owns p (focus w)); [reflexivity|].
      symmetry. exact Hl. }
    unfold I. rewrite Hsel.
    destruct (owns p (focus w)); simpl;
      (repeat split; auto; [rewrite length_insert; exact Hlen|]);
      intros j q e Hj Hq He;
      (destruct (decide (e = d)) as [->|Hne];
       [ exists (dw_with_visible false x); split; [|reflexivity];
         apply list_lookup_insert_eq; exact Hlt
       | rewrite list_lookup_insert_ne by congruence;
         apply elem_of_app in Hj; destruct Hj as [Hj|Hj];
         [ eapply Hdone; eauto
         | apply list_elem_of_singleton in Hj; subst j;
           rewrite Hpi in Hq; injection Hq as <-; congruence ] ]).
  - destruct HI as (Hp & Hlen & Hc & Hs & Hl & Hall).
    exists w'. split; [exact Hrun|]. repeat split; auto.
    intros i p d Hi Hd. apply (Hall i p d); auto.
    simpl. apply elem_of_seq. split; [lia|]. simpl. eapply lookup_lt_Some; eauto.
Qed.

Lemma last_plugin_ref_run (w : World) t :
  _last_plugin (self w) = Some t -> last_plugin_ref w = Ok t w.
Proof. intros Hl. unfold last_plugin_ref, bind, gets. rewrite Hl. reflexivity. Qed.

Lemma maximize_last_plugin_run (editor outline : option nat) (w : World) t p d x :
  _last_plugin (self w) = Some t ->
  plugins w !! t = Some p -> dockwidget p = Some d ->
  mw_docks (main w) !! d = Some x ->
  exists w',
    maximize_last_plugin editor outline w = Ok tt w' /\
    self w' = self w /\
    mw_central (main w') = Some (widget_of t p) /\
    mw_docks (main w') = <[d := dw_with_toggle_view_enabled false x]> (mw_docks (main w)) /\
    plugins w'
    = <[t := pl_with_visibility true (pl_with_widget_shown true (pl_with_ismaximized true p))]>
        (plugins w).
Proof.
  intros Hl Hp Hd Hx.
  assert (Ht : (t < length (plugins w))%nat) by (eapply lookup_lt_Some; eauto).
  unfold maximize_last_plugin.
  unfold bind at 1. rewrite (last_plugin_ref_run w t Hl).
  unfold bind at 1. rewrite (plugin_at_run w t p Hp). rewrite Hd.
  unfold bind at 1. rewrite (dock_update_run w d x _ Hx).
  set (w1 := on_main _ w).
  assert (Hp1 : plugins w1 !! t = Some p) by exact Hp.
  set (p1 := pl_with_ismaximized true p).
  set (w2 := on_plugins (fun ps => <[t := p1]> ps)
               (on_main (with_central (Some (widget_of t p))) w1)).
  assert (Hstep1 :
    try_except
      (let* wd := get_widget t in
       setCentralWidget (Some wd) >> plugin_update t (pl_with_ismaximized true))
      (except AttributeError)
      (setCentralWidget (Some (WSelf t)) >> plugin_update t (pl_with_ismaximized true)) w1
    = Ok tt w2).
  { unfold try_except, bind at 1. rewrite (get_widget_run w1 t p Hp1).
    unfold w2, widget_of, setCentralWidget.
    destruct (api p); cbn [except Exc_eqb]; unfold bind, modify;
      (erewrite plugin_update_run; [|exact Hp1]); reflexivity. }
  unfold bind at 1. rewrite Hstep1.
  assert (Hp2 : plugins w2 !! t = Some p1).
  { unfold w2. simpl. apply list_lookup_insert_eq. exact Ht. }
  set (p2 := pl_with_widget_shown true p1).
  set (p3 := pl_with_visibility true p2).
  set (w3 := on_plugins (fun ps => <[t := p3]> ps)
               (on_plugins (fun ps => <[t := p2]> ps) w2)).
  assert (Hp2' : plugins (on_plugins (fun ps => <[t := p2]> ps) w2) !! t = Some p2).
  { simpl. apply list_lookup_insert_eq. rewrite length_insert. exact Ht. }
  assert (Hstep2 :
    try_except
      (let* _w := get_widget t in
       plugin_update t (pl_with_widget_shown true) >>
       plugin_update t (pl_with_visibility true))
      (except AttributeError)
      (plugin_update t (pl_with_widget_shown true) >>
       plugin_update t (pl_with_visibility true)) w2
    = Ok tt w3).
  { unfold try_except, bind at 1. rewrite (get_widget_run w2 t p1 Hp2).
    assert (Hapi : api p1 = api p) by reflexivity. rewrite Hapi.
    destruct (api p); cbn [except Exc_eqb]; unfold bind;
      rewrite (plugin_update_run w2 t p1 _ Hp2);
      rewrite (plugin_update_run _ t p2 _ Hp2'); reflexivity. }
  unfold bind at 1. rewrite Hstep2.
  assert (Hfinal : self w3 = self w /\
                   mw_central (main w3) = Some (widget_of t p) /\
                   mw_docks (main w3)
                   = <[d := dw_with_toggle_view_enabled false x]> (mw_docks (main w)) /\
                   plugins w3 = <[t := p3]> (plugins w)).
  { repeat split; try reflexivity.
    unfold w3, w2. simpl. rewrite !list_insert_insert_eq. reflexivity. }
  destruct Hfinal as (Hf1 & Hf2 & Hf3 & Hf4).
  destruct (option_nat_eqb (Some t) editor); [destruct outline|];
    eexists; (split; [reflexivity|]); repeat split; assumption.
Qed.

Lemma dock_of_run (w : World) d x :
  mw_docks (main w) !! d = Some x -> dock_of (Some d) w = Ok x w.
Proof. intros Hx. unfold dock_of. rewrite Hx. reflexivity. Qed.

Lemma restore_branch_run (H : Host) (saved : QByteArray) (w : World) t p d x :
  _last_plugin (self w) = Some t ->
  plugins w !! t = Some p -> dockwidget p = Some d ->
  mw_docks (main w) !! d = Some x ->
  exists w',
    restore_branch H saved w = Ok tt w' /\
    _state_before_maximizing (self w') = None /\
    _last_plugin (self w') = Some t /\
    plugins w' = <[t := pl_with_ismaximized false p]> (plugins w) /\
    mw_central (main w') = None /\
    mw_docks (main w') = restored_docks H saved t p d x (mw_docks (main w)) /\
    focus w' = Some (focus_widget p).
Proof.
  intros Hl Hp Hd Hx.
  assert (Ht : (t < length (plugins w))%nat) by (eapply lookup_lt_Some; eauto).
  assert (Hdlt : (d < length (mw_docks (main w)))%nat) by (eapply lookup_lt_Some; eauto).
  unfold restore_branch.
  unfold bind at 1, get_plugin at 1, gets at 1.
  unfold bind at 1, get_plugin at 1, gets at 1.
  set (editor := find_plugin Plugins_Editor (plugins w) 0).
  set (outline := find_plugin Plugins_OutlineExplorer (plugins w) 0).
  set (x1 := dw_with_widget (Some (widget_of t p)) x).
  set (w1 := on_main (fun m => with_docks (<[d := x1]> (mw_docks m)) m) w).
  assert (Hstep1 :
    try_except
      (let* lp := last_plugin_ref in
       let* p := plugin_at lp in
       let* _d := dock_of (dockwidget p) in
       let* wd := get_widget lp in
       dock_update (dockwidget p) (dw_with_widget (Some wd)))
      (except AttributeError)
      (let* lp := last_plugin_ref in
       let* p := plugin_at lp in
       dock_update (dockwidget p) (dw_with_widget (Some (WSelf lp)))) w
    = Ok tt w1).
  { unfold try_except, bind.
    rewrite (last_plugin_ref_run w t Hl), (plugin_at_run w t p Hp), Hd.
    rewrite (dock_of_run w d x Hx), (get_widget_run w t p Hp).
    unfold w1, x1, widget_of.
    destruct (api p); cbn [except Exc_eqb];
      rewrite ?(last_plugin_ref_run w t Hl), ?(plugin_at_run w t p Hp), ?Hd;
      rewrite (dock_update_run w d x _ Hx); reflexivity. }
  unfold bind at 1. rewrite Hstep1.
  assert (Hl1 : _last_plugin (self w1) = Some t) by exact Hl.
  assert (Hp1 : plugins w1 !! t = Some p) by exact Hp.
  assert (Hx1 : mw_docks (main w1) !! d = Some x1).
  { unfold w1. simpl. apply list_lookup_insert_eq. exact Hdlt. }
  unfold bind at 1. rewrite (last_plugin_ref_run w1 t Hl1).
  unfold bind at 1. rewrite (plugin_at_run w1 t p Hp1). rewrite Hd.
  unfold bind at 1. rewrite (dock_update_run w1 d x1 _ Hx1).
  unfold bind at 1, setCentralWidget at 1, modify at 1.
  set (w2 := on_main (with_central None) _).
  assert (Hp2 : plugins w2 !! t = Some p) by exact Hp.
  set (w3 := on_plugins (fun ps => <[t := pl_with_ismaximized false p]> ps) w2).
  assert (Hstep2 :
    try_except
      (let* _w := get_widget t in plugin_update t (pl_with_ismaximized false))
      (except AttributeError)
      (plugin_update t (pl_with_ismaximized false)) w2
    = Ok tt w3).
  { unfold try_except, bind. rewrite (get_widget_run w2 t p Hp2).
    destruct (api p); cbn [except Exc_eqb];
      rewrite (plugin_update_run w2 t p _ Hp2); reflexivity. }
  unfold bind at 1. rewrite Hstep2.
  assert (Hdocks3 : mw_docks (main w3)
                    = <[d := dw_with_toggle_view_enabled true x1]> (mw_docks (main w))).
  { unfold w3, w2, w1. simpl. rewrite list_insert_insert_eq. reflexivity. }
  unfold bind at 1, main_restoreState. rewrite Hdocks3.
  set (docks1 := <[d := dw_with_toggle_view_enabled true x1]> (mw_docks (main w))).
  assert (Hfocus : forall (w4 : World),
    plugins w4 = plugins w3 ->
    try_except
      (let* _w := get_widget t in
       let* p := plugin_at t in
       modify (with_focus (Some (focus_widget p))))
      (except AttributeError)
      (let* p := plugin_at t in
       modify (with_focus (Some (focus_widget p)))) w4
    = Ok tt (with_focus (Some (focus_widget p)) w4)).
  { intros w4 Hp4.
    assert (Hp4t : plugins w4 !! t = Some (pl_with_ismaximized false p)).
    { rewrite Hp4. unfold w3. simpl. apply list_lookup_insert_eq. exact Ht. }
    unfold try_except, bind. rewrite (get_widget_run w4 t _ Hp4t).
    assert (Hapi : api (pl_with_ismaximized false p) = api p) by reflexivity.
    rewrite Hapi.
    destruct (api p); cbn [except Exc_eqb];
      rewrite (plugin_at_run w4 t _ Hp4t); reflexivity. }
  assert (Hgoal : forall (w4 : World),
    plugins w4 = plugins w3 -> self w4 = self w3 ->
    mw_central (main w4) = None ->
    exists w',
      (modify (on_self (with_state_before_maximizing None)) >>
       (if option_nat_eqb (Some t) editor then
          match outline with
          | Some _ => modify (emit EvOutlineHideFromMaximizedEditor)
          | None => ret tt
          end
        else ret tt) >>
       try_except
         (let* _w := get_widget t in
          let* p := plugin_at t in
          modify (with_focus (Some (focus_widget p))))
         (except AttributeError)
         (let* p := plugin_at t in
          modify (with_focus (Some (focus_widget p))))) w4 = Ok tt w' /\
      _state_before_maximizing (self w') = None /\
      _last_plugin (self w') = Some t /\
      plugins w' = <[t := pl_with_ismaximized false p]> (plugins w) /\
      mw_central (main w') = None /\
      mw_docks (main w') = mw_docks (main w4) /\
      focus w' = Some (focus_widget p)).
  { intros w4 Hp4 Hs4 Hc4.
    unfold bind at 1, modify at 1.
    unfold bind at 1.
    destruct (option_nat_eqb (Some t) editor); [destruct outline|];
      unfold modify, ret; rewrite Hfocus by exact Hp4;
      eexists; (split; [reflexivity|]); simpl;
      rewrite ?Hs4, ?Hp4, ?Hc4; repeat split; try reflexivity; exact Hl. }
  unfold restored_docks. fold x1. fold docks1.
  destruct (restoreState H saved WINDOW_STATE_VERSION docks1) as [ds|] eqn:Hrs.
  - destruct (Hgoal (on_main (with_docks ds) w3)) as (w' & Hrun & Hrest);
      try reflexivity.
    exists w'. split; [exact Hrun|].
    destruct Hrest as (? & ? & ? & ? & Hdk & ?). repeat split; auto.
  - destruct (Hgoal w3) as (w' & Hrun & Hrest); try reflexivity.
    exists w'. split; [exact Hrun|].
    destruct Hrest as (? & ? & ? & ? & Hdk & ?). repeat split; auto.
    rewrite Hdk. exact Hdocks3.
Qed.

Lemma maximize_target_lt (w : World) t :
  maximize_ready w = true -> maximize_target w = Some t ->
  (t < length (plugins w))%nat.
Proof.
  intros Hready. unfold maximize_target, focused_plugin.
  destruct (selected _ _ _ None) as [s|] eqn:Hsel.
  - intros E. injection E as <-. eapply selected_lt; eauto. discriminate.
  - unfold maximize_ready in Hready. apply andb_true_iff in Hready.
    destruct Hready as [_ Hlast].
    destruct (_last_plugin (self w)) as [r|].
    + intros E. injection E as <-. apply Nat.ltb_lt. exact Hlast.
    + intros E. apply find_plugin_lt in E. lia.
Qed.

(** C2, as the code has it.  Let no pane be maximized, every dockable
    plugin have a dock widget, and [t] be the plugin that holds the focus,
    or else the plugin remembered in [_last_plugin], or else the Editor.
    [maximize_dockwidget()] saves the current window state, hides the dock
    widget of every dockable plugin, records [t] and makes its widget the
    central widget with the maximized flag set.  The next call, whatever
    [restore] is, hands the state saved before maximizing to [restoreState],
    clears the maximized flag of [t], empties the central widget and resets
    the saved state to [None]. *)
Theorem maximize_dockwidget_toggle (H : Host) (w : World) (t : nat) :
  _state_before_maximizing (self w) = None ->
  maximize_ready w = true ->
  maximize_target w = Some t ->
  let saved := saveState H (mw_docks (main w)) WINDOW_STATE_VERSION in
  exists w',
    maximize_dockwidget H false w = Ok tt w' /\
    _state_before_maximizing (self w') = Some saved /\
    (forall i p d, plugins w !! i = Some p -> dockwidget p = Some d ->
       exists x, mw_docks (main w') !! d = Some x /\ dw_visible x = false) /\
    _last_plugin (self w') = Some t /\
    (exists p', plugins w' !! t = Some p' /\ ismaximized p' = true /\
                mw_central (main w') = Some (widget_of t p')) /\
    forall restore, exists w'',
      maximize_dockwidget H restore w' = Ok tt w'' /\
      _state_before_maximizing (self w'') = None /\
      (exists p'', plugins w'' !! t = Some p'' /\ ismaximized p'' = false) /\
      mw_central (main w'') = None /\
      exists p' d x,
        plugins w' !! t = Some p' /\ dockwidget p' = Some d /\
        mw_docks (main w') !! d = Some x /\
        mw_docks (main w'') = restored_docks H saved t p' d x (mw_docks (main w')).
Proof.
  intros Hnone Hready Htarget saved.
  pose proof (maximize_target_lt w t Hready Htarget) as Ht.
  destruct (lookup_lt_is_Some_2 _ _ Ht) as [p Hp].
  destruct (maximize_ready_dock w t p Hready Hp) as (d & x0 & Hd & Hx0).
  rewrite (maximize_dockwidget_unfold_maximize H w Hnone).
  unfold maximize_branch.
  unfold bind at 1, get_plugin at 1, gets at 1.
  unfold bind at 1, get_plugin at 1, gets at 1.
  unfold bind at 1, main_saveState at 1, gets at 1. fold saved.
  unfold bind at 1, modify at 1.
  unfold bind at 1, gets at 1.
  unfold bind at 1, get_dockable_plugins at 1, gets at 1.
  set (ws := on_self (with_state_before_maximizing (Some saved)) w).
  set (editor := find_plugin Plugins_Editor (plugins w) 0).
  set (outline := find_plugin Plugins_OutlineExplorer (plugins w) 0).
  destruct (hide_and_select_loop ws)
    as (w1 & Hloop & Hp1 & Hlen1 & Hc1 & Hs1 & Hl1 & Hhid1); [exact Hready|].
  change (plugins ws) with (plugins w) in *.
  change (focus ws) with (focus w) in *.
  change (mw_docks (main ws)) with (mw_docks (main w)) in *.
  change (_last_plugin (self ws)) with (_last_plugin (self w)) in *.
  cbn [_state_before_maximizing self ws on_self with_state_before_maximizing] in Hs1.
  unfold bind at 1. rewrite Hloop.
  unfold bind at 1, gets at 1.
  rewrite selected_remembered in Hl1. fold (focused_plugin w) in Hl1.
  destruct (Hhid1 t p d Hp Hd) as (x1 & Hx1 & Hvis1).
  (* the world in which the selected plugin is maximized *)
  assert (Hmax : forall ed w2, plugins w2 = plugins w1 -> main w2 = main w1 ->
            _last_plugin (self w2) = Some t ->
            _state_before_maximizing (self w2) = Some saved ->
            exists w',
              maximize_last_plugin ed outline w2 = Ok tt w' /\
              _state_before_maximizing (self w') = Some saved /\
              (forall i q e, plugins w !! i = Some q -> dockwidget q = Some e ->
                 exists y, mw_docks (main w') !! e = Some y /\ dw_visible y = false) /\
              _last_plugin (self w') = Some t /\
              (exists p', plugins w' !! t = Some p' /\ ismaximized p' = true /\
                          dockwidget p' = Some d /\
                          mw_central (main w') = Some (widget_of t p')) /\
              mw_docks (main w') !! d = Some (dw_with_toggle_view_enabled false x1)).
  { intros ed w2 Hp2 Hm2 Hl2 Hs2.
    destruct (maximize_last_plugin_run ed outline w2 t p d x1)
      as (w' & Hrun & Hself & Hcen & Hdocks & Hplug); auto.
    { rewrite Hp2, Hp1. exact Hp. }
    { rewrite Hm2. exact Hx1. }
    assert (Hdlt : (d < length (mw_docks (main w1)))%nat) by (eapply lookup_lt_Some; eauto).
    exists w'. split; [exact Hrun|]. rewrite Hself. split; [exact Hs2|].
    split; [|split; [exact Hl2|split]].
    - intros i q e Hq He. rewrite Hdocks, Hm2.
      destruct (decide (e = d)) as [->|Hne].
      + eexists. split; [apply list_lookup_insert_eq; exact Hdlt|]. exact Hvis1.
      + rewrite list_lookup_insert_ne by congruence. eapply Hhid1; eauto.
    - eexists. split; [|split; [|split]].
      + rewrite Hplug. apply list_lookup_insert_eq. rewrite Hp2, Hp1. exact Ht.
      + reflexivity.
      + exact Hd.
      + exact Hcen.
    - rewrite Hdocks, Hm2. apply list_lookup_insert_eq. exact Hdlt. }
  assert (Hfirst : exists w',
            match _last_plugin (self w1) with
            | Some _ => maximize_last_plugin editor outline
            | None =>
                match editor with
                | Some e => set_last_plugin e >> maximize_last_plugin editor outline
                | None => ret tt
                end
            end w1 = Ok tt w' /\
            _state_before_maximizing (self w') = Some saved /\
            (forall i q e, plugins w !! i = Some q -> dockwidget q = Some e ->
               exists y, mw_docks (main w') !! e = Some y /\ dw_visible y = false) /\
            _last_plugin (self w') = Some t /\
            (exists p', plugins w' !! t = Some p' /\ ismaximized p' = true /\
                        dockwidget p' = Some d /\
                        mw_central (main w') = Some (widget_of t p')) /\
            mw_docks (main w') !! d = Some (dw_with_toggle_view_enabled false x1)).
  { unfold maximize_target in Htarget.
    destruct (focused_plugin w) as [s|].
    - injection Htarget as ->. rewrite Hl1. apply Hmax; auto.
    - destruct (_last_plugin (self w)) as [r|].
      + injection Htarget as ->. rewrite Hl1. apply Hmax; auto.
      + rewrite Hl1. fold editor in Htarget. rewrite Htarget.
        unfold bind at 1, set_last_plugin at 1, modify at 1.
        apply Hmax; [reflexivity | reflexivity | reflexivity | exact Hs1]. }
  destruct Hfirst as (w' & Hrun & Hs' & Hhid' & Hl' & (p' & Hp' & Hmx' & Hd' & Hc') & Hx').
  exists w'. split; [exact Hrun|]. split; [exact Hs'|]. split; [exact Hhid'|].
  split; [exact Hl'|]. split; [exists p'; auto|].
  intros restore.
  rewrite (maximize_dockwidget_unfold_restore H restore w' saved Hs').
  destruct (restore_branch_run H saved w' t p' d _ Hl' Hp' Hd' Hx')
    as (w'' & Hrun2 & Hs'' & Hl'' & Hp'' & Hc'' & Hdocks'' & _).
  exists w''. split; [exact Hrun2|]. split; [exact Hs''|]. split; [|split; [exact Hc''|]].
  - exists (pl_with_ismaximized false p'). split; [|reflexivity].
    rewrite Hp''. apply list_lookup_insert_eq. eapply lookup_lt_Some; eauto.
  - exists p', d, (dw_with_toggle_view_enabled false x1). auto.
Qed.

Lemma maximize_dockwidget_toggle_witness :
  exists w',
    maximize_dockwidget Demo.host false (with_focus (Some 20%nat) Demo.world1) = Ok tt w' /\
    _last_plugin (self w') = Some 1%nat /\
    forall restore, exists w'',
      maximize_dockwidget Demo.host restore w' = Ok tt w'' /\
      _state_before_maximizing (self w'') = None.
Proof.
  destruct (maximize_dockwidget_toggle Demo.host (with_focus (Some 20%nat) Demo.world1) 1%nat)
    as (w' & Hrun & _ & _ & Hlast & _ & Hrestore);
    [vm_compute; reflexivity | vm_compute; reflexivity | vm_compute; reflexivity |].
  exists w'. split; [exact Hrun|]. split; [exact Hlast|].
  intros restore. destruct (Hrestore restore) as (w'' & Hrun2 & Hnone & _).
  exists w''. split; assumption.
Defined.

(** C2, as stated, fails: with no pane maximized and the focus on no
    dockable plugin, the call maximizes the console, which was maximized
    before, and not the Editor, although the Editor is available. *)
Lemma maximize_dockwidget_counterexample :
  maximize_dockwidget Demo.host false MaximizeTwice.start
    = Ok tt MaximizeTwice.maximized /\
  maximize_dockwidget Demo.host false MaximizeTwice.maximized
    = Ok tt MaximizeTwice.restored /\
  _state_before_maximizing (self MaximizeTwice.unfocused) = None /\
  focused_plugin MaximizeTwice.unfocused = None /\
  claimed_target MaximizeTwice.unfocused = Some 0%nat /\
  maximize_dockwidget Demo.host false MaximizeTwice.unfocused
    = Ok tt MaximizeTwice.maximized_again /\
  mw_central (main MaximizeTwice.maximized_again) = Some (WGet 1%nat) /\
  mw_central (main MaximizeTwice.maximized_again)
    <> (fun t => WGet t) <$> claimed_target MaximizeTwice.unfocused.
Proof.
  split; [vm_compute; reflexivity|].
  split; [vm_compute; reflexivity|].
  split; [vm_compute; reflexivity|].
  split; [vm_compute; reflexivity|].
  split; [vm_compute; reflexivity|].
  split; [vm_compute; reflexivity|].
  split; [vm_compute; reflexivity|].
  vm_compute. discriminate.
Qed.

(** ** The panes menu *)

(** *** Placing actions in the list [order] *)

Lemma order_index_None s order : order_index s order = None <-> s ∉ names_of order.
Proof.
  unfold names_of. induction order as [|e order IH]; simpl.
  - split; [intros _ Hin; inversion Hin | reflexivity].
  - destruct e as [t| |a]; simpl.
    + destruct (String.eqb_spec t s) as [->|Hne].
      * split; [discriminate|]. intros Hn. exfalso. apply Hn. left.
      * rewrite not_elem_of_cons. rewrite <- IH.
        destruct (order_index s order); simpl.
        -- split; [discriminate | intros [_ E]; discriminate].
        -- split; [intros _; split; [congruence | reflexivity] | reflexivity].
    + rewrite <- IH. destruct (order_index s order); simpl.
      * split; discriminate.
      * split; reflexivity.
    + rewrite <- IH. destruct (order_index s order); simpl.
      * split; discriminate.
      * split; reflexivity.
Qed.

Lemma order_index_app_actions s (B A : list OrderItem) :
  names_of A = [] -> order_index s (B ++ A) = order_index s B.
Proof.
  intros HA. induction B as [|e B IH]; simpl.
  - apply order_index_None. rewrite HA. intros Hin. inversion Hin.
  - destruct e as [t| |a]; rewrite ?IH; reflexivity.
Qed.

Lemma order_index_lt s order pos :
  order_index s order = Some pos -> (pos < length order)%nat.
Proof.
  revert pos. induction order as [|e order IH]; simpl; intros pos; [discriminate|].
  destruct e as [t| |a].
  - destruct (String.eqb t s); [intros E; injection E as <-; lia|].
    destruct (order_index s order) as [q|]; simpl; [|discriminate].
    intros E. injection E as <-. specialize (IH q eq_refl). lia.
  - destruct (order_index s order) as [q|]; simpl; [|discriminate].
    intros E. injection E as <-. specialize (IH q eq_refl). lia.
  - destruct (order_index s order) as [q|]; simpl; [|discriminate].
    intros E. injection E as <-. specialize (IH q eq_refl). lia.
Qed.

Lemma resolve_cons_notin i s rest (B : list OrderItem) :
  s ∉ names_of B ->
  map (resolve_item ((i, s) :: rest)) B = map (resolve_item rest) B.
Proof.
  unfold names_of. induction B as [|e B IH]; simpl; intros Hn; [reflexivity|].
  destruct e as [t| |a]; simpl in *.
  - apply not_elem_of_cons in Hn. destruct Hn as [Hne Hn].
    rewrite (IH Hn). f_equal.
    destruct (String.eqb_spec s t) as [->|_]; [congruence | reflexivity].
  - rewrite (IH Hn). reflexivity.
  - rewrite (IH Hn). reflexivity.
Qed.

(** Replacing the first occurrence of a section name by an action. *)
Lemma place_found i s rest (B : list OrderItem) pos :
  order_index s B = Some pos ->
  NoDup (names_of B) ->
  map (resolve_item rest) (<[pos := OAction i]> B)
    = map (resolve_item ((i, s) :: rest)) B
  /\ s ∈ names_of B
  /\ NoDup (names_of (<[pos := OAction i]> B))
  /\ (forall t, t <> s ->
        (t ∈ names_of (<[pos := OAction i]> B) <-> t ∈ names_of B)).
Proof.
  unfold names_of. revert pos.
  induction B as [|e B IH]; simpl; intros pos Hidx Hnd; [discriminate|].
  destruct e as [t| |a]; simpl in *.
  - destruct (String.eqb_spec t s) as [->|Hne].
    + injection Hidx as <-. simpl. apply NoDup_cons in Hnd. destruct Hnd as [Hn Hnd].
      split; [|split; [left | split; [exact Hnd|]]].
      * rewrite String.eqb_refl. f_equal. symmetry. apply resolve_cons_notin. exact Hn.
      * intros u Hu. rewrite elem_of_cons. split; [auto|]. intros [E|Hin]; [congruence|auto].
    + destruct (order_index s B) as [q|] eqn:Hq; simpl in Hidx; [|discriminate].
      injection Hidx as <-. simpl. apply NoDup_cons in Hnd. destruct Hnd as [Hn Hnd].
      destruct (IH q eq_refl Hnd) as (Hmap & Hin & Hnd' & Hiff).
      split; [|split; [right; exact Hin | split]].
      * rewrite Hmap. f_equal.
        destruct (String.eqb_spec s t) as [E|_]; [congruence | reflexivity].
      * apply NoDup_cons. split; [|exact Hnd'].
        intros Hin'. apply Hn. apply (Hiff t Hne). exact Hin'.
      * intros u Hu. rewrite !elem_of_cons. rewrite (Hiff u Hu). reflexivity.
  - destruct (order_index s B) as [q|] eqn:Hq; simpl in Hidx; [|discriminate].
    injection Hidx as <-. simpl.
    destruct (IH q eq_refl Hnd) as (Hmap & Hin & Hnd' & Hiff).
    rewrite Hmap. auto.
  - destruct (order_index s B) as [q|] eqn:Hq; simpl in Hidx; [|discriminate].
    injection Hidx as <-. simpl.
    destruct (IH q eq_refl Hnd) as (Hmap & Hin & Hnd' & Hiff).
    rewrite Hmap. auto.
Qed.

Lemma filter_iff_in {A} (P Q : A -> Prop) `{!forall x, Decision (P x)}
    `{!forall x, Decision (Q x)} (l : list A) :
  (forall x, x ∈ l -> (P x <-> Q x)) -> filter P l = filter Q l.
Proof.
  induction l as [|x l IH]; intros Hiff; [reflexivity|].
  assert (Hl : forall y, y ∈ l -> (P y <-> Q y)).
  { intros y Hy. apply Hiff. right. exact Hy. }
  destruct (decide (P x)) as [HP|HP].
  - rewrite filter_cons_True by exact HP.
    rewrite filter_cons_True by (apply Hiff; [left | exact HP]).
    rewrite (IH Hl). reflexivity.
  - rewrite filter_cons_False by exact HP.
    rewrite filter_cons_False by (intros HQ; apply HP, Hiff; [left | exact HQ]).
    apply IH. exact Hl.
Qed.

Lemma find_section_cons_ne i s t rest :
  t <> s -> find_section t ((i, s) :: rest) = find_section t rest.
Proof.
  intros Hne. simpl. destruct (String.eqb_spec s t) as [E|_]; [congruence | reflexivity].
Qed.

(** The rounds turn each name of the list into the action of the first
    plugin of that section and append the actions of the other plugins in
    the order of the rounds. *)
Lemma place_all_spec (shown : list (nat * string)) :
  forall (B A : list OrderItem),
    NoDup (map fst shown) -> NoDup (names_of B) -> names_of A = [] ->
    place_all shown (B ++ A)
    = (map (resolve_item shown) B ++ A
       ++ map (fun e => OAction (fst e)) (appended B shown))%list.
Proof.
  induction shown as [|[i s] rest IH]; intros B A Hnd HB HA.
  - simpl. unfold appended. simpl. rewrite app_nil_r. f_equal.
    induction B as [|e B IHB]; [reflexivity|]. simpl.
    assert (HB' : NoDup (names_of B)).
    { unfold names_of in *. destruct e; simpl in HB; [|exact HB|exact HB].
      apply NoDup_cons in HB. tauto. }
    rewrite <- (IHB HB'). destruct e; reflexivity.
  - simpl in Hnd. apply NoDup_cons in Hnd. destruct Hnd as [Hi Hnd].
    change (place_all ((i, s) :: rest) (B ++ A))
      with (place_all rest (place (B ++ A) i s)).
    unfold place. rewrite (order_index_app_actions s B A HA).
    destruct (order_index s B) as [pos|] eqn:Hidx.
    + destruct (place_found i s rest B pos Hidx HB) as (Hmap & Hin & HB' & Hiff).
      rewrite insert_app_l by (eapply order_index_lt; eauto).
      rewrite (IH _ A Hnd HB' HA). rewrite Hmap. f_equal. f_equal. f_equal.
      unfold appended.
      rewrite filter_cons_False.
      2:{ intros Hn. apply Hn. split; [exact Hin|]. simpl.
          rewrite String.eqb_refl. reflexivity. }
      apply filter_iff_in.
      intros [j t] Hjt. unfold takes_position. cbn [fst snd].
      destruct (String.eqb_spec t s) as [->|Hts].
      * (* a later plugin of the section just placed *)
        assert (Hji : j <> i).
        { intros ->. apply Hi. apply list_elem_of_In, in_map_iff. exists (i, s).
          split; [reflexivity | apply list_elem_of_In; exact Hjt]. }
        assert (Hs' : s ∉ names_of (<[pos := OAction i]> B)).
        { apply order_index_None. clear -Hidx HB.
          revert pos Hidx. unfold names_of in HB.
          induction B as [|e B IHB]; intros pos Hidx; [discriminate|].
          destruct e as [t| |a]; simpl in *.
          - destruct (String.eqb_spec t s) as [->|Hne].
            + injection Hidx as <-. simpl. apply NoDup_cons in HB.
              destruct HB as [Hn _].
              rewrite (proj2 (order_index_None s B) Hn). reflexivity.
            + destruct (order_index s B) as [q|] eqn:Hq; simpl in Hidx; [|discriminate].
              injection Hidx as <-. simpl.
              destruct (String.eqb_spec t s) as [E|_]; [congruence|].
              apply NoDup_cons in HB. destruct HB as [_ HB].
              rewrite (IHB HB q eq_refl). reflexivity.
          - destruct (order_index s B) as [q|] eqn:Hq; simpl in Hidx; [|discriminate].
            injection Hidx as <-. simpl. rewrite (IHB HB q eq_refl). reflexivity.
          - destruct (order_index s B) as [q|] eqn:Hq; simpl in Hidx; [|discriminate].
            injection Hidx as <-. simpl. rewrite (IHB HB q eq_refl). reflexivity. }
        split; intros _ [Ha Hb].
        -- simpl in Hb. rewrite String.eqb_refl in Hb. congruence.
        -- exact (Hs' Ha).
      * rewrite (find_section_cons_ne i s t rest Hts).
        rewrite (Hiff t Hts). reflexivity.
    + apply order_index_None in Hidx.
      rewrite <- app_assoc.
      rewrite (IH B (A ++ [OAction i])%list Hnd HB).
      2:{ unfold names_of in *. rewrite omap_app, HA. reflexivity. }
      rewrite (resolve_cons_notin i s rest B Hidx).
      unfold appended.
      rewrite filter_cons_True.
      2:{ intros [Ha _]. exact (Hidx Ha). }
      simpl. rewrite <- !app_assoc. do 4 f_equal.
      apply filter_iff_in.
      intros [j t] Hjt. unfold takes_position. cbn [fst snd].
      destruct (String.eqb_spec t s) as [->|Hts].
      * split; intros _ [Ha _]; exact (Hidx Ha).
      * rewrite (find_section_cons_ne i s t rest Hts). reflexivity.
Qed.

(** *** The rounds of [create_plugins_menu] *)

Lemma fold_place_plugin ps (l : list nat) (order : list OrderItem) :
  fold_left (place_plugin ps) l order = place_all (omap (shown_entry ps) l) order.
Proof.
  revert order. induction l as [|i l IH]; intros order; [reflexivity|].
  simpl. rewrite IH. unfold place_plugin.
  destruct (shown_entry ps i); reflexivity.
Qed.

Lemma fold_each_inv {X S} (I : list X -> S -> World -> Prop) (body : X -> S -> M S) :
  forall (l pre : list X) (acc : S) (w : World),
    I pre acc w ->
    (forall done x acc0 w0, I done acc0 w0 -> x ∈ l ->
       exists acc1 w1, body x acc0 w0 = Ok acc1 w1 /\ I (done ++ [x])%list acc1 w1) ->
    exists acc' w', fold_each l acc body w = Ok acc' w' /\ I (pre ++ l)%list acc' w'.
Proof.
  induction l as [|x l IH]; intros pre acc w HI Hstep; simpl.
  - exists acc, w. rewrite app_nil_r. split; [reflexivity | exact HI].
  - destruct (Hstep pre x acc w HI) as (acc1 & w1 & Hb & HI1); [left|].
    unfold bind. rewrite Hb.
    destruct (IH (pre ++ [x])%list acc1 w1 HI1) as (acc' & w' & Hl & HI').
    { intros done y acc0 w0 HI0 Hy. apply Hstep; [exact HI0 | right; exact Hy]. }
    exists acc', w'. split; [exact Hl|]. rewrite <- app_assoc in HI'. exact HI'.
Qed.

Lemma create_plugins_menu_step_run (w0 : World) (i : nat) (p : Plugin)
    (order : list OrderItem) :
  plugins w0 !! i = Some p ->
  (forall d, dockwidget p = Some d -> is_Some (mw_docks (main w0) !! d)) ->
  exists q,
    create_plugins_menu_step i order w0
    = Ok (place_plugin (plugins w0) order i)
         (on_plugins (fun ps => <[i := q]> ps) w0) /\
    CONF_SECTION q = CONF_SECTION p /\ dockwidget q = dockwidget p /\
    (forall d x, dockwidget p = Some d -> mw_docks (main w0) !! d = Some x ->
       action_checked q = dw_visible x).
Proof.
  intros Hp Hdock.
  assert (Hi : (i < length (plugins w0))%nat) by (eapply lookup_lt_Some; eauto).
  unfold create_plugins_menu_step, place_plugin, shown_entry. rewrite Hp.
  pose (p1 := match api p with
              | NewApi => p
              | OldApi => pl_with_action_id (Some ("switch to " +:+ CONF_SECTION p)) p
              end).
  assert (Hstep1 :
    try_except (toggle_view_action i) (except AttributeError)
      (let* p := plugin_at i in
       plugin_update i (pl_with_action_id (Some ("switch to " +:+ CONF_SECTION p)))) w0
    = Ok tt (on_plugins (fun ps => <[i := p1]> ps) w0)).
  { unfold try_except, toggle_view_action, bind. rewrite (plugin_at_run w0 i p Hp).
    unfold p1. destruct (api p); cbn [except Exc_eqb].
    - unfold ret. f_equal. destruct w0; unfold on_plugins; simpl in *.
      rewrite list_insert_id by exact Hp. reflexivity.
    - unfold raise. cbv beta iota.
      rewrite (plugin_at_run w0 i p Hp), (plugin_update_run w0 i p _ Hp). reflexivity. }
  unfold bind at 1. rewrite Hstep1.
  set (w1 := on_plugins (fun ps => <[i := p1]> ps) w0).
  assert (Hp1 : plugins w1 !! i = Some p1).
  { unfold w1. simpl. apply list_lookup_insert_eq. exact Hi. }
  assert (Hd1 : dockwidget p1 = dockwidget p) by (unfold p1; destruct (api p); reflexivity).
  assert (Hc1 : CONF_SECTION p1 = CONF_SECTION p) by (unfold p1; destruct (api p); reflexivity).
  unfold bind at 1. rewrite (plugin_at_run w1 i p1 Hp1). rewrite Hd1.
  destruct (dockwidget p) as [d|] eqn:Hd.
  - destruct (Hdock d eq_refl) as [x Hx].
    unfold bind at 1. rewrite (dock_of_run w1 d x Hx).
    unfold bind at 1. rewrite (plugin_update_run w1 i p1 _ Hp1).
    exists (pl_with_action_checked (dw_visible x) p1).
    split; [|split; [exact Hc1 | split; [exact Hd1|]]].
    + rewrite Hc1. unfold place, w1.
      assert (Hw : on_plugins (fun ps => <[i := pl_with_action_checked (dw_visible x) p1]> ps)
                     (on_plugins (fun ps => <[i := p1]> ps) w0)
                   = on_plugins (fun ps => <[i := pl_with_action_checked (dw_visible x) p1]> ps)
                       w0).
      { unfold on_plugins; simpl. rewrite list_insert_insert_eq. reflexivity. }
      rewrite Hw. cbn [fst snd].
      destruct (order_index (CONF_SECTION p) order); reflexivity.
    + intros d' x' E Hx'. injection E as <-. rewrite Hx in Hx'. injection Hx' as <-.
      reflexivity.
  - exists p1. split; [reflexivity|]. split; [exact Hc1|]. split; [exact Hd1|].
    intros d x E. discriminate.
Qed.

Lemma create_plugins_menu_rounds (w : World) :
  docks_wfb w = true ->
  exists w1,
    fold_each (seq 0 (length (plugins w))) plugins_menu_order create_plugins_menu_step w
    = Ok (place_all (shown_plugins w) plugins_menu_order) w1 /\
    main w1 = main w /\ container w1 = container w /\
    forall i p, plugins w !! i = Some p ->
      exists q, plugins w1 !! i = Some q /\
        forall d x, dockwidget p = Some d -> mw_docks (main w) !! d = Some x ->
          action_checked q = dw_visible x.
Proof.
  intros Hwf.
  pose (I := fun (done : list nat) (acc : list OrderItem) (w0 : World) =>
    main w0 = main w /\ container w0 = container w /\
    acc = fold_left (place_plugin (plugins w)) done plugins_menu_order /\
    forall j p, plugins w !! j = Some p ->
      exists q, plugins w0 !! j = Some q /\
        CONF_SECTION q = CONF_SECTION p /\ dockwidget q = dockwidget p /\
        (j ∈ done -> forall d x, dockwidget p = Some d ->
           mw_docks (main w) !! d = Some x -> action_checked q = dw_visible x)).
  destruct (fold_each_inv I create_plugins_menu_step (seq 0 (length (plugins w))) []
              plugins_menu_order w) as (acc' & w1 & Hrun & HI).
  - repeat split; auto. intros j p Hj. exists p. repeat split; auto.
    intros Hin. inversion Hin.
  - intros done i acc0 w0 (Hm & Hc & Hacc & Hall) Hi.
    apply elem_of_seq in Hi. destruct Hi as [_ Hi]. simpl in Hi.
    destruct (lookup_lt_is_Some_2 (plugins w) i Hi) as [p Hp].
    destruct (Hall i p Hp) as (q0 & Hq0 & Hsec0 & Hdock0 & _).
    destruct (create_plugins_menu_step_run w0 i q0 acc0 Hq0) as (q & Hstep & Hsec & Hdock & Hchk).
    { intros d Hd. rewrite Hm. rewrite Hdock0 in Hd.
      apply lookup_lt_is_Some_2. eapply docks_wfb_lookup; eauto. }
    rewrite Hstep. eexists. eexists. split; [reflexivity|].
    split; [exact Hm|]. split; [exact Hc|]. split.
    + rewrite fold_left_app. simpl. rewrite <- Hacc.
      unfold place_plugin, shown_entry. rewrite Hq0, Hp, Hsec0, Hdock0. reflexivity.
    + intros j r Hr. simpl.
      destruct (decide (j = i)) as [->|Hne].
      * rewrite Hp in Hr. injection Hr as <-.
        exists q. split; [apply list_lookup_insert_eq; eapply lookup_lt_Some; eauto|].
        split; [congruence|]. split; [congruence|].
        intros _ d x Hd Hx. apply (Hchk d x); [congruence | rewrite Hm; exact Hx].
      * rewrite list_lookup_insert_ne by congruence.
        destruct (Hall j r Hr) as (qj & Hqj & Hsj & Hdj & Hcj).
        exists qj. split; [exact Hqj|]. split; [exact Hsj|]. split; [exact Hdj|].
        intros Hin. apply Hcj. apply elem_of_app in Hin. destruct Hin as [Hin|Hin]; [exact Hin|].
        apply list_elem_of_singleton in Hin. congruence.
  - destruct HI as (Hm & Hc & Hacc & Hall).
    exists w1. simpl in Hacc. rewrite fold_place_plugin in Hacc. fold (shown_plugins w) in Hacc.
    rewrite <- Hacc. split; [exact Hrun|]. split; [exact Hm|]. split; [exact Hc|].
    intros i p Hp. destruct (Hall i p Hp) as (q & Hq & _ & _ & Hchk).
    exists q. split; [exact Hq|]. apply Hchk.
    apply elem_of_seq. split; [lia|]. simpl. eapply lookup_lt_Some; eauto.
Qed.

Lemma add_actions_run (actions : list OrderItem) :
  forall w, exists w',
    for_each actions (fun action =>
      match action with
      | OStr _ => ret tt
      | ONone => add_action None
      | OAction a => add_action (Some a)
      end) w = Ok tt w' /\
    plugins_menu (container w') = (plugins_menu (container w) ++ items_of actions)%list /\
    main w' = main w /\ plugins w' = plugins w /\ trace w' = trace w /\ self w' = self w.
Proof.
  induction actions as [|e actions IH]; intros w; simpl.
  - exists w. rewrite app_nil_r. repeat split; reflexivity.
  - destruct e as [s| |a]; unfold bind.
    + unfold ret at 1. destruct (IH w) as (w' & Hrun & Hrest).
      exists w'. split; [exact Hrun | exact Hrest].
    + unfold add_action at 1, modify at 1.
      destruct (IH (on_container
                      (fun c => ct_with_plugins_menu (plugins_menu c ++ [None]) c) w))
        as (w' & Hrun & Hmenu & Hrest).
      exists w'. split; [exact Hrun|]. split; [|exact Hrest].
      rewrite Hmenu. simpl. rewrite <- app_assoc. reflexivity.
    + unfold add_action at 1, modify at 1.
      destruct (IH (on_container
                      (fun c => ct_with_plugins_menu (plugins_menu c ++ [Some a]) c) w))
        as (w' & Hrun & Hmenu & Hrest).
      exists w'. split; [exact Hrun|]. split; [|exact Hrest].
      rewrite Hmenu. simpl. rewrite <- app_assoc. reflexivity.
Qed.

Lemma items_of_app (X Y : list OrderItem) :
  items_of (X ++ Y) = (items_of X ++ items_of Y)%list.
Proof. unfold items_of. apply flat_map_app. Qed.

Lemma items_of_actions (l : list (nat * string)) :
  items_of (map (fun e => OAction (fst e)) l) = map (fun e => Some (fst e)) l.
Proof. induction l as [|e l IH]; simpl; [reflexivity | rewrite IH; reflexivity]. Qed.

Lemma shown_plugins_elem (w : World) i s :
  (i, s) ∈ shown_plugins w ->
  exists p d, plugins w !! i = Some p /\ dockwidget p = Some d /\ CONF_SECTION p = s.
Proof.
  unfold shown_plugins. rewrite list_elem_of_omap. intros (j & _ & Hj).
  unfold shown_entry in Hj.
  destruct (plugins w !! j) as [p|] eqn:Hp; [|discriminate].
  destruct (dockwidget p) as [d|] eqn:Hd; [|discriminate].
  injection Hj as <- <-. exists p, d. auto.
Qed.

Lemma find_section_elem s shown i :
  find_section s shown = Some i -> (i, s) ∈ shown.
Proof.
  induction shown as [|[j t] rest IH]; simpl; [discriminate|].
  destruct (String.eqb_spec t s) as [->|_].
  - intros E. injection E as <-. left.
  - intros E. right. apply IH. exact E.
Qed.

Lemma listed_items_elem shown i :
  Some i ∈ listed_items shown -> exists s, (i, s) ∈ shown.
Proof.
  unfold listed_items, items_of. rewrite list_elem_of_In, in_flat_map.
  intros (e & He & Hi). apply in_map_iff in He. destruct He as (e0 & <- & He0).
  destruct e0 as [s| |a]; simpl in Hi.
  - destruct (find_section s shown) as [j|] eqn:Hf; simpl in Hi; [|contradiction].
    destruct Hi as [E|[]]. injection E as ->. exists s. eapply find_section_elem; eauto.
  - destruct Hi as [E|[]]. discriminate.
  - exfalso. clear Hi. unfold plugins_menu_order in He0. simpl in He0.
    repeat (destruct He0 as [He0|He0]; [discriminate|]). exact He0.
Qed.

Lemma plugins_menu_order_names_NoDup : NoDup (names_of plugins_menu_order).
Proof. apply (bool_decide_unpack _). vm_compute. exact I. Qed.

Lemma shown_entry_fst ps i e : shown_entry ps i = Some e -> fst e = i.
Proof.
  unfold shown_entry. destruct (ps !! i) as [p|]; [|discriminate].
  destruct (dockwidget p); [|discriminate]. intros E. injection E as <-. reflexivity.
Qed.

Lemma shown_entries_NoDup ps (l : list nat) :
  NoDup l -> NoDup (map fst (omap (shown_entry ps) l)).
Proof.
  induction l as [|i l IH]; intros Hnd; [constructor|].
  apply NoDup_cons in Hnd. destruct Hnd as [Hi Hnd]. simpl.
  destruct (shown_entry ps i) as [e|] eqn:He; [|apply IH; exact Hnd].
  simpl. apply NoDup_cons. split; [|apply IH; exact Hnd].
  rewrite (shown_entry_fst ps i e He). intros Hin. apply Hi.
  apply list_elem_of_fmap in Hin. destruct Hin as (e' & -> & He').
  apply list_elem_of_omap in He'. destruct He' as (j & Hj & Hej).
  rewrite (shown_entry_fst ps j e' Hej). exact Hj.
Qed.

Lemma shown_plugins_NoDup (w : World) : NoDup (map fst (shown_plugins w)).
Proof. apply shown_entries_NoDup. apply NoDup_seq. Qed.

Lemma find_section_first (shown : list (nat * string)) j t :
  NoDup (map snd shown) -> (j, t) ∈ shown -> find_section t shown = Some j.
Proof.
  induction shown as [|[i s] rest IH]; intros Hnd Hin; [inversion Hin|].
  simpl in Hnd. apply NoDup_cons in Hnd. destruct Hnd as [Hs Hnd].
  apply elem_of_cons in Hin. simpl.
  destruct Hin as [E|Hin].
  - injection E as -> ->. rewrite String.eqb_refl. reflexivity.
  - destruct (String.eqb_spec s t) as [->|_]; [|apply IH; assumption].
    exfalso. apply Hs. apply list_elem_of_fmap. exists (j, t). split; [reflexivity | exact Hin].
Qed.

(** When no two plugins share a section, the appended plugins are the
    ones whose section is no name of the list. *)
Lemma appended_unlisted (B : list OrderItem) (shown : list (nat * string)) :
  NoDup (map snd shown) -> appended B shown = unlisted B shown.
Proof.
  intros Hnd. unfold appended, unlisted. apply filter_iff_in.
  intros [j t] Hjt. unfold takes_position. cbn [fst snd].
  rewrite (find_section_first shown j t Hnd Hjt). tauto.
Qed.

Lemma listed_items_first shown i s :
  takes_position plugins_menu_order shown (i, s) -> Some i ∈ listed_items shown.
Proof.
  intros [Hin Hfind]. cbn [fst snd] in *.
  unfold listed_items, items_of. apply list_elem_of_In, in_flat_map.
  exists (OAction i). split; [|left; reflexivity].
  apply in_map_iff. exists (OStr s). split; [simpl; rewrite Hfind; reflexivity|].
  unfold names_of in Hin. apply list_elem_of_omap in Hin.
  destruct Hin as (e & He & Hs). destruct e; try discriminate.
  injection Hs as ->. apply list_elem_of_In. exact He.
Qed.

(** C7.  Let the dock-widget references be sound.  [create_plugins_menu]
    adds to the panes menu, for the names of the fixed list in their order,
    the toggle action of the first plugin whose [CONF_SECTION] is the name
    (and [None] for each separator of the list), and after them the toggle
    actions of all other plugins with a dock widget in the order of
    [get_dockable_plugins()]: the plugins whose section is no name of the
    list and the later plugins of a section that has a plugin already.
    When no two plugins share a section, the appended plugins are the ones
    whose section is no name of the list.  Every plugin with a dock widget
    is added, a plugin whose [dockwidget] is [None] is not, and the action
    of every plugin with a dock widget is checked exactly when the dock
    widget is visible. *)
Theorem create_plugins_menu_order (w : World) :
  docks_wfb w = true ->
  exists w',
    create_plugins_menu w = Ok tt w' /\
    plugins_menu (container w')
    = (plugins_menu (container w)
       ++ listed_items (shown_plugins w) ++ appended_items (shown_plugins w))%list /\
    (NoDup (map snd (shown_plugins w)) ->
       appended_items (shown_plugins w) = unlisted_items (shown_plugins w)) /\
    (forall i p d x,
       plugins w !! i = Some p -> dockwidget p = Some d ->
       mw_docks (main w) !! d = Some x ->
       Some i ∈ (listed_items (shown_plugins w) ++ appended_items (shown_plugins w))%list /\
       exists q, plugins w' !! i = Some q /\ action_checked q = dw_visible x) /\
    (forall i p,
       plugins w !! i = Some p -> dockwidget p = None ->
       Some i ∉ (listed_items (shown_plugins w) ++ appended_items (shown_plugins w))%list) /\
    main w' = main w.
Proof.
  intros Hwf.
  destruct (create_plugins_menu_rounds w Hwf) as (w1 & Hrounds & Hm1 & Hc1 & Hchk).
  unfold create_plugins_menu. cbv zeta.
  unfold bind at 1, get_dockable_plugins at 1, gets at 1.
  unfold bind at 1. rewrite Hrounds.
  assert (Horder : place_all (shown_plugins w) plugins_menu_order
                   = (map (resolve_item (shown_plugins w)) plugins_menu_order
                      ++ map (fun e => OAction (fst e))
                           (appended plugins_menu_order (shown_plugins w)))%list).
  { rewrite <- (app_nil_r plugins_menu_order) at 1.
    rewrite (place_all_spec (shown_plugins w) plugins_menu_order []
               (shown_plugins_NoDup w) plugins_menu_order_names_NoDup eq_refl).
    reflexivity. }
  rewrite Horder.
  match goal with
  | |- context [for_each ?l ?body] => destruct (add_actions_run l w1)
      as (w2 & Hadd & Hmenu & Hm2 & Hp2 & Ht2 & Hs2)
  end.
  unfold bind at 1. rewrite Hadd. unfold bind, modify.
  eexists. split; [reflexivity|]. simpl.
  split; [|split; [|split; [|split]]].
  - rewrite Hmenu, Hc1, items_of_app, items_of_actions. reflexivity.
  - intros Hnd. unfold appended_items, unlisted_items.
    rewrite (appended_unlisted _ _ Hnd). reflexivity.
  - intros i p d x Hp Hd Hx. split.
    + assert (Hshown : (i, CONF_SECTION p) ∈ shown_plugins w).
      { unfold shown_plugins. apply list_elem_of_omap. exists i. split.
        - apply elem_of_seq. split; [lia|]. simpl. eapply lookup_lt_Some; eauto.
        - unfold shown_entry. rewrite Hp, Hd. reflexivity. }
      apply elem_of_app.
      destruct (decide (takes_position plugins_menu_order (shown_plugins w)
                          (i, CONF_SECTION p))) as [Ht|Ht].
      * left. eapply listed_items_first; eauto.
      * right. unfold appended_items. apply list_elem_of_fmap.
        exists (i, CONF_SECTION p). split; [reflexivity|].
        unfold appended. apply list_elem_of_filter. split; assumption.
    + rewrite Hp2.
      destruct (Hchk i p Hp) as (q & Hq & Hv). exists q. split; [exact Hq|].
      apply (Hv d x Hd Hx).
  - intros i p Hp Hd Hin. apply elem_of_app in Hin.
    assert (Hshown : exists s, (i, s) ∈ shown_plugins w).
    { destruct Hin as [Hin|Hin].
      - apply listed_items_elem. exact Hin.
      - unfold appended_items in Hin. apply list_elem_of_fmap in Hin.
        destruct Hin as ([j s] & E & Hjs). injection E as ->.
        exists s. unfold appended in Hjs. apply list_elem_of_filter in Hjs. tauto. }
    destruct Hshown as (s & Hs). apply shown_plugins_elem in Hs.
    destruct Hs as (p' & d & Hp' & Hd' & _). congruence.
  - rewrite Hm2. exact Hm1.
Qed.

Lemma create_plugins_menu_order_witness :
  exists w',
    create_plugins_menu Demo.world0 = Ok tt w' /\
    plugins_menu (container w')
    = [Some 0%nat; Some 1%nat; Some 2%nat; None; None; None; None; Some 3%nat].
Proof.
  destruct (create_plugins_menu_order Demo.world0) as (w' & Hrun & Hmenu & _).
  - vm_compute. reflexivity.
  - exists w'. split; [exact Hrun|]. rewrite Hmenu. vm_compute. reflexivity.
Defined.

(** C7, as stated, fails when two plugins share a configuration section:
    of two plugins of section [editor], the first name of the list, the
    second is not placed at the position of that name but appended, after
    the last separator. *)
Lemma create_plugins_menu_order_counterexample :
  let w := SharedSection.world in
  docks_wfb w = true /\
  map CONF_SECTION (plugins w) = ["editor"; "editor"] /\
  map dockwidget (plugins w) = [Some 0%nat; Some 1%nat] /\
  order_index "editor" plugins_menu_order = Some 0%nat /\
  plugins_menu (container w) = [] /\
  (listed_items (shown_plugins w) ++ unlisted_items (shown_plugins w))%list
  = [Some 0%nat; None; None; None; None] /\
  exists w',
    create_plugins_menu w = Ok tt w' /\
    plugins_menu (container w')
    = [Some 0%nat; None; None; None; None; Some 1%nat] /\
    plugins_menu (container w')
    <> (plugins_menu (container w)
        ++ listed_items (shown_plugins w) ++ unlisted_items (shown_plugins w))%list.
Proof.
  cbv zeta.
  split; [vm_compute; reflexivity|]. split; [reflexivity|]. split; [reflexivity|].
  split; [reflexivity|]. split; [reflexivity|].
  split; [vm_compute; reflexivity|].
  exists (world_of (create_plugins_menu SharedSection.world)).
  split; [vm_compute; reflexivity|]. split; [vm_compute; reflexivity|].
  vm_compute. discriminate.
Qed.

(** * Further properties *)

(** ** Loading is read-only *)

Lemma preserves_get_conf {X} (proj : World -> X) opt section :
  preserves proj (get_conf opt section).
Proof. intros w. unfold get_conf. destruct (conf w !! (section, opt)); reflexivity. Qed.

Lemma preserves_get_conf_default {X} (proj : World -> X) opt section :
  preserves proj (get_conf_default opt section).
Proof. intros w. reflexivity. Qed.

Lemma preserves_subscript {X} (proj : World -> X) v i : preserves proj (subscript v i).
Proof.
  intros w. unfold subscript.
  destruct v as [| | | |s|l|l]; try reflexivity.
  - destruct (String.get i s); reflexivity.
  - destruct (l !! i); reflexivity.
  - destruct (l !! i); reflexivity.
Qed.

Lemma preserves_as_int {X} (proj : World -> X) v : preserves proj (as_int v).
Proof. intros w. destruct v; reflexivity. Qed.

Lemma preserves_int_lt {X} (proj : World -> X) a v : preserves proj (int_lt a v).
Proof.
  unfold int_lt. apply preserves_bind; [apply preserves_as_int|].
  intros z. apply preserves_ret.
Qed.

#[export] Hint Resolve preserves_get_conf preserves_get_conf_default preserves_subscript
  preserves_as_int preserves_int_lt : frame.

(** X1.  [load_window_settings] only reads: whether it returns or raises,
    the world is the one it was called in. *)
Theorem load_window_settings_read_only (prefix : string) (default : bool)
    (section : string) (w : World) :
  world_of (load_window_settings prefix default section w) = w.
Proof.
  revert w. change (preserves (fun w => w) (load_window_settings prefix default section)).
  unfold load_window_settings. destruct default; frame.
Qed.

(** ** The monad laws used below, at a world *)

Lemma bind_assoc_run {A B C} (m : M A) (k : A -> M B) (k' : B -> M C) (w : World) :
  bind (bind m k) k' w = bind m (fun a => bind (k a) k') w.
Proof. unfold bind. destruct (m w); reflexivity. Qed.

Lemma bind_ext_run {A B} (m : M A) (k k' : A -> M B) (w : World) :
  (forall a w', k a w' = k' a w') -> bind m k w = bind m k' w.
Proof. intros E. unfold bind. destruct (m w); [apply E | reflexivity]. Qed.

(** A read-only computation hands back the world it was given. *)
Lemma read_only_run {A} (m : M A) (w : World) :
  preserves (fun w => w) m ->
  (exists a, m w = Ok a w) \/ (exists e, m w = Raise e w).
Proof.
  intros P. specialize (P w). destruct (m w) as [a w'|e w']; simpl in P; subst w'.
  - left. exists a. reflexivity.
  - right. exists e. reflexivity.
Qed.

(** ** What loading needs from the store *)

Lemma preserves_off_screen_check {X} (proj : World -> X) cw ch pos :
  preserves proj (off_screen_check cw ch pos).
Proof. unfold off_screen_check. frame. Qed.

#[export] Hint Resolve preserves_off_screen_check : frame.

Lemma subscript_not_NoOptionError v i w w' :
  subscript v i w <> Raise NoOptionError w'.
Proof.
  unfold subscript. destruct v as [| | | |s|l|l]; try discriminate.
  - destruct (String.get i s); discriminate.
  - destruct (l !! i); discriminate.
  - destruct (l !! i); discriminate.
Qed.

Lemma int_lt_not_NoOptionError a v w w' :
  int_lt a v w <> Raise NoOptionError w'.
Proof. destruct v; discriminate. Qed.

Lemma off_screen_check_not_NoOptionError cw ch pos w w' :
  off_screen_check cw ch pos w <> Raise NoOptionError w'.
Proof.
  unfold off_screen_check. unfold bind at 1.
  destruct (subscript pos 0 w) as [a w1|e w1] eqn:E0.
  2:{ intros E. injection E as -> ->. exact (subscript_not_NoOptionError _ _ _ _ E0). }
  unfold bind at 1.
  destruct (subscript pos 1 w1) as [b w2|e w2] eqn:E1.
  2:{ intros E. injection E as -> ->. exact (subscript_not_NoOptionError _ _ _ _ E1). }
  unfold bind at 1.
  destruct (int_lt cw a w2) as [c w3|e w3] eqn:E2.
  2:{ intros E. injection E as -> ->. exact (int_lt_not_NoOptionError _ _ _ _ E2). }
  destruct c; [discriminate | apply int_lt_not_NoOptionError].
Qed.

Lemma off_screen_check_run cw ch x y (w : World) :
  off_screen_check cw ch (VTuple [VInt x; VInt y]) w = Ok ((cw <? x) || (ch <? y)) w.
Proof.
  unfold off_screen_check, bind, int_lt, bind. simpl.
  destruct (cw <? x); reflexivity.
Qed.

(** [load_window_settings(prefix, default=False, section)], option by
    option. *)
Lemma load_window_settings_stored (prefix section : string) (w : World) :
  load_window_settings prefix false section w
  = match conf w !! (section, prefix +:+ "size") with
    | None => Raise NoOptionError w
    | Some window_size =>
        match conf w !! (section, prefix +:+ "position") with
        | None => Raise NoOptionError w
        | Some pos =>
            (let* off_screen :=
               off_screen_check (r_width (mw_screen_virtual (main w)))
                 (r_height (mw_screen_virtual (main w))) pos in
             let* pos := if off_screen
                         then get_conf_default (prefix +:+ "position") section
                         else ret pos in
             let* is_maximized := get_conf (prefix +:+ "is_maximized") section in
             let* is_fullscreen := get_conf (prefix +:+ "is_fullscreen") section in
             ret (loaded_hexstate prefix false section w,
                  window_size, pos, is_maximized, is_fullscreen)) w
        end
    end.
Proof.
  unfold load_window_settings.
  unfold bind at 1. unfold get_conf at 1.
  destruct (conf w !! (section, prefix +:+ "size")) as [vsize|]; [|reflexivity].
  unfold bind at 1.
  assert (Hhex : try_except (get_conf (prefix +:+ "state") section)
                   any_exception (ret VNone) w
                 = Ok (loaded_hexstate prefix false section w) w).
  { unfold try_except, get_conf, loaded_hexstate.
    destruct (conf w !! (section, prefix +:+ "state")); reflexivity. }
  rewrite Hhex.
  unfold bind at 1. unfold get_conf at 1.
  destruct (conf w !! (section, prefix +:+ "position")) as [vpos|]; [|reflexivity].
  unfold bind at 1, gets at 1.
  unfold off_screen_check.
  rewrite bind_assoc_run. apply bind_ext_run. intros width w1.
  rewrite bind_assoc_run. apply bind_ext_run. intros height w2.
  rewrite bind_assoc_run. apply bind_ext_run. intros off_x w3.
  reflexivity.
Qed.

(** X2.  With [default=False], [load_window_settings] returns only when the
    options [size], [position], [is_maximized] and [is_fullscreen] are all
    stored under the prefix, and it raises [NoOptionError] only when one of
    them is missing; a missing [state] option is no error, the state
    returned is then [None]. *)
Theorem load_window_settings_required_options (prefix section : string) (w : World) :
  let required := ["size"; "position"; "is_maximized"; "is_fullscreen"] in
  (forall r w', load_window_settings prefix false section w = Ok r w' ->
     Forall (fun opt => is_Some (conf w !! (section, prefix +:+ opt))) required /\
     (conf w !! (section, prefix +:+ "state") = None -> r.1.1.1.1 = VNone))
  /\
  (forall w', load_window_settings prefix false section w = Raise NoOptionError w' ->
     Exists (fun opt => conf w !! (section, prefix +:+ opt) = None) required).
Proof.
  intros required. subst required.
  rewrite load_window_settings_stored.
  destruct (conf w !! (section, prefix +:+ "size")) as [vsize|] eqn:Hsize.
  2:{ split; [discriminate|]. intros _ _. apply Exists_cons_hd. exact Hsize. }
  destruct (conf w !! (section, prefix +:+ "position")) as [vpos|] eqn:Hpos.
  2:{ split; [discriminate|]. intros _ _.
      apply Exists_cons_tl, Exists_cons_hd. exact Hpos. }
  unfold bind.
  set (check := off_screen_check _ _ vpos).
  destruct (read_only_run check w) as [[off Hc]|[e Hc]];
    [apply preserves_off_screen_check | |]; rewrite Hc; cbv beta iota.
  2:{ split; [discriminate|]. intros w' E. exfalso. injection E as -> _.
      exact (off_screen_check_not_NoOptionError _ _ _ _ _ Hc). }
  assert (Hd : exists p, (if off then get_conf_default (prefix +:+ "position") section
                          else ret vpos) w = Ok p w).
  { destruct off; eexists; reflexivity. }
  destruct Hd as (p & ->). cbv beta iota.
  unfold get_conf.
  destruct (conf w !! (section, prefix +:+ "is_maximized")) as [vmax|] eqn:Hmax.
  2:{ split; [discriminate|]. intros _ _.
      apply Exists_cons_tl, Exists_cons_tl, Exists_cons_hd. exact Hmax. }
  destruct (conf w !! (section, prefix +:+ "is_fullscreen")) as [vfs|] eqn:Hfs.
  2:{ split; [discriminate|]. intros _ _.
      apply Exists_cons_tl, Exists_cons_tl, Exists_cons_tl, Exists_cons_hd. exact Hfs. }
  split; [|discriminate].
  intros r w' E. injection E as <- _. split.
  - repeat constructor; cbv beta; rewrite ?Hsize, ?Hpos, ?Hmax, ?Hfs; eexists; reflexivity.
  - intros Hstate. cbn [fst]. unfold loaded_hexstate. rewrite Hstate. reflexivity.
Qed.

(** ** What maximizing a pane leaves alone *)

Lemma preserves_window_frame_main_restoreState (H : Host) q v :
  preserves window_frame (main_restoreState H q v).
Proof.
  intros w. unfold main_restoreState.
  destruct (restoreState H q v (mw_docks (main w))); reflexivity.
Qed.

#[export] Hint Resolve preserves_window_frame_main_restoreState : frame.

Lemma window_frame_eq (w w' : World) :
  window_frame w' = window_frame w ->
  with_docks [] (with_central None (main w')) = with_docks [] (with_central None (main w))
  /\ conf w' = conf w /\ conf_defaults w' = conf_defaults w.
Proof.
  unfold window_frame. intros E.
  split; [exact (f_equal (fun x => x.1.1) E)|].
  split; [exact (f_equal (fun x => x.1.2) E) | exact (f_equal snd E)].
Qed.

Lemma preserves_window_frame_maximize_dockwidget (H : Host) (restore : bool) :
  preserves window_frame (maximize_dockwidget H restore).
Proof.
  unfold maximize_dockwidget, get_plugin, main_saveState, get_dockable_plugins,
    set_last_plugin, setCentralWidget, dock_update, plugin_update, get_widget,
    isAncestorOf, last_plugin_ref.
  frame.
Qed.

(** X3.  [maximize_dockwidget], however it ends, changes nothing of the
    main window but its dock area and its central widget: size, position,
    window state and flags, width limits and status bar are as they were,
    and so are the stored options. *)
Theorem maximize_dockwidget_keeps_window (H : Host) (restore : bool) (w : World) :
  let w' := world_of (maximize_dockwidget H restore w) in
  mw_size (main w') = mw_size (main w) /\
  mw_pos (main w') = mw_pos (main w) /\
  mw_window_state (main w') = mw_window_state (main w) /\
  mw_window_flags (main w') = mw_window_flags (main w) /\
  mw_min_width (main w') = mw_min_width (main w) /\
  mw_max_width (main w') = mw_max_width (main w) /\
  mw_updates_enabled (main w') = mw_updates_enabled (main w) /\
  mw_statusbar_hidden (main w') = mw_statusbar_hidden (main w) /\
  conf w' = conf w.
Proof.
  intros w'. subst w'.
  pose proof (preserves_window_frame_maximize_dockwidget H restore w) as P.
  set (w' := world_of (maximize_dockwidget H restore w)) in *.
  apply window_frame_eq in P. destruct P as (Pm & Pc & _).
  repeat split;
    [ exact (f_equal mw_size Pm) | exact (f_equal mw_pos Pm)
    | exact (f_equal mw_window_state Pm) | exact (f_equal mw_window_flags Pm)
    | exact (f_equal mw_min_width Pm) | exact (f_equal mw_max_width Pm)
    | exact (f_equal mw_updates_enabled Pm) | exact (f_equal mw_statusbar_hidden Pm)
    | exact Pc ].
Qed.

(** ** Saving, then loading *)

Lemma save_current_window_settings_unfold (H : Host) (prefix section : string)
    (none_state : bool) (w : World) :
  save_current_window_settings H prefix section none_state w
  = (maximize_dockwidget H true >>
     modify (state_saved H prefix section none_state))
      (geometry_saved prefix section w).
Proof.
  unfold save_current_window_settings, geometry_saved, saved_position.
  unfold bind at 1 2. unfold gets at 1 2.
  unfold bind at 1. unfold set_conf at 1. unfold modify at 1.
  unfold bind at 1. unfold bind at 1. unfold gets at 1.
  unfold set_conf at 1. unfold modify at 1.
  unfold bind at 1. unfold bind at 1. unfold gets at 1.
  unfold set_conf at 1. unfold modify at 1.
  unfold bind at 1. unfold set_conf at 1. unfold modify at 1.
  cbn [main on_conf].
  apply bind_ext_run. intros [] w1.
  unfold state_saved, saved_state, main_saveState, bind, gets, set_conf, modify.
  destruct none_state; reflexivity.
Qed.

(** X4.  What [save_current_window_settings] stored under a prefix is what
    [load_window_settings] reads back under that prefix: the size of the
    window, whether it was maximized and fullscreen, the state of the dock
    area (or [None] when [none_state] is set), and the position with its
    negative coordinates raised to 0, the configured default position
    taking its place when it lies beyond the virtual screen. *)
Theorem save_then_load_window_settings (H : Host) (prefix section : string)
    (none_state : bool) (w w' : World) :
  save_current_window_settings H prefix section none_state w = Ok tt w' ->
  let pos := saved_position w in
  let screen := mw_screen_virtual (main w) in
  load_window_settings prefix false section w'
  = Ok (saved_state H none_state w',
        VTuple [VInt (fst (mw_size (main w))); VInt (snd (mw_size (main w)))],
        (if (r_width screen <? fst pos) || (r_height screen <? snd pos)
         then default_value w (prefix +:+ "position") section
         else VTuple [VInt (fst pos); VInt (snd pos)]),
        VBool (isMaximized (main w)), VBool (isFullScreen (main w))) w'.
Proof.
  intros Hsave pos screen.
  rewrite save_current_window_settings_unfold in Hsave.
  set (w0 := geometry_saved prefix section w) in Hsave.
  pose proof (preserves_window_frame_maximize_dockwidget H true w0) as P.
  unfold bind in Hsave.
  destruct (maximize_dockwidget H true w0) as [[] w1|e w1]; [|discriminate].
  simpl in P. unfold modify in Hsave. injection Hsave as <-.
  apply window_frame_eq in P. destruct P as (Pm & Pc & Pd).
  assert (Hscreen : mw_screen_virtual (main w1) = screen).
  { exact (f_equal mw_screen_virtual Pm). }
  assert (Hlook : forall opt, opt <> "state" -> opt <> "statusbar" ->
            conf (state_saved H prefix section none_state w1) !! (section, prefix +:+ opt)
            = conf w0 !! (section, prefix +:+ opt)).
  { intros opt H1 H2. unfold state_saved. cbn [conf on_conf].
    rewrite lookup_insert_ne by (apply conf_key_ne; congruence).
    rewrite lookup_insert_ne by (apply conf_key_ne; congruence).
    rewrite Pc. reflexivity. }
  rewrite load_window_settings_stored.
  rewrite !Hlook by discriminate.
  unfold w0 at 1 2. unfold geometry_saved. cbn [conf on_conf].
  rewrite lookup_insert_ne by (apply conf_key_ne; discriminate).
  rewrite lookup_insert_ne by (apply conf_key_ne; discriminate).
  rewrite lookup_insert_ne by (apply conf_key_ne; discriminate).
  rewrite lookup_insert_eq.
  rewrite lookup_insert_eq.
  fold pos.
  unfold bind at 1.
  change (main (state_saved H prefix section none_state w1)) with (main w1).
  rewrite Hscreen.
  rewrite off_screen_check_run. cbv beta iota.
  unfold bind at 1.
  assert (Hpos : (if (r_width screen <? fst pos) || (r_height screen <? snd pos)
                  then get_conf_default (prefix +:+ "position") section
                  else ret (VTuple [VInt (fst pos); VInt (snd pos)]))
                   (state_saved H prefix section none_state w1)
                 = Ok (if (r_width screen <? fst pos) || (r_height screen <? snd pos)
                       then default_value w (prefix +:+ "position") section
                       else VTuple [VInt (fst pos); VInt (snd pos)])
                     (state_saved H prefix section none_state w1)).
  { destruct ((r_width screen <? fst pos) || (r_height screen <? snd pos));
      [|reflexivity].
    unfold get_conf_default, default_value.
    change (conf_defaults (state_saved H prefix section none_state w1))
      with (conf_defaults w1).
    rewrite Pd. reflexivity. }
  rewrite Hpos. cbv beta iota.
  unfold bind at 1, get_conf at 1. rewrite Hlook by discriminate.
  unfold w0 at 1. unfold geometry_saved. cbn [conf on_conf].
  rewrite lookup_insert_ne by (apply conf_key_ne; discriminate).
  rewrite lookup_insert_ne by (apply conf_key_ne; discriminate).
  rewrite lookup_insert_eq.
  unfold bind at 1, get_conf at 1. rewrite Hlook by discriminate.
  unfold w0 at 1. unfold geometry_saved. cbn [conf on_conf].
  rewrite lookup_insert_ne by (apply conf_key_ne; discriminate).
  rewrite lookup_insert_eq.
  unfold ret. f_equal. f_equal. f_equal. f_equal. f_equal.
  unfold loaded_hexstate, state_saved. cbn [conf on_conf].
  rewrite lookup_insert_ne by (apply conf_key_ne; discriminate).
  rewrite lookup_insert_eq. reflexivity.
Qed.

Lemma save_then_load_window_settings_witness :
  load_window_settings "window/" false "main"
    (world_of (save_current_window_settings Demo.host "window/" "main" true
                 (on_main (with_pos (-5, 20)) Demo.world0)))
  = Ok (VNone, VTuple [VInt 1260; VInt 740], VTuple [VInt 0; VInt 20],
        VBool false, VBool false)
      (world_of (save_current_window_settings Demo.host "window/" "main" true
                   (on_main (with_pos (-5, 20)) Demo.world0))).
Proof.
  apply (save_then_load_window_settings Demo.host "window/" "main" true
           (on_main (with_pos (-5, 20)) Demo.world0)).
  vm_compute. reflexivity.
Defined.

(** ** Maximizing with no plugin to maximize *)

(** X5.  Let no pane be maximized and every dockable plugin have a dock
    widget, while no dockable plugin holds the focus, none is remembered
    and there is no Editor.  [maximize_dockwidget()] then returns with the
    window state saved and every dock widget hidden, but with no plugin
    selected and the central widget as it was; from there every further
    call, with or without [restore], raises [AttributeError] and changes
    nothing, so that the hidden panes are not brought back. *)
Theorem maximize_dockwidget_without_target (H : Host) (w : World) :
  _state_before_maximizing (self w) = None ->
  maximize_ready w = true ->
  maximize_target w = None ->
  let saved := saveState H (mw_docks (main w)) WINDOW_STATE_VERSION in
  exists w',
    maximize_dockwidget H false w = Ok tt w' /\
    _state_before_maximizing (self w') = Some saved /\
    _last_plugin (self w') = None /\
    mw_central (main w') = mw_central (main w) /\
    (forall i p d, plugins w !! i = Some p -> dockwidget p = Some d ->
       exists x, mw_docks (main w') !! d = Some x /\ dw_visible x = false) /\
    forall restore, maximize_dockwidget H restore w' = Raise AttributeError w'.
Proof.
  intros Hnone Hready Htarget saved.
  rewrite (maximize_dockwidget_unfold_maximize H w Hnone).
  unfold maximize_branch.
  unfold bind at 1, get_plugin at 1, gets at 1.
  unfold bind at 1, get_plugin at 1, gets at 1.
  unfold bind at 1, main_saveState at 1, gets at 1. fold saved.
  unfold bind at 1, modify at 1.
  unfold bind at 1, gets at 1.
  unfold bind at 1, get_dockable_plugins at 1, gets at 1.
  set (ws := on_self (with_state_before_maximizing (Some saved)) w).
  destruct (hide_and_select_loop ws)
    as (w1 & Hloop & Hp1 & Hlen1 & Hc1 & Hs1 & Hl1 & Hhid1); [exact Hready|].
  change (plugins ws) with (plugins w) in *.
  change (focus ws) with (focus w) in *.
  change (mw_docks (main ws)) with (mw_docks (main w)) in *.
  change (mw_central (main ws)) with (mw_central (main w)) in *.
  change (_last_plugin (self ws)) with (_last_plugin (self w)) in *.
  cbn [_state_before_maximizing self ws on_self with_state_before_maximizing] in Hs1.
  unfold bind at 1. rewrite Hloop.
  unfold bind at 1, gets at 1.
  rewrite selected_remembered in Hl1. fold (focused_plugin w) in Hl1.
  unfold maximize_target in Htarget.
  destruct (focused_plugin w) as [t|]; [discriminate|].
  destruct (_last_plugin (self w)) as [t|]; [discriminate|].
  rewrite Hl1, Htarget.
  exists w1. split; [reflexivity|]. split; [exact Hs1|]. split; [exact Hl1|].
  split; [exact Hc1|]. split; [exact Hhid1|].
  intros restore.
  rewrite (maximize_dockwidget_unfold_restore H restore w1 saved Hs1).
  unfold restore_branch.
  unfold bind at 1, get_plugin at 1, gets at 1.
  unfold bind at 1, get_plugin at 1, gets at 1.
  unfold bind at 1. unfold try_except.
  unfold bind at 1. unfold last_plugin_ref at 1. unfold bind at 1, gets at 1.
  rewrite Hl1. unfold raise at 1. cbv beta iota.
  cbn [except Exc_eqb].
  unfold bind at 1. unfold last_plugin_ref at 1. unfold bind at 1, gets at 1.
  rewrite Hl1. reflexivity.
Qed.

Lemma maximize_dockwidget_without_target_witness :
  exists w',
    maximize_dockwidget Demo.host false
      (on_plugins (fun ps => drop 1 (take 4 ps)) Demo.world0) = Ok tt w' /\
    _last_plugin (self w') = None /\
    forall restore, maximize_dockwidget Demo.host restore w' = Raise AttributeError w'.
Proof.
  destruct (maximize_dockwidget_without_target Demo.host
              (on_plugins (fun ps => drop 1 (take 4 ps)) Demo.world0))
    as (w' & Hrun & _ & Hlast & _ & _ & Hnext);
    [vm_compute; reflexivity | vm_compute; reflexivity | vm_compute; reflexivity |].
  exists w'. split; [exact Hrun|]. split; [exact Hlast | exact Hnext].
Defined.

(** ** Maximizing when a plugin has no dock widget *)

Lemma for_each_app {X} (l1 l2 : list X) (body : X -> M unit) (w : World) :
  for_each (l1 ++ l2) body w = (for_each l1 body >> for_each l2 body) w.
Proof.
  revert w. induction l1 as [|x l1 IH]; intros w; [reflexivity|].
  simpl. rewrite bind_assoc_run. apply bind_ext_run. intros _ w'. apply IH.
Qed.

Lemma docks_ready_before_dock (w : World) i j q :
  docks_ready_before i w = true -> (j < i)%nat -> plugins w !! j = Some q ->
  exists d x, dockwidget q = Some d /\ mw_docks (main w) !! d = Some x.
Proof.
  unfold docks_ready_before. rewrite forallb_forall. intros Hall Hj Hq.
  assert (Hin : In q (take i (plugins w))).
  { apply list_elem_of_In. apply (list_elem_of_lookup_2 _ j).
    rewrite lookup_take_lt by exact Hj. exact Hq. }
  specialize (Hall q Hin). destruct (dockwidget q) as [d|]; [|discriminate].
  apply Nat.ltb_lt in Hall.
  destruct (lookup_lt_is_Some_2 _ _ Hall) as [x Hx].
  exists d, x. auto.
Qed.

(** The rounds for the plugins before position [i]. *)
Lemma hide_and_select_prefix (w : World) (i : nat) :
  (i <= length (plugins w))%nat ->
  docks_ready_before i w = true ->
  exists w',
    for_each (seq 0 i) (hide_and_select (focus w)) w = Ok tt w' /\
    plugins w' = plugins w /\
    length (mw_docks (main w')) = length (mw_docks (main w)) /\
    mw_central (main w') = mw_central (main w) /\
    _state_before_maximizing (self w') = _state_before_maximizing (self w) /\
    forall j q d, (j < i)%nat -> plugins w !! j = Some q -> dockwidget q = Some d ->
      exists x, mw_docks (main w') !! d = Some x /\ dw_visible x = false.
Proof.
  intros Hi Hready.
  pose (I := fun (done : list nat) (w0 : World) =>
    plugins w0 = plugins w /\
    length (mw_docks (main w0)) = length (mw_docks (main w)) /\
    mw_central (main w0) = mw_central (main w) /\
    _state_before_maximizing (self w0) = _state_before_maximizing (self w) /\
    forall j q d, j ∈ done -> plugins w !! j = Some q -> dockwidget q = Some d ->
      exists x, mw_docks (main w0) !! d = Some x /\ dw_visible x = false).
  destruct (for_each_inv I (hide_and_select (focus w)) (seq 0 i) [] w)
    as (w' & Hrun & HI).
  - repeat split; auto. intros j q d Hin. inversion Hin.
  - intros done j w0 (Hp & Hlen & Hc & Hs & Hdone) Hj.
    apply elem_of_seq in Hj. destruct Hj as [_ Hj]. simpl in Hj.
    assert (Hjl : (j < length (plugins w))%nat) by lia.
    destruct (lookup_lt_is_Some_2 (plugins w) j Hjl) as [p Hpj].
    destruct (docks_ready_before_dock w i j p Hready Hj Hpj) as (d & x0 & Hd & Hx0).
    assert (Hlt : (d < length (mw_docks (main w0)))%nat).
    { rewrite Hlen. eapply lookup_lt_Some; eauto. }
    destruct (lookup_lt_is_Some_2 _ _ Hlt) as [x Hx].
    assert (Hpj0 : plugins w0 !! j = Some p) by (rewrite Hp; exact Hpj).
    rewrite (hide_and_select_run w0 (focus w) j p d x Hpj0 Hd Hx).
    eexists. split; [reflexivity|].
    unfold I.
    destruct (owns p (focus w)); simpl;
      (repeat split; auto; [rewrite length_insert; exact Hlen|]);
      intros k q e Hk Hq He;
      (destruct (decide (e = d)) as [->|Hne];
       [ exists (dw_with_visible false x); split; [|reflexivity];
         apply list_lookup_insert_eq; exact Hlt
       | rewrite list_lookup_insert_ne by congruence;
         apply elem_of_app in Hk; destruct Hk as [Hk|Hk];
         [ eapply Hdone; eauto
         | apply list_elem_of_singleton in Hk; subst k;
           rewrite Hpj in Hq; injection Hq as <-; congruence ] ]).
  - destruct HI as (Hp & Hlen & Hc & Hs & Hall).
    exists w'. split; [exact Hrun|]. repeat split; auto.
    intros j q d Hj Hq Hd. apply (Hall j q d); auto.
    simpl. apply elem_of_seq. split; [lia|]. simpl. exact Hj.
Qed.

(** X6.  Let no pane be maximized and let the plugin at position [i] be
    the first dockable plugin without a dock widget.  [maximize_dockwidget()]
    raises [AttributeError] in the round of that plugin: by then the window
    state is saved and the dock widgets of the plugins before it are hidden,
    and no plugin is made the central widget. *)
Theorem maximize_dockwidget_missing_dockwidget (H : Host) (w : World) (i : nat)
    (p : Plugin) :
  _state_before_maximizing (self w) = None ->
  plugins w !! i = Some p ->
  dockwidget p = None ->
  docks_ready_before i w = true ->
  let saved := saveState H (mw_docks (main w)) WINDOW_STATE_VERSION in
  exists w',
    maximize_dockwidget H false w = Raise AttributeError w' /\
    _state_before_maximizing (self w') = Some saved /\
    mw_central (main w') = mw_central (main w) /\
    plugins w' = plugins w /\
    forall j q d, (j < i)%nat -> plugins w !! j = Some q -> dockwidget q = Some d ->
      exists x, mw_docks (main w') !! d = Some x /\ dw_visible x = false.
Proof.
  intros Hnone Hp Hd Hready saved.
  rewrite (maximize_dockwidget_unfold_maximize H w Hnone).
  unfold maximize_branch.
  unfold bind at 1, get_plugin at 1, gets at 1.
  unfold bind at 1, get_plugin at 1, gets at 1.
  unfold bind at 1, main_saveState at 1, gets at 1. fold saved.
  unfold bind at 1, modify at 1.
  unfold bind at 1, gets at 1.
  unfold bind at 1, get_dockable_plugins at 1, gets at 1.
  set (ws := on_self (with_state_before_maximizing (Some saved)) w).
  assert (Hi : (i < length (plugins w))%nat) by (eapply lookup_lt_Some; eauto).
  destruct (hide_and_select_prefix ws i)
    as (w1 & Hloop & Hp1 & Hlen1 & Hc1 & Hs1 & Hhid1);
    [exact (Nat.lt_le_incl _ _ Hi) | exact Hready |].
  change (plugins ws) with (plugins w) in *.
  change (focus ws) with (focus w) in *.
  change (mw_docks (main ws)) with (mw_docks (main w)) in *.
  change (mw_central (main ws)) with (mw_central (main w)) in *.
  cbn [_state_before_maximizing self ws on_self with_state_before_maximizing] in Hs1.
  assert (Hseq : seq 0 (length (plugins w))
                 = (seq 0 i ++ i :: seq (S i) (length (plugins w) - S i))%list).
  { replace (length (plugins w)) with (i + S (length (plugins w) - S i))%nat at 1 by lia.
    rewrite seq_app. reflexivity. }
  rewrite Hseq.
  unfold bind at 1. rewrite for_each_app.
  unfold bind at 1. rewrite Hloop.
  cbn [for_each]. unfold bind at 1.
  assert (Hround : hide_and_select (focus w) i w1 = Raise AttributeError w1).
  { unfold hide_and_select. unfold bind at 1.
    rewrite (plugin_at_run w1 i p) by (rewrite Hp1; exact Hp).
    rewrite Hd. reflexivity. }
  rewrite Hround.
  exists w1. split; [reflexivity|]. split; [exact Hs1|]. split; [exact Hc1|].
  split; [exact Hp1 | exact Hhid1].
Qed.

Lemma maximize_dockwidget_missing_dockwidget_witness :
  exists w',
    maximize_dockwidget Demo.host false Demo.world0 = Raise AttributeError w' /\
    plugins w' = plugins Demo.world0 /\
    forall j q d, (j < 4)%nat -> plugins Demo.world0 !! j = Some q ->
      dockwidget q = Some d ->
      exists x, mw_docks (main w') !! d = Some x /\ dw_visible x = false.
Proof.
  destruct (maximize_dockwidget_missing_dockwidget Demo.host Demo.world0 4 Demo.broken)
    as (w' & Hrun & _ & _ & Hp & Hhid);
    [vm_compute; reflexivity | vm_compute; reflexivity | vm_compute; reflexivity
    | vm_compute; reflexivity |].
  exists w'. split; [exact Hrun|]. split; [exact Hp | exact Hhid].
Defined.

(** ** Window settings on the first run *)

Lemma preservesF_liftF {X A} (proj : World -> X) (m : M A) :
  preserves proj m -> preservesF proj (liftF m).
Proof. intros P w r E. injection E as <-. apply P. Qed.

Lemma preservesF_retF {X A} (proj : World -> X) (a : A) : preservesF proj (retF a).
Proof. intros w r E. injection E as <-. reflexivity. Qed.

Lemma preservesF_out_of_fuel {X A} (proj : World -> X) :
  preservesF proj (@out_of_fuel A).
Proof. intros w r E. discriminate. Qed.

Lemma preservesF_bindF {X A B} (proj : World -> X) (m : F A) (k : A -> F B) :
  preservesF proj m -> (forall a, preservesF proj (k a)) ->
  preservesF proj (bindF m k).
Proof.
  intros Pm Pk w r. unfold bindF.
  destruct (m w) as [[a w1|e w1]|] eqn:E; [| |discriminate].
  - intros Ek. rewrite (Pk a w1 r Ek). exact (Pm w _ E).
  - intros Ek. injection Ek as <-. exact (Pm w _ E).
Qed.

Lemma ignores_gui_first_spyder_run : ignores_gui first_spyder_run.
Proof. repeat split. Qed.

#[export] Hint Resolve ignores_gui_first_spyder_run : frame.

Lemma preserves_py_iter {X} (proj : World -> X) v : preserves proj (py_iter v).
Proof. intros w. destruct v; reflexivity. Qed.

Lemma preserves_get_layout {X} (proj : World -> X) i : preserves proj (get_layout i).
Proof.
  intros w. unfold get_layout.
  destruct (existsb _ (spyder_layouts (container w))); reflexivity.
Qed.

Lemma preserves_apply_layout {X} (proj : World -> X) (H : Host) l :
  ignores_gui proj -> preserves proj (apply_layout H l).
Proof.
  intros (Hm & Hp & _) w. unfold apply_layout. simpl. rewrite Hp, Hm. reflexivity.
Qed.

#[export] Hint Resolve preserves_py_iter preserves_get_layout preserves_apply_layout
  : frame.

Lemma preserves_first_spyder_run_maximize_dockwidget (H : Host) restore :
  preserves first_spyder_run (maximize_dockwidget H restore).
Proof.
  unfold maximize_dockwidget, get_plugin, main_saveState, get_dockable_plugins,
    set_last_plugin, setCentralWidget.
  frame.
Qed.

#[export] Hint Resolve preserves_first_spyder_run_maximize_dockwidget : frame.

Lemma preserves_first_spyder_run_load prefix default section :
  preserves first_spyder_run (load_window_settings prefix default section).
Proof. unfold load_window_settings. destruct default; frame. Qed.

Lemma preserves_first_spyder_run_save (H : Host) prefix section none_state :
  preserves first_spyder_run (save_current_window_settings H prefix section none_state).
Proof.
  unfold save_current_window_settings, set_conf, main_saveState. frame.
Qed.

#[export] Hint Resolve preserves_first_spyder_run_load preserves_first_spyder_run_save
  : frame.

Ltac frameF_step :=
  match goal with
  | |- preservesF _ (bindF _ _) => apply preservesF_bindF
  | |- preservesF _ (retF _) => apply preservesF_retF
  | |- preservesF _ out_of_fuel => apply preservesF_out_of_fuel
  | |- preservesF _ (liftF _) => apply preservesF_liftF
  | |- preservesF _ (match ?x with _ => _ end) => destruct x
  | |- preservesF _ _ => solve [auto]
  | |- forall _, _ => intro
  end.

(** No method of the layout changes whether this is the first run. *)
Lemma preservesF_first_spyder_run (H : Host) (fuel : nat) :
  (forall hexstate window_size pos is_maximized is_fullscreen,
     preservesF first_spyder_run
       (set_window_settings H fuel hexstate window_size pos is_maximized is_fullscreen))
  /\ (forall default, preservesF first_spyder_run (setup_layout H fuel default))
  /\ (forall layout_id hexstate window_size pos is_maximized is_fullscreen,
        preservesF first_spyder_run
          (setup_default_layouts H fuel layout_id hexstate window_size pos
             is_maximized is_fullscreen)).
Proof.
  induction fuel as [|fuel (IH1 & IH2 & IH3)].
  - repeat split; intros; apply preservesF_out_of_fuel.
  - split; [|split].
    + intros. rewrite set_window_settings_unfold.
      unfold restore_window_properties, apply_window_state.
      repeat frameF_step; frame.
    + intros. cbn [setup_layout].
      repeat frameF_step; unfold set_conf; frame.
    + intros. cbn [setup_default_layouts].
      repeat frameF_step; unfold set_conf, not_maximized_at_all; frame.
Qed.

Lemma bindF_Ok_inv {A B} (m : F A) (k : A -> F B) (w w' : World) (b : B) :
  bindF m k w = Some (Ok b w') ->
  exists a w1, m w = Some (Ok a w1) /\ k a w1 = Some (Ok b w').
Proof.
  unfold bindF. destruct (m w) as [[a w1|e w1]|]; try discriminate.
  intros E. exists a, w1. split; [reflexivity | exact E].
Qed.

Lemma apply_window_state_applied is_maximized is_fullscreen (w w' : World) :
  apply_window_state is_maximized is_fullscreen w = Ok tt w' ->
  _window_settings_applied_on_first_run (self w') = true.
Proof.
  unfold apply_window_state.
  destruct (truthy is_fullscreen), (truthy is_maximized);
    intros E; injection E as <-; reflexivity.
Qed.

(** A call that returns leaves the settings marked as applied. *)
Lemma set_window_settings_marks_applied (H : Host) (fuel : nat) :
  (forall hexstate window_size pos is_maximized is_fullscreen w w',
     set_window_settings H fuel hexstate window_size pos is_maximized is_fullscreen w
     = Some (Ok tt w') ->
     _window_settings_applied_on_first_run (self w') = true)
  /\ (forall default w w',
        setup_layout H fuel default w = Some (Ok tt w') ->
        _window_settings_applied_on_first_run (self w') = true).
Proof.
  induction fuel as [|fuel (IH1 & IH2)].
  - split; intros; discriminate.
  - split.
    + intros hexstate window_size pos is_maximized is_fullscreen w w'.
      rewrite set_window_settings_unfold.
      unfold bindF at 1, liftF at 1, gets at 1.
      unfold bindF at 1, liftF at 1, gets at 1.
      destruct (_window_settings_applied_on_first_run (self w)) eqn:Happlied;
        destruct (_first_spyder_run (self w)); cbn [andb].
      1:{ intros E. injection E as <-. exact Happlied. }
      all: intros E; apply bindF_Ok_inv in E; destruct E as ([] & w1 & _ & E);
        (destruct (truthy hexstate);
         [ apply bindF_Ok_inv in E; destruct E as (valid & w2 & _ & E);
           destruct valid; cbn [negb] in E;
           [ injection E as E; exact (apply_window_state_applied _ _ _ _ E)
           | apply bindF_Ok_inv in E; destruct E as ([] & w3 & _ & E);
             exact (IH2 _ _ _ E) ]
         | injection E as E; exact (apply_window_state_applied _ _ _ _ E) ]).
    + intros default w w'. cbn [setup_layout]. intros E.
      apply bindF_Ok_inv in E.
      destruct E as ([[[[hexstate window_size] pos] is_maximized] is_fullscreen]
                     & w1 & _ & E).
      apply bindF_Ok_inv in E. destruct E as ([] & w2 & _ & E).
      exact (IH1 _ _ _ _ _ _ _ E).
Qed.

(** X7.  On the first run of Spyder the window settings are applied once:
    after a call of [set_window_settings] that returned, whichever settings
    it was given and whether or not the stored state was accepted, every
    further call returns at once, whatever its arguments, and leaves the
    window and everything else as they are. *)
Theorem set_window_settings_once_on_first_run (H : Host) (fuel : nat)
    (hexstate window_size pos is_maximized is_fullscreen : PyVal) (w w' : World) :
  _first_spyder_run (self w) = true ->
  set_window_settings H fuel hexstate window_size pos is_maximized is_fullscreen w
  = Some (Ok tt w') ->
  forall fuel' hexstate' window_size' pos' is_maximized' is_fullscreen',
    set_window_settings H (S fuel') hexstate' window_size' pos' is_maximized'
      is_fullscreen' w'
    = Some (Ok tt w').
Proof.
  intros Hfirst Hrun fuel' hexstate' window_size' pos' is_maximized' is_fullscreen'.
  pose proof (proj1 (set_window_settings_marks_applied H fuel) _ _ _ _ _ _ _ Hrun)
    as Happlied.
  pose proof (proj1 (preservesF_first_spyder_run H fuel) _ _ _ _ _ _ _ Hrun) as Hkept.
  unfold first_spyder_run in Hkept. cbn [world_of] in Hkept. rewrite Hfirst in Hkept.
  rewrite set_window_settings_unfold.
  unfold bindF at 1, liftF at 1, gets at 1.
  unfold bindF at 1, liftF at 1, gets at 1.
  rewrite Happlied, Hkept. reflexivity.
Qed.

Lemma set_window_settings_once_on_first_run_witness :
  set_window_settings Demo.host 1 VNone (VTuple [VInt 1; VInt 2])
    (VTuple [VInt 0; VInt 0]) (VBool false) (VBool true) FirstRun.applied
  = Some (Ok tt FirstRun.applied).
Proof.
  apply (set_window_settings_once_on_first_run Demo.host 1 VNone
           (VTuple [VInt 900; VInt 600]) (VTuple [VInt 3; VInt 4])
           (VBool true) (VBool false) FirstRun.start FirstRun.applied).
  - reflexivity.
  - vm_compute. reflexivity.
Defined.

(** ** Locking, then unlocking *)

Section Stable.

Variable R : World -> World -> Prop.
Hypothesis R_refl : forall w, R w w.
Hypothesis R_trans : forall w1 w2 w3, R w1 w2 -> R w2 w3 -> R w1 w3.

Lemma stable_read_only {A} (m : M A) : preserves (fun w => w) m -> stable R m.
Proof. intros P w. rewrite (P w). apply R_refl. Qed.

Lemma stable_modify (f : World -> World) : (forall w, R w (f w)) -> stable R (modify f).
Proof. intros Hf w. apply Hf. Qed.

Lemma stable_bind {A B} (m : M A) (k : A -> M B) :
  stable R m -> (forall a, stable R (k a)) -> stable R (bind m k).
Proof.
  intros Pm Pk w. unfold bind. specialize (Pm w).
  destruct (m w) as [a w1|e w1]; simpl in *; [|exact Pm].
  eapply R_trans; [exact Pm | apply Pk].
Qed.

Lemma stable_for_each {X} (l : list X) (body : X -> M unit) :
  (forall x, stable R (body x)) -> stable R (for_each l body).
Proof.
  intros Pb. induction l as [|x l IH]; simpl.
  - intros w. apply R_refl.
  - apply stable_bind; [apply Pb | intros _; exact IH].
Qed.

End Stable.

Lemma no_new_floating_refl (w : World) : no_new_floating w w.
Proof. intros d x Hx. exists x. split; [exact Hx | auto]. Qed.

Lemma no_new_floating_trans (w1 w2 w3 : World) :
  no_new_floating w1 w2 -> no_new_floating w2 w3 -> no_new_floating w1 w3.
Proof.
  intros H12 H23 d x3 Hx3.
  destruct (H23 d x3 Hx3) as (x2 & Hx2 & Hf2).
  destruct (H12 d x2 Hx2) as (x1 & Hx1 & Hf1).
  exists x1. split; [exact Hx1 | auto].
Qed.

Lemma no_new_floating_same_docks (w w' : World) :
  mw_docks (main w') = mw_docks (main w) -> no_new_floating w w'.
Proof. intros E d x Hx. rewrite E in Hx. exists x. split; [exact Hx | auto]. Qed.

Lemma stable_no_new_floating_dock_update r (f : DockWidget -> DockWidget) :
  (forall x, dw_floating (f x) = true -> dw_floating x = true) ->
  stable no_new_floating (dock_update r f).
Proof.
  intros Hf w. unfold dock_update, bind, dock_of.
  destruct r as [d|]; [|apply no_new_floating_refl].
  destruct (mw_docks (main w) !! d) as [x|] eqn:Hx; [|apply no_new_floating_refl].
  unfold modify. intros e y Hy.
  cbn [world_of main on_main mw_docks with_docks] in Hy.
  destruct (decide (e = d)) as [->|Hne].
  - rewrite list_lookup_insert_eq in Hy by (eapply lookup_lt_Some; eauto).
    injection Hy as <-. exists x. split; [exact Hx | apply Hf].
  - rewrite list_lookup_insert_ne in Hy by congruence.
    exists y. split; [exact Hy | auto].
Qed.

Lemma stable_no_new_floating_panes : stable no_new_floating toggle_lock_panes.
Proof.
  unfold toggle_lock_panes, get_dockable_plugins.
  apply stable_bind; [apply no_new_floating_trans| |].
  { apply stable_read_only; [apply no_new_floating_refl | frame]. }
  intros ps. apply stable_for_each;
    [apply no_new_floating_refl | apply no_new_floating_trans |].
  intros plugin.
  apply stable_bind; [apply no_new_floating_trans| |].
  { apply stable_read_only; [apply no_new_floating_refl | frame]. }
  intros p. destruct (dockwidget p) as [d|].
  2:{ intros w. apply no_new_floating_refl. }
  apply stable_bind; [apply no_new_floating_trans| |].
  { apply stable_read_only; [apply no_new_floating_refl | frame]. }
  intros [|].
  - apply stable_bind; [apply no_new_floating_trans| |].
    + apply stable_bind; [apply no_new_floating_trans| |].
      { apply stable_read_only; [apply no_new_floating_refl | frame]. }
      intros x. destruct (dw_floating x).
      * apply stable_no_new_floating_dock_update. intros y. discriminate.
      * intros w. apply no_new_floating_refl.
    + intros _. apply stable_no_new_floating_dock_update. intros y Hy. exact Hy.
  - apply stable_no_new_floating_dock_update. intros y Hy. exact Hy.
Qed.

(** One call of [toggle_lock] when the dock-widget references are sound. *)
Lemma toggle_lock_run (value : option bool) (w : World) :
  docks_wfb w = true ->
  exists w',
    toggle_lock value w = Ok tt w' /\
    _interface_locked (self w') = toggle_lock_new value w /\
    conf w' !! ("main", "panes_locked") = Some (VBool (toggle_lock_new value w)) /\
    plugins w' = plugins w /\
    length (mw_docks (main w')) = length (mw_docks (main w)) /\
    no_new_floating w w' /\
    forall i p d, plugins w !! i = Some p -> dockwidget p = Some d ->
      exists x, mw_docks (main w') !! d = Some x /\
                lock_applied (toggle_lock_new value w) x.
Proof.
  intros Hwf. rewrite toggle_lock_unfold.
  set (w1 := toggle_lock_recorded value w).
  destruct (toggle_lock_panes_ok w1) as (w2 & Hrun & Hs & Hp & Hlen & Hall);
    [exact Hwf|].
  pose proof (stable_no_new_floating_panes w1) as Hfl. rewrite Hrun in Hfl.
  simpl in Hfl.
  pose proof (preserves_flag_and_option_panes w1) as Hfo. rewrite Hrun in Hfo.
  unfold flag_and_option in Hfo. simpl in Hfo. injection Hfo as Hflag Hopt.
  rewrite lookup_insert_eq in Hopt.
  unfold bind. rewrite Hrun. unfold toggle_lock_toolbars, bind, gets, modify.
  destruct (toolbar_available w2); simpl;
    (eexists; split; [reflexivity|]); simpl;
    (split; [exact Hflag|]); (split; [exact Hopt|]); (split; [exact Hp|]);
    (split; [exact Hlen|]); (split; [exact Hfl | exact Hall]).
Qed.

(** X8.  Two calls of [toggle_lock()] in a row give back the flag and the
    option 'panes_locked' their first value, however the calls end.  When
    the dock-widget references are sound both calls return, the title bars
    of the panes are again as that value wants them, and every pane is
    docked: locking stops a pane from floating and unlocking does not make
    it float again. *)
Theorem toggle_lock_twice (w : World) :
  let locked := _interface_locked (self w) in
  let w1 := world_of (toggle_lock None w) in
  let w2 := world_of (toggle_lock None w1) in
  _interface_locked (self w2) = locked /\
  conf w2 !! ("main", "panes_locked") = Some (VBool locked) /\
  (docks_wfb w = true ->
   toggle_lock None w = Ok tt w1 /\ toggle_lock None w1 = Ok tt w2 /\
   forall i p d, plugins w !! i = Some p -> dockwidget p = Some d ->
     exists x, mw_docks (main w2) !! d = Some x /\
               dw_title_bar x = negb locked /\ dw_floating x = false).
Proof.
  intros locked w1 w2.
  assert (Hflags : forall u, flag_and_option (world_of (toggle_lock None u))
                    = (negb (_interface_locked (self u)),
                       Some (VBool (negb (_interface_locked (self u)))))).
  { intros u. rewrite toggle_lock_unfold.
    rewrite (preserves_bind flag_and_option toggle_lock_panes
               (fun _ => toggle_lock_toolbars)).
    - unfold flag_and_option, toggle_lock_recorded. simpl.
      rewrite lookup_insert_eq. reflexivity.
    - apply preserves_flag_and_option_panes.
    - intros _. apply preserves_flag_and_option_toolbars. }
  pose proof (Hflags w) as H1. pose proof (Hflags w1) as H2.
  fold w1 in H1. fold w2 in H2.
  unfold flag_and_option in H1, H2.
  injection H1 as Hf1 _. injection H2 as Hf2 Ho2.
  rewrite Hf1, negb_involutive in Hf2, Ho2. fold locked in Hf2, Ho2.
  split; [exact Hf2|]. split; [exact Ho2|].
  intros Hwf.
  destruct (toggle_lock_run None w Hwf)
    as (u1 & Hrun1 & Hl1 & _ & Hp1 & Hlen1 & Hfl1 & Hall1).
  assert (Eu1 : u1 = w1) by (unfold w1; rewrite Hrun1; reflexivity). subst u1.
  assert (Hwf1 : docks_wfb w1 = true).
  { unfold docks_wfb in *. rewrite Hp1, Hlen1. exact Hwf. }
  destruct (toggle_lock_run None w1 Hwf1)
    as (u2 & Hrun2 & Hl2 & _ & Hp2 & Hlen2 & Hfl2 & Hall2).
  assert (Eu2 : u2 = w2) by (unfold w2; rewrite Hrun2; reflexivity). subst u2.
  split; [exact Hrun1|]. split; [exact Hrun2|].
  intros i p d Hp Hd.
  rewrite <- Hp1 in Hp.
  destruct (Hall2 i p d Hp Hd) as (x2 & Hx2 & Ht2 & Hfloat2).
  unfold toggle_lock_new in Ht2, Hfloat2. rewrite Hl1 in Ht2, Hfloat2.
  unfold toggle_lock_new in Ht2, Hfloat2. rewrite negb_involutive in Ht2, Hfloat2.
  fold locked in Ht2, Hfloat2.
  exists x2. split; [exact Hx2|]. split; [exact Ht2|].
  destruct locked eqn:Hlocked; [apply Hfloat2; reflexivity|].
  (* the first call locked the panes, the second did not let them float *)
  rewrite Hp1 in Hp.
  destruct (Hall1 i p d Hp Hd) as (x1 & Hx1 & _ & Hfloat1).
  destruct (Hfl2 d x2 Hx2) as (y & Hy & Hmono).
  rewrite Hx1 in Hy. injection Hy as <-.
  destruct (dw_floating x2) eqn:E; [|reflexivity].
  rewrite <- (Hmono eq_refl). apply Hfloat1.
  unfold toggle_lock_new. fold locked. rewrite Hlocked. reflexivity.
Qed.

Lemma toggle_lock_twice_witness :
  toggle_lock None Demo.world0 = Ok tt (world_of (toggle_lock None Demo.world0)) /\
  toggle_lock None (world_of (toggle_lock None Demo.world0))
  = Ok tt (world_of (toggle_lock None (world_of (toggle_lock None Demo.world0)))) /\
  forall i p d, plugins Demo.world0 !! i = Some p -> dockwidget p = Some d ->
    exists x,
      mw_docks (main (world_of (toggle_lock None (world_of (toggle_lock None Demo.world0)))))
        !! d = Some x /\
      dw_title_bar x = negb (_interface_locked (self Demo.world0)) /\
      dw_floating x = false.
Proof.
  apply (proj2 (proj2 (toggle_lock_twice Demo.world0))).
  reflexivity.
Defined.

(** ** Closing the pane that has the focus *)

Section ClosingThePane.

Variable toggle_view : nat -> bool -> M unit.

Lemma toggle_view_setChecked_unchecked (w : World) (i : nat) (p : Plugin) :
  plugins w !! i = Some p -> action_checked p = false ->
  toggle_view_setChecked toggle_view i false w = Ok tt w.
Proof.
  intros Hp Hc. unfold toggle_view_setChecked, bind.
  rewrite (plugin_at_run w i p Hp), Hc. reflexivity.
Qed.

Lemma toggle_view_setChecked_checked (w w' : World) (i : nat) (p : Plugin) :
  plugins w !! i = Some p -> action_checked p = true ->
  toggle_view i false
    (on_plugins (fun ps => <[i := pl_with_action_checked false p]> ps) w) = Ok tt w' ->
  toggle_view_setChecked toggle_view i false w = Ok tt w'.
Proof.
  intros Hp Hc Hslot. unfold toggle_view_setChecked. unfold bind at 1.
  rewrite (plugin_at_run w i p Hp), Hc. cbn [Bool.eqb].
  unfold bind. rewrite (plugin_update_run w i p _ Hp). exact Hslot.
Qed.

Lemma close_current_dockwidget_round (w w1 : World) (i : nat) (p : Plugin) :
  plugins w !! i = Some p ->
  toggle_view_setChecked toggle_view i false w = Ok tt w1 ->
  try_except
    (let* _w := get_widget i in
     let* anc := isAncestorOf i (focus w) in
     if anc then
       toggle_view_action i >>
       toggle_view_setChecked toggle_view i false >>
       ret true
     else ret false)
    (except AttributeError)
    (let* anc := isAncestorOf i (focus w) in
     if anc then
       toggle_view_setChecked toggle_view i false >>
       ret true
     else ret false) w
  = if owns p (focus w) then Ok true w1 else Ok false w.
Proof.
  intros Hp Hset. unfold try_except.
  unfold bind at 1. rewrite (get_widget_run w i p Hp).
  destruct (api p) eqn:Hapi.
  - unfold bind at 1. rewrite (isAncestorOf_run w i p _ Hp).
    destruct (owns p (focus w)); [|reflexivity].
    unfold bind at 1. unfold toggle_view_action at 1. unfold bind at 1.
    rewrite (plugin_at_run w i p Hp). rewrite Hapi. unfold ret at 1.
    unfold bind at 1. rewrite Hset. reflexivity.
  - cbn [except Exc_eqb].
    unfold bind at 1. rewrite (isAncestorOf_run w i p _ Hp).
    destruct (owns p (focus w)); [|reflexivity].
    unfold bind at 1. rewrite Hset. reflexivity.
Qed.

Lemma close_current_dockwidget_skip (w : World) (i : nat) (p : Plugin) :
  plugins w !! i = Some p -> owns p (focus w) = false ->
  try_except
    (let* _w := get_widget i in
     let* anc := isAncestorOf i (focus w) in
     if anc then
       toggle_view_action i >>
       toggle_view_setChecked toggle_view i false >>
       ret true
     else ret false)
    (except AttributeError)
    (let* anc := isAncestorOf i (focus w) in
     if anc then
       toggle_view_setChecked toggle_view i false >>
       ret true
     else ret false) w
  = Ok false w.
Proof.
  intros Hp Hown. unfold try_except.
  unfold bind at 1. rewrite (get_widget_run w i p Hp).
  destruct (api p) eqn:Hapi.
  - unfold bind at 1. rewrite (isAncestorOf_run w i p _ Hp). rewrite Hown. reflexivity.
  - cbn [except Exc_eqb].
    unfold bind at 1. rewrite (isAncestorOf_run w i p _ Hp). rewrite Hown. reflexivity.
Qed.

Lemma close_current_dockwidget_loop (w : World) (fw : option nat) :
  fw = focus w ->
  forall (rest before : list Plugin),
    plugins w = (before ++ rest)%list ->
    let run :=
      for_each_break (seq (length before) (length rest)) (fun plugin =>
        try_except
          (let* _w := get_widget plugin in
           let* anc := isAncestorOf plugin fw in
           if anc then
             toggle_view_action plugin >>
             toggle_view_setChecked toggle_view plugin false >>
             ret true
           else ret false)
          (except AttributeError)
          (let* anc := isAncestorOf plugin fw in
           if anc then
             toggle_view_setChecked toggle_view plugin false >>
             ret true
           else ret false)) in
    match list_find (fun p => owns p fw = true) rest with
    | Some (j, p) => closes toggle_view (run w) (length before + j)%nat p w
    | None => run w = Ok tt w
    end.
Proof.
  intros ->. induction rest as [|p rest IH]; intros before Hps; [reflexivity|].
  cbv zeta.
  set (body := fun plugin : nat => try_except _ _ _) in *.
  cbn [length seq for_each_break].
  assert (Hp : plugins w !! length before = Some p).
  { rewrite Hps. rewrite lookup_app_r by lia. rewrite Nat.sub_diag. reflexivity. }
  cbn [list_find]. unfold decide_rel.
  destruct (owns p (focus w)) eqn:Hown.
  - rewrite decide_True by reflexivity. rewrite Nat.add_0_r.
    unfold closes. destruct (action_checked p) eqn:Hc.
    + intros w' Hslot. unfold bind at 1. subst body. cbv beta.
      rewrite (close_current_dockwidget_round w w' (length before) p Hp
                 (toggle_view_setChecked_checked w w' _ p Hp Hc Hslot)).
      rewrite Hown. reflexivity.
    + unfold bind at 1. subst body. cbv beta.
      rewrite (close_current_dockwidget_round w w (length before) p Hp
                 (toggle_view_setChecked_unchecked w _ p Hp Hc)).
      rewrite Hown. reflexivity.
  - rewrite decide_False by discriminate.
    assert (Hstep : (let* stop := body (length before) in
                     if stop then ret tt
                     else for_each_break (seq (S (length before)) (length rest)) body) w
                    = for_each_break (seq (S (length before)) (length rest)) body w).
    { unfold bind at 1. subst body. cbv beta.
      rewrite (close_current_dockwidget_skip w (length before) p Hp Hown).
      reflexivity. }
    rewrite Hstep. clear Hstep.
    specialize (IH (before ++ [p])%list).
    rewrite length_app in IH. cbn [length] in IH.
    rewrite Nat.add_1_r in IH.
    assert (Hps' : plugins w = ((before ++ [p]) ++ rest)%list)
      by (rewrite <- app_assoc; exact Hps).
    specialize (IH Hps'). cbv zeta in IH.
    destruct (list_find (fun q => owns q (focus w) = true) rest) as [[j q]|].
    + cbn [fmap option_fmap option_map prod_map fst snd id].
      replace (length before + S j)%nat with (S (length before) + j)%nat by lia.
      exact IH.
    + exact IH.
Qed.

End ClosingThePane.

(** X9.  [close_current_dockwidget] looks for the first of the dockable
    plugins that holds the focus, whichever API the plugin has, and calls
    [setChecked(False)] on the toggle-view action of that plugin alone.
    When that action is checked, it is unchecked and its slot runs with
    [False], on a world in which nothing else has changed; the method
    returns when the slot does, from the world the slot left.  When the
    action is unchecked already, or when no dockable plugin holds the
    focus, the method returns and has changed nothing. *)
Theorem close_current_dockwidget_first_owner (toggle_view : nat -> bool -> M unit)
    (w : World) :
  match first_owner w with
  | Some (i, p) => closes toggle_view (close_current_dockwidget toggle_view w) i p w
  | None => close_current_dockwidget toggle_view w = Ok tt w
  end.
Proof.
  pose proof (close_current_dockwidget_loop toggle_view w (focus w) eq_refl
                (plugins w) [] eq_refl) as Hloop.
  cbv zeta in Hloop. cbn [length Nat.add] in Hloop.
  unfold first_owner.
  assert (Hrun : close_current_dockwidget toggle_view w
                 = for_each_break (seq 0 (length (plugins w))) (fun plugin =>
                     try_except
                       (let* _w := get_widget plugin in
                        let* anc := isAncestorOf plugin (focus w) in
                        if anc then
                          toggle_view_action plugin >>
                          toggle_view_setChecked toggle_view plugin false >>
                          ret true
                        else ret false)
                       (except AttributeError)
                       (let* anc := isAncestorOf plugin (focus w) in
                        if anc then
                          toggle_view_setChecked toggle_view plugin false >>
                          ret true
                        else ret false)) w) by reflexivity.
  destruct (list_find (fun p => owns p (focus w) = true) (plugins w)) as [[j p]|].
  - unfold closes in *. destruct (action_checked p).
    + intros w' Hslot. rewrite Hrun. apply Hloop. exact Hslot.
    + rewrite Hrun. exact Hloop.
  - rewrite Hrun. exact Hloop.
Qed.

Lemma close_current_dockwidget_first_owner_witness :
  exists w',
    close_current_dockwidget ClosePane.toggle_view ClosePane.start = Ok tt w' /\
    action_checked <$> plugins ClosePane.start !! 1%nat = Some true /\
    action_checked <$> plugins w' !! 1%nat = Some false /\
    dw_visible <$> mw_docks (main ClosePane.start) !! 1%nat = Some true /\
    dw_visible <$> mw_docks (main w') !! 1%nat = Some false.
Proof.
  pose proof (close_current_dockwidget_first_owner ClosePane.toggle_view
                ClosePane.start) as Hclose.
  change (closes ClosePane.toggle_view
            (close_current_dockwidget ClosePane.toggle_view ClosePane.start)
            1 Demo.console ClosePane.start) in Hclose.
  unfold closes in Hclose. cbn [action_checked Demo.console] in Hclose.
  eexists. split; [apply Hclose; reflexivity|].
  repeat split; reflexivity.
Defined.

(** ** Applying a default layout outside the first run *)

Lemma maximize_dockwidget_restore_none (H : Host) (w : World) :
  _state_before_maximizing (self w) = None ->
  maximize_dockwidget H true w = Ok tt w.
Proof.
  intros Hn. unfold maximize_dockwidget, bind, get_plugin, gets.
  rewrite Hn. reflexivity.
Qed.

Lemma setup_default_layouts_prepare (H : Host) (fuel : nat) (layout_id : LayoutId)
    (hexstate window_size pos is_maximized is_fullscreen : PyVal) (w : World) :
  _first_spyder_run (self w) = false ->
  _state_before_maximizing (self w) = None ->
  last_plugin_known w = true ->
  setup_default_layouts H (S fuel) layout_id hexstate window_size pos
    is_maximized is_fullscreen w
  = Some ((let* layout := get_layout layout_id in
           apply_layout H layout >>
           (modify (on_main (with_min_width (mw_min_width (main w)))) >>
            modify (on_main (with_max_width (mw_max_width (main w)))) >>
            let* nm := not_maximized_at_all in
            if nm then modify (on_main showMaximized) else ret tt) >>
           modify (on_main (with_updates_enabled true)) >>
           modify (emit (EvLayoutSetupReady layout)) >>
           ret layout) (prepared_for_layout w)).
Proof.
  intros Hfirst Hnone Hlast. cbn [setup_default_layouts].
  unfold bindF at 1, liftF at 1, modify at 1.
  unfold bindF at 1, liftF at 1, gets at 1.
  cbn [self on_main]. rewrite Hfirst.
  unfold bindF at 1, liftF at 1.
  set (w0 := on_main (with_updates_enabled false) w).
  assert (Hrestore :
    (let* lp := gets (fun w => _last_plugin (self w)) in
     match lp with
     | Some i => let* p := plugin_at i in
                 if ismaximized p then maximize_dockwidget H true else ret tt
     | None => ret tt
     end) w0 = Ok tt w0).
  { unfold bind at 1, gets at 1. cbn [self w0 on_main].
    unfold last_plugin_known in Hlast.
    destruct (_last_plugin (self w)) as [t|]; [|reflexivity].
    apply Nat.ltb_lt in Hlast.
    destruct (lookup_lt_is_Some_2 _ _ Hlast) as [p Hp].
    unfold bind. rewrite (plugin_at_run w0 t p Hp).
    destruct (ismaximized p); [|reflexivity].
    apply maximize_dockwidget_restore_none. exact Hnone. }
  unfold bind at 1. rewrite Hrestore.
  assert (Hnm : not_maximized_at_all w0
                = Ok (negb (isMaximized (main w) || truthy (_maximized_flag (self w)))) w0)
    by reflexivity.
  unfold bind at 1. unfold bind at 1. rewrite Hnm. cbv beta iota.
  unfold prepared_for_layout. fold w0.
  destruct (negb (isMaximized (main w) || truthy (_maximized_flag (self w))));
    reflexivity.
Qed.

Lemma prepared_for_layout_frame (w : World) :
  container (prepared_for_layout w) = container w /\
  conf (prepared_for_layout w) = conf w /\
  trace (prepared_for_layout w) = trace w /\
  self (prepared_for_layout w) = self w /\
  mw_updates_enabled (main (prepared_for_layout w)) = false /\
  mw_min_width (main (prepared_for_layout w)) = fst (mw_size (main w)) /\
  mw_max_width (main (prepared_for_layout w)) = fst (mw_size (main w)).
Proof.
  unfold prepared_for_layout.
  destruct (negb (isMaximized (main w) || truthy (_maximized_flag (self w))));
    repeat split; reflexivity.
Qed.

(** X10.  Outside the first run and with no pane maximized,
    [setup_default_layouts] for an identifier under which no layout is
    registered raises [SpyderAPIError]; the main window is then left with
    its updates disabled and its width fixed to the width it had, and no
    signal was sent. *)
Theorem setup_default_layouts_unregistered (H : Host) (fuel : nat)
    (layout_id : LayoutId)
    (hexstate window_size pos is_maximized is_fullscreen : PyVal) (w : World) :
  _first_spyder_run (self w) = false ->
  _state_before_maximizing (self w) = None ->
  last_plugin_known w = true ->
  registered layout_id w = false ->
  exists w',
    setup_default_layouts H (S fuel) layout_id hexstate window_size pos
      is_maximized is_fullscreen w
    = Some (Raise SpyderAPIError w') /\
    mw_updates_enabled (main w') = false /\
    mw_min_width (main w') = fst (mw_size (main w)) /\
    mw_max_width (main w') = fst (mw_size (main w)) /\
    trace w' = trace w.
Proof.
  intros Hfirst Hnone Hlast Hreg.
  rewrite setup_default_layouts_prepare by assumption.
  destruct (prepared_for_layout_frame w) as (Hc & _ & Ht & _ & Hu & Hmin & Hmax).
  exists (prepared_for_layout w).
  unfold bind at 1, get_layout at 1.
  rewrite Hc. unfold registered in Hreg. rewrite Hreg.
  split; [reflexivity|]. split; [exact Hu|]. split; [exact Hmin|].
  split; [exact Hmax | exact Ht].
Qed.

(** X11.  Outside the first run and with no pane maximized,
    [setup_default_layouts] for a registered identifier returns that
    layout, whatever the layout does to the window and the plugins.  The
    width limits of the window are then the ones it had, its updates are
    enabled, the window is maximized unless the flag kept for fullscreen
    says so already, the last signal sent announces the layout, and no
    option was written. *)
Theorem setup_default_layouts_registered (H : Host) (fuel : nat)
    (layout_id : LayoutId)
    (hexstate window_size pos is_maximized is_fullscreen : PyVal) (w : World) :
  _first_spyder_run (self w) = false ->
  _state_before_maximizing (self w) = None ->
  last_plugin_known w = true ->
  registered layout_id w = true ->
  exists w',
    setup_default_layouts H (S fuel) layout_id hexstate window_size pos
      is_maximized is_fullscreen w
    = Some (Ok layout_id w') /\
    mw_min_width (main w') = mw_min_width (main w) /\
    mw_max_width (main w') = mw_max_width (main w) /\
    mw_updates_enabled (main w') = true /\
    isMaximized (main w') || truthy (_maximized_flag (self w')) = true /\
    last (trace w') = Some (EvLayoutSetupReady layout_id) /\
    conf w' = conf w.
Proof.
  intros Hfirst Hnone Hlast Hreg.
  rewrite setup_default_layouts_prepare by assumption.
  destruct (prepared_for_layout_frame w) as (Hc & Hconf & _ & Hself & _).
  set (w0 := prepared_for_layout w) in *.
  unfold bind at 1, get_layout at 1.
  rewrite Hc. unfold registered in Hreg. rewrite Hreg.
  unfold bind at 1, apply_layout at 1.
  set (r := set_main_window_layout H layout_id (main w0) (plugins w0)).
  set (w1 := on_plugins (fun _ => r.2) (on_main (fun _ => r.1) w0)).
  unfold bind at 1. unfold bind at 1, modify at 1.
  unfold bind at 1, modify at 1.
  set (w2 := on_main (with_max_width (mw_max_width (main w)))
               (on_main (with_min_width (mw_min_width (main w))) w1)).
  assert (Hnm : not_maximized_at_all w2
                = Ok (negb (isMaximized (main w2) || truthy (_maximized_flag (self w)))) w2).
  { unfold not_maximized_at_all, bind, gets, ret.
    change (self w2) with (self w0). rewrite Hself. reflexivity. }
  unfold bind at 1. rewrite Hnm.
  destruct (isMaximized (main w2) || truthy (_maximized_flag (self w))) eqn:Hmx;
    cbn [negb]; unfold bind, modify, ret; (eexists; split; [reflexivity|]);
    cbn [main self on_main emit trace conf].
  - split; [reflexivity|]. split; [reflexivity|]. split; [reflexivity|].
    split.
    { change (self w2) with (self w0). rewrite Hself.
      change (isMaximized (with_updates_enabled true (main w2)))
        with (isMaximized (main w2)).
      exact Hmx. }
    split; [apply last_snoc | exact Hconf].
  - split; [reflexivity|]. split; [reflexivity|]. split; [reflexivity|].
    split.
    { change (isMaximized (with_updates_enabled true (showMaximized (main w2))))
        with (isMaximized (showMaximized (main w2))).
      rewrite isMaximized_showMaximized. reflexivity. }
    split; [apply last_snoc | exact Hconf].
Qed.

Lemma setup_default_layouts_unregistered_witness :
  exists w',
    setup_default_layouts Demo.host 1 (IdName "Rstudio layout") VNone VNone VNone
      VNone VNone Demo.world1
    = Some (Raise SpyderAPIError w') /\
    mw_updates_enabled (main w') = false /\
    mw_min_width (main w') = 1260 /\
    mw_max_width (main w') = 1260.
Proof.
  destruct (setup_default_layouts_unregistered Demo.host 0 (IdName "Rstudio layout")
              VNone VNone VNone VNone VNone Demo.world1)
    as (w' & Hrun & Hu & Hmin & Hmax & _);
    [vm_compute; reflexivity | vm_compute; reflexivity | vm_compute; reflexivity
    | vm_compute; reflexivity |].
  exists w'. split; [exact Hrun|]. split; [exact Hu|]. split; [exact Hmin | exact Hmax].
Defined.

Lemma setup_default_layouts_registered_witness :
  exists w',
    setup_default_layouts Demo.host 1 (IdName "Matlab layout") VNone VNone VNone
      VNone VNone Demo.world1
    = Some (Ok (IdName "Matlab layout") w') /\
    mw_min_width (main w') = 0 /\
    mw_max_width (main w') = 16777215 /\
    mw_updates_enabled (main w') = true /\
    isMaximized (main w') || truthy (_maximized_flag (self w')) = true.
Proof.
  destruct (setup_default_layouts_registered Demo.host 0 (IdName "Matlab layout")
              VNone VNone VNone VNone VNone Demo.world1)
    as (w' & Hrun & Hmin & Hmax & Hu & Hmx & _);
    [vm_compute; reflexivity | vm_compute; reflexivity | vm_compute; reflexivity
    | vm_compute; reflexivity |].
  exists w'. split; [exact Hrun|]. split; [exact Hmin|]. split; [exact Hmax|].
  split; [exact Hu | exact Hmx].
Defined.

(** ** Switching to a default layout *)

Lemma setup_default_layouts_regenerates (H : Host) (fuel : nat) (layout_id : LayoutId)
    (hexstate window_size pos is_maximized is_fullscreen : PyVal) (w : World) :
  _first_spyder_run (self w) = false ->
  _state_before_maximizing (self w) = None ->
  last_plugin_known w = true ->
  registered layout_id w = true ->
  setup_default_layouts H (S fuel) layout_id hexstate window_size pos
    is_maximized is_fullscreen w
  = Some (Ok layout_id (default_layout_regenerated H layout_id w)).
Proof.
  intros Hfirst Hnone Hlast Hreg.
  rewrite setup_default_layouts_prepare by assumption.
  destruct (prepared_for_layout_frame w) as (Hc & _ & _ & Hself & _).
  unfold default_layout_regenerated. cbv zeta.
  set (w0 := prepared_for_layout w) in *.
  unfold bind at 1, get_layout at 1.
  rewrite Hc. unfold registered in Hreg. rewrite Hreg.
  unfold bind at 1, apply_layout at 1. fold (layout_applied H layout_id w0).
  unfold bind at 1. unfold bind at 1, modify at 1.
  unfold bind at 1, modify at 1.
  set (w2 := on_main (with_max_width (mw_max_width (main w)))
               (on_main (with_min_width (mw_min_width (main w)))
                  (layout_applied H layout_id w0))).
  assert (Hnm : not_maximized_at_all w2
                = Ok (negb (isMaximized (main w2) || truthy (_maximized_flag (self w)))) w2).
  { unfold not_maximized_at_all, bind, gets, ret.
    change (self w2) with (self w0). rewrite Hself. reflexivity. }
  unfold bind at 1. rewrite Hnm.
  destruct (negb (isMaximized (main w2) || truthy (_maximized_flag (self w))));
    reflexivity.
Qed.

Lemma setup_default_layouts_regenerates_first_run (H : Host) (fuel : nat)
    (layout_id : LayoutId)
    (hexstate window_size pos is_maximized is_fullscreen : PyVal) (w : World) :
  _first_spyder_run (self w) = true ->
  _window_settings_applied_on_first_run (self w) = true ->
  registered layout_id w = true ->
  setup_default_layouts H (S (S fuel)) layout_id hexstate window_size pos
    is_maximized is_fullscreen w
  = Some (Ok layout_id (default_layout_regenerated_first_run H layout_id w)).
Proof.
  intros Hfirst Happlied Hreg. cbn [setup_default_layouts].
  unfold bindF at 1, liftF at 1, modify at 1.
  unfold bindF at 1, liftF at 1, gets at 1.
  cbn [self on_main]. rewrite Hfirst.
  rewrite set_window_settings_unfold.
  unfold bindF at 1. unfold bindF at 1.
  unfold bindF at 1, liftF at 1, gets at 1.
  unfold bindF at 1, liftF at 1, gets at 1.
  cbn [self on_main]. rewrite Hfirst, Happlied. cbn [andb].
  unfold retF at 1. unfold retF at 1. unfold liftF.
  unfold bind at 1, get_layout at 1.
  cbn [container on_main]. unfold registered in Hreg. rewrite Hreg.
  reflexivity.
Qed.

(** Loading settings that are all stored, with a position on the screen. *)
Lemma load_window_settings_run (prefix section : string) (w : World)
    (hexstate window_size is_maximized is_fullscreen : PyVal) (x y : Z) :
  conf w !! (section, prefix +:+ "size") = Some window_size ->
  conf w !! (section, prefix +:+ "position") = Some (VTuple [VInt x; VInt y]) ->
  (r_width (mw_screen_virtual (main w)) <? x)
  || (r_height (mw_screen_virtual (main w)) <? y) = false ->
  conf w !! (section, prefix +:+ "is_maximized") = Some is_maximized ->
  conf w !! (section, prefix +:+ "is_fullscreen") = Some is_fullscreen ->
  loaded_hexstate prefix false section w = hexstate ->
  load_window_settings prefix false section w
  = Ok (hexstate, window_size, VTuple [VInt x; VInt y], is_maximized, is_fullscreen) w.
Proof.
  intros Hsize Hpos Hon Hmax Hfs Hhex.
  rewrite load_window_settings_stored. rewrite Hsize, Hpos.
  unfold bind at 1. rewrite off_screen_check_run. rewrite Hon.
  unfold bind at 1, ret at 1.
  unfold bind at 1, get_conf at 1. rewrite Hmax.
  unfold bind at 1, get_conf at 1. rewrite Hfs.
  rewrite Hhex. reflexivity.
Qed.

(** C5.  Let the pane be unmaximized and the stored settings of the
    identifier be read, with a hexstate that is [None].  For an identifier
    outside the default layouts the method shows the critical message and
    returns [None], the world being the one after unmaximizing plus that
    message: no window settings and no layout were applied.  For a default
    identifier the method regenerates this default layout by
    [setup_default_layouts] and goes on to the end of the method from the
    world that call left.  Outside the first run, with no pane
    maximized and the layout registered, [setup_default_layouts] returns
    with the default layout regenerated: the registered layout arranged the
    window and the plugins, the width limits are the ones the window had,
    the window is maximized unless the flag kept for fullscreen says it is,
    its updates are enabled and the layout is announced.  On the first run, once the window settings were applied, it
    returns as well: the layout arranged the window and the plugins, the
    option [first_time] is cleared, and the layout is announced.  Whenever
    the method returns a value, this value is the identifier it was given,
    the return after the message apart. *)
Theorem quick_layout_switch_outcomes (H : Host) (fuel : nat) (i : LayoutId)
    (w : World) :
  (forall w1 window_size pos is_maximized is_fullscreen,
     unmaximize_dockwidget H w = Ok tt w1 ->
     load_window_settings ("layout_" +:+ str_of_id i +:+ "/") false "quick_layouts" w1
     = Ok (VNone, window_size, pos, is_maximized, is_fullscreen) w1 ->
     (in_DEFAULT_LAYOUTS H i = false ->
        quick_layout_switch H fuel i w
        = Some (Ok None (emit (EvCriticalMessage "Warning" custom_layout_error) w1)))
     /\
     (in_DEFAULT_LAYOUTS H i = true ->
        (forall layout w2,
           setup_default_layouts H fuel i VNone window_size pos is_maximized
             is_fullscreen w1 = Some (Ok layout w2) ->
           quick_layout_switch H fuel i w = Some (quick_layout_switch_finish i w2))
        /\
        ((0 < fuel)%nat ->
         first_spyder_run w1 = false ->
         _state_before_maximizing (self w1) = None ->
         last_plugin_known w1 = true ->
         registered i w1 = true ->
         setup_default_layouts H fuel i VNone window_size pos is_maximized
           is_fullscreen w1
         = Some (Ok i (default_layout_regenerated H i w1)) /\
         quick_layout_switch H fuel i w
         = Some (quick_layout_switch_finish i (default_layout_regenerated H i w1)))
        /\
        ((1 < fuel)%nat ->
         first_spyder_run w1 = true ->
         _window_settings_applied_on_first_run (self w1) = true ->
         registered i w1 = true ->
         setup_default_layouts H fuel i VNone window_size pos is_maximized
           is_fullscreen w1
         = Some (Ok i (default_layout_regenerated_first_run H i w1)) /\
         quick_layout_switch H fuel i w
         = Some (quick_layout_switch_finish i
                   (default_layout_regenerated_first_run H i w1)))))
  /\
  (forall r w',
     quick_layout_switch H fuel i w = Some (Ok r w') ->
     r = Some i \/
     (r = None /\ in_DEFAULT_LAYOUTS H i = false /\
      last (trace w') = Some (EvCriticalMessage "Warning" custom_layout_error))).
Proof.
  split.
  - intros w1 window_size pos is_maximized is_fullscreen Hun Hload.
    assert (Hstart : quick_layout_switch H fuel i w
              = (let+ returned := quick_layout_switch_try H fuel i in
                 if returned then retF None
                 else liftF (quick_layout_switch_finish i)) w1).
    { rewrite quick_layout_switch_unfold.
      unfold bindF at 1, liftF at 1. rewrite Hun. reflexivity. }
    rewrite Hstart. clear Hstart.
    split.
    + intros Hin.
      unfold bindF at 1, quick_layout_switch_try, try_exceptF.
      unfold bindF at 1, liftF at 1. rewrite Hload. cbn [is_None].
      rewrite Hin. reflexivity.
    + intros Hin.
      assert (Hby : forall layout w2,
                setup_default_layouts H fuel i VNone window_size pos is_maximized
                  is_fullscreen w1 = Some (Ok layout w2) ->
                (let+ returned := quick_layout_switch_try H fuel i in
                 if returned then retF None
                 else liftF (quick_layout_switch_finish i)) w1
                = Some (quick_layout_switch_finish i w2)).
      { intros layout w2 Hsdl.
        unfold bindF at 1, quick_layout_switch_try, try_exceptF.
        unfold bindF at 1, liftF at 1. rewrite Hload. cbn [is_None].
        rewrite Hin. cbn [negb].
        unfold bindF. rewrite Hsdl. reflexivity. }
      split; [exact Hby|]. split.
      * intros Hfuel Hfirst Hnone Hlast Hreg.
        destruct fuel as [|fuel]; [lia|].
        pose proof (setup_default_layouts_regenerates H fuel i VNone window_size pos
                      is_maximized is_fullscreen w1 Hfirst Hnone Hlast Hreg) as Hsdl.
        split; [exact Hsdl | exact (Hby _ _ Hsdl)].
      * intros Hfuel Hfirst Happlied Hreg.
        destruct fuel as [|[|fuel]]; [lia|lia|].
        pose proof (setup_default_layouts_regenerates_first_run H fuel i VNone
                      window_size pos is_maximized is_fullscreen w1 Hfirst Happlied
                      Hreg) as Hsdl.
        split; [exact Hsdl | exact (Hby _ _ Hsdl)].
  - intros r w'. rewrite quick_layout_switch_unfold.
    unfold bindF at 1, liftF at 1.
    destruct (unmaximize_dockwidget H w) as [[] w1|e w1]; [|discriminate].
    unfold bindF at 1.
    destruct (quick_layout_switch_try H fuel i w1) as [[returned w2|e w2]|] eqn:Htry;
      try discriminate.
    destruct returned.
    + intros E. injection E as <- <-. right. split; [reflexivity|].
      eapply quick_layout_switch_try_returned; eauto.
    + unfold liftF. intros E. injection E as E. left.
      eapply quick_layout_switch_finish_value; eauto.
Qed.

Lemma quick_layout_switch_outcomes_witness :
  quick_layout_switch Demo.host 3 (IdIndex 7) Demo.world_layouts
  = Some (Ok None (emit (EvCriticalMessage "Warning" custom_layout_error)
                     Demo.world_layouts))
  /\
  (setup_default_layouts Demo.host 3 (IdName "Matlab layout") VNone
     (VTuple [VInt 1000; VInt 700]) (VTuple [VInt 5; VInt 5]) (VBool false)
     (VBool false) Demo.world_layouts
   = Some (Ok (IdName "Matlab layout")
             (default_layout_regenerated Demo.host (IdName "Matlab layout")
                Demo.world_layouts)) /\
   quick_layout_switch Demo.host 3 (IdName "Matlab layout") Demo.world_layouts
   = Some (quick_layout_switch_finish (IdName "Matlab layout")
             (default_layout_regenerated Demo.host (IdName "Matlab layout")
                Demo.world_layouts))).
Proof.
  assert (Hun : unmaximize_dockwidget Demo.host Demo.world_layouts
                = Ok tt Demo.world_layouts) by reflexivity.
  split.
  - apply (proj1 (proj1 (quick_layout_switch_outcomes Demo.host 3 (IdIndex 7)
                           Demo.world_layouts)
                   Demo.world_layouts (VTuple [VInt 1000; VInt 700])
                   (VTuple [VInt 5; VInt 5]) (VBool false) (VBool false) Hun
                   ltac:(apply load_window_settings_run; vm_compute; reflexivity)));
      vm_compute; reflexivity.
  - apply (proj1 (proj2 (proj2 (proj1 (quick_layout_switch_outcomes Demo.host 3
                                         (IdName "Matlab layout") Demo.world_layouts)
                                 Demo.world_layouts (VTuple [VInt 1000; VInt 700])
                                 (VTuple [VInt 5; VInt 5]) (VBool false) (VBool false)
                                 Hun
                                 ltac:(apply load_window_settings_run;
                                       vm_compute; reflexivity))
                          ltac:(vm_compute; reflexivity))));
      [lia | vm_compute; reflexivity ..].
Defined.

(** ** Switching to a layout that was never stored *)

(** X12.  When the option [size] of a quick layout is not stored,
    [quick_layout_switch] needs no stored settings and no bound on the
    depth of calls: it applies the layout registered under the identifier
    and announces it, or, when none is registered, shows the message that
    the layout has not yet been defined; in both cases it goes on to update
    the toggle actions and the dock tab bars, and returns the identifier
    when that succeeds. *)
Theorem quick_layout_switch_not_stored (H : Host) (fuel : nat) (i : LayoutId)
    (w w1 : World) :
  unmaximize_dockwidget H w = Ok tt w1 ->
  conf w1 !! ("quick_layouts", ("layout_" +:+ str_of_id i +:+ "/") +:+ "size") = None ->
  quick_layout_switch H fuel i w
  = Some (quick_layout_switch_finish i
            (if registered i w1
             then emit (EvLayoutSetupReady i) (layout_applied H i w1)
             else emit (not_defined_message i) w1)).
Proof.
  intros Hun Hsize. rewrite quick_layout_switch_unfold.
  unfold bindF at 1, liftF at 1. rewrite Hun.
  unfold bindF at 1, quick_layout_switch_try, try_exceptF.
  unfold bindF at 1, liftF at 1.
  rewrite load_window_settings_stored. rewrite Hsize.
  cbn [except Exc_eqb].
  unfold bindF at 1, liftF at 1.
  unfold try_except, bind at 1, get_layout at 1. fold (registered i w1).
  destruct (registered i w1); reflexivity.
Qed.

Lemma quick_layout_switch_not_stored_witness :
  quick_layout_switch Demo.host 0 (IdIndex 3) Demo.world1
  = Some (quick_layout_switch_finish (IdIndex 3)
            (emit (not_defined_message (IdIndex 3)) Demo.world1)).
Proof.
  apply (quick_layout_switch_not_stored Demo.host 0 (IdIndex 3) Demo.world1 Demo.world1).
  - reflexivity.
  - vm_compute. reflexivity.
Defined.

(** ** Window settings while the window is fullscreen *)

Lemma isFullScreen_entered_fullscreen (H : Host) (m : MainWindow) :
  isFullScreen (entered_fullscreen H m) = negb (String.eqb (os_name H) "nt").
Proof.
  unfold entered_fullscreen. destruct (String.eqb (os_name H) "nt"); cbn [negb].
  - apply isFullScreen_showNormal.
  - apply isFullScreen_showFullScreen.
Qed.

Lemma isMaximized_entered_fullscreen (H : Host) (m : MainWindow) :
  isMaximized (entered_fullscreen H m) = false.
Proof.
  unfold entered_fullscreen. destruct (String.eqb (os_name H) "nt").
  - apply isMaximized_showNormal.
  - apply isMaximized_showFullScreen.
Qed.

(** The two flags that [save_current_window_settings] stores are those of
    the window. *)
Lemma save_current_window_settings_flags (H : Host) (prefix section : string)
    (none_state : bool) (w : World) :
  let stored := conf (world_of (save_current_window_settings H prefix section
                                  none_state w)) in
  stored !! (section, prefix +:+ "is_maximized") = Some (VBool (isMaximized (main w))) /\
  stored !! (section, prefix +:+ "is_fullscreen") = Some (VBool (isFullScreen (main w))).
Proof.
  intros stored. subst stored.
  rewrite save_current_window_settings_unfold.
  set (w0 := geometry_saved prefix section w).
  assert (H0 : conf w0 !! (section, prefix +:+ "is_maximized")
               = Some (VBool (isMaximized (main w))) /\
               conf w0 !! (section, prefix +:+ "is_fullscreen")
               = Some (VBool (isFullScreen (main w)))).
  { unfold w0, geometry_saved. cbn [conf on_conf]. split.
    - rewrite lookup_insert_ne by (apply conf_key_ne; discriminate).
      rewrite lookup_insert_ne by (apply conf_key_ne; discriminate).
      apply lookup_insert_eq.
    - rewrite lookup_insert_ne by (apply conf_key_ne; discriminate).
      apply lookup_insert_eq. }
  pose proof (preserves_conf_maximize_dockwidget H true w0) as Pc.
  unfold bind.
  destruct (maximize_dockwidget H true w0) as [[] w1|e w1]; cbn [world_of] in Pc |- *.
  - unfold modify, state_saved. cbn [world_of conf on_conf].
    rewrite !lookup_insert_ne by (apply conf_key_ne; discriminate).
    rewrite Pc. exact H0.
  - rewrite Pc. exact H0.
Qed.

(** X13.  Let the window enter fullscreen through [toggle_fullscreen], its
    size and position being known.  Elsewhere than on Windows
    [get_window_settings] then reports fullscreen and, as maximized state,
    the state the window had before; on Windows, where fullscreen is a
    frameless window over the screen, it reports neither fullscreen nor
    maximized.  [save_current_window_settings] stores at that moment the
    same fullscreen flag, and never a maximized window. *)
Theorem fullscreen_window_settings (H : Host) (prefix section : string)
    (none_state : bool) (w : World) (size position : Z * Z) :
  truthy (_fullscreen_flag (self w)) = false ->
  window_size (self w) = Some size ->
  window_position (self w) = Some position ->
  let nt := String.eqb (os_name H) "nt" in
  exists w',
    toggle_fullscreen H w = Ok tt w' /\
    get_window_settings H w'
    = Ok (VStr (qbytearray_to_str H (saveState H (mw_docks (main w)) WINDOW_STATE_VERSION)),
          VTuple [VInt (fst size); VInt (snd size)],
          VTuple [VInt (fst position); VInt (snd position)],
          VBool (if nt then false else isMaximized (main w)),
          VBool (negb nt)) w' /\
    let stored := conf (world_of (save_current_window_settings H prefix section
                                    none_state w')) in
    stored !! (section, prefix +:+ "is_fullscreen") = Some (VBool (negb nt)) /\
    stored !! (section, prefix +:+ "is_maximized") = Some (VBool false).
Proof.
  intros Hflag Hsize Hpos nt.
  rewrite (toggle_fullscreen_enter H w Hflag).
  eexists. split; [reflexivity|].
  match goal with |- context [get_window_settings H ?u] => set (w' := u) end.
  assert (Hmain : main w' = entered_fullscreen H (main w)) by reflexivity.
  split.
  - unfold get_window_settings.
    unfold bind at 1, gets at 1.
    change (window_size (self w')) with (window_size (self w)). rewrite Hsize.
    destruct size as [a b]. unfold bind at 1, ret at 1.
    unfold bind at 1, gets at 1. rewrite Hmain, isFullScreen_entered_fullscreen.
    fold nt.
    assert (Hmx : (if negb nt then gets (fun w => _maximized_flag (self w))
                   else gets (fun w => VBool (isMaximized (main w)))) w'
                  = Ok (VBool (if nt then false else isMaximized (main w))) w').
    { destruct nt; cbn [negb]; unfold gets; [|reflexivity].
      rewrite Hmain, isMaximized_entered_fullscreen. reflexivity. }
    unfold bind at 1. rewrite Hmx.
    unfold bind at 1, gets at 1.
    change (window_position (self w')) with (window_position (self w)). rewrite Hpos.
    destruct position as [x y]. unfold bind at 1, ret at 1.
    unfold bind at 1, main_saveState, gets. rewrite Hmain.
    assert (Hdocks : mw_docks (entered_fullscreen H (main w)) = mw_docks (main w)).
    { unfold entered_fullscreen. destruct (String.eqb (os_name H) "nt"); reflexivity. }
    rewrite Hdocks. reflexivity.
  - intros stored. subst stored.
    destruct (save_current_window_settings_flags H prefix section none_state w')
      as (Hm & Hf).
    rewrite Hm, Hf, Hmain, isFullScreen_entered_fullscreen,
      isMaximized_entered_fullscreen.
    split; reflexivity.
Qed.

Lemma fullscreen_window_settings_witness :
  exists w',
    toggle_fullscreen Demo.host_nt
      (on_self (with_window_position (Some (10, 10)))
         (on_self (with_window_size (Some (1260, 740))) Demo.world_maximized))
    = Ok tt w' /\
    exists hexstate,
      get_window_settings Demo.host_nt w'
      = Ok (hexstate, VTuple [VInt 1260; VInt 740], VTuple [VInt 10; VInt 10],
            VBool false, VBool false) w'.
Proof.
  destruct (fullscreen_window_settings Demo.host_nt "window/" "main" false
              (on_self (with_window_position (Some (10, 10)))
                 (on_self (with_window_size (Some (1260, 740))) Demo.world_maximized))
              (1260, 740) (10, 10))
    as (w' & Hrun & Hget & _);
    [vm_compute; reflexivity | vm_compute; reflexivity | vm_compute; reflexivity |].
  exists w'. split; [exact Hrun|]. eexists. exact Hget.
Defined.

(** ** The toggle actions after a switch of layout *)









(** ** Entering and leaving fullscreen: the window *)

Lemma lxor_lor_ldiff (f m : Z) : Z.lxor (Z.lor f m) m = Z.ldiff f m.
Proof.
  apply Z.bits_inj'. intros n Hn.
  rewrite Z.lxor_spec, Z.lor_spec, Z.ldiff_spec.
  destruct (Z.testbit f n), (Z.testbit m n); reflexivity.
Qed.

Lemma toggle_fullscreen_leave_run (H : Host) (w : World) :
  truthy (_fullscreen_flag (self w)) = true ->
  fullscreen_ready H w = true ->
  toggle_fullscreen H w = Ok tt (left_fullscreen H w).
Proof.
  intros Hf Hready. unfold fullscreen_ready in Hready. rewrite Hf in Hready.
  unfold toggle_fullscreen, left_fullscreen. unfold bind at 1, gets at 1. rewrite Hf.
  unfold bind at 1. unfold bind at 1, modify at 1.
  unfold bind at 1.
  set (w0 := on_self (with_fullscreen_flag (VBool false)) w).
  assert (Hnt : (if String.eqb (os_name H) "nt"
                 then
                   modify (on_main (fun m =>
                     with_window_flags
                       (Z.lxor (mw_window_flags m)
                          (Z.lor FramelessWindowHint WindowStaysOnTopHint)) m)) >>
                   let* g := gets (fun w => _saved_normal_geometry (self w)) in
                   match g with
                   | Some r => modify (on_main (setGeometry r))
                   | None => raise TypeError
                   end
                 else ret tt) w0
                = Ok tt (on_main (fun m =>
                    if String.eqb (os_name H) "nt" then
                      match _saved_normal_geometry (self w) with
                      | Some g =>
                          setGeometry g
                            (with_window_flags
                               (Z.lxor (mw_window_flags m)
                                  (Z.lor FramelessWindowHint WindowStaysOnTopHint)) m)
                      | None => m
                      end
                    else m) w0)).
  { destruct (String.eqb (os_name H) "nt"); simpl in Hready.
    - unfold bind, gets, modify.
      change (_saved_normal_geometry (self (on_main _ w0)))
        with (_saved_normal_geometry (self w)).
      destruct (_saved_normal_geometry (self w)) as [g|]; [|discriminate].
      reflexivity.
    - unfold ret. destruct w0 as [s m ps c cd ct fo tb tr]. destruct m; reflexivity. }
  rewrite Hnt.
  unfold bind at 1, modify at 1. unfold bind at 1, gets at 1.
  change (_maximized_flag (self (on_main showNormal (on_main _ w0))))
    with (_maximized_flag (self w)).
  unfold _update_fullscreen_action, bind, gets, modify.
  destruct (truthy (_maximized_flag (self w))); reflexivity.
Qed.

(** X15.  Entering fullscreen and leaving it again moves no dock widget and
    no plugin.  Elsewhere than on Windows the size, the position and the
    flags of the window are the ones it had.  On Windows the window gets
    the normal geometry it had on entering, and it ends without the
    frameless and stays-on-top hints, also when it had one of them
    before. *)
Theorem toggle_fullscreen_twice_window (H : Host) (w : World) :
  truthy (_fullscreen_flag (self w)) = false ->
  exists w1 w2,
    toggle_fullscreen H w = Ok tt w1 /\
    toggle_fullscreen H w1 = Ok tt w2 /\
    mw_docks (main w2) = mw_docks (main w) /\
    plugins w2 = plugins w /\
    if String.eqb (os_name H) "nt" then
      let g := mw_normal_geometry (main w) in
      mw_pos (main w2) = (r_left g, r_top g) /\
      mw_size (main w2) = (r_width g, r_height g) /\
      mw_window_flags (main w2) = Z.ldiff (mw_window_flags (main w)) fullscreen_hints
    else
      mw_pos (main w2) = mw_pos (main w) /\
      mw_size (main w2) = mw_size (main w) /\
      mw_window_flags (main w2) = mw_window_flags (main w).
Proof.
  intros Hflag. rewrite (toggle_fullscreen_enter H w Hflag).
  match goal with
  | |- exists w1 w2, Ok tt ?u = _ /\ _ => exists u; set (w1 := u)
  end.
  exists (left_fullscreen H w1). split; [reflexivity|]. split.
  { apply toggle_fullscreen_leave_run; [reflexivity|].
    unfold fullscreen_ready. apply implb_true_r. }
  unfold left_fullscreen.
  change (_saved_normal_geometry (self w1)) with (Some (mw_normal_geometry (main w))).
  change (truthy (_maximized_flag (self w1))) with (isMaximized (main w)).
  cbn [main on_container on_main on_self plugins].
  change (main w1) with (entered_fullscreen H (main w)).
  unfold entered_fullscreen.
  destruct (String.eqb (os_name H) "nt").
  - destruct (isMaximized (main w));
      (split; [reflexivity|]); (split; [reflexivity|]);
      (split; [reflexivity|]); (split; [reflexivity|]);
      unfold fullscreen_hints; rewrite <- lxor_lor_ldiff, Z.lor_assoc; reflexivity.
  - destruct (isMaximized (main w));
      (split; [reflexivity|]); (split; [reflexivity|]);
      (split; [reflexivity|]); (split; reflexivity).
Qed.

Lemma toggle_fullscreen_twice_window_witness :
  exists w1 w2,
    toggle_fullscreen Demo.host_nt
      (on_main (with_window_flags WindowStaysOnTopHint) Demo.world0) = Ok tt w1 /\
    toggle_fullscreen Demo.host_nt w1 = Ok tt w2 /\
    mw_window_flags (main w2) = 0.
Proof.
  destruct (toggle_fullscreen_twice_window Demo.host_nt
              (on_main (with_window_flags WindowStaysOnTopHint) Demo.world0))
    as (w1 & w2 & Hrun1 & Hrun2 & _ & _ & Hnt); [vm_compute; reflexivity|].
  exists w1, w2. split; [exact Hrun1|]. split; [exact Hrun2|].
  exact (proj2 (proj2 Hnt)).
Defined.

(** ** Resetting the layouts to the defaults *)

Lemma ignores_gui_layouts_of : ignores_gui layouts_of.
Proof. repeat split. Qed.

#[export] Hint Resolve ignores_gui_layouts_of : frame.

Lemma preserves_layouts_of_maximize_dockwidget (H : Host) restore :
  preserves layouts_of (maximize_dockwidget H restore).
Proof.
  unfold maximize_dockwidget, get_plugin, main_saveState, get_dockable_plugins,
    set_last_plugin, setCentralWidget.
  frame.
Qed.

#[export] Hint Resolve preserves_layouts_of_maximize_dockwidget : frame.

Lemma preserves_layouts_of_load prefix default section :
  preserves layouts_of (load_window_settings prefix default section).
Proof. unfold load_window_settings. destruct default; frame. Qed.

Lemma preserves_layouts_of_save (H : Host) prefix section none_state :
  preserves layouts_of (save_current_window_settings H prefix section none_state).
Proof.
  unfold save_current_window_settings, set_conf, main_saveState. frame.
Qed.

#[export] Hint Resolve preserves_layouts_of_load preserves_layouts_of_save : frame.

(** No method of the layout registers or removes a layout. *)
Lemma preservesF_layouts_of (H : Host) (fuel : nat) :
  (forall hexstate window_size pos is_maximized is_fullscreen,
     preservesF layouts_of
       (set_window_settings H fuel hexstate window_size pos is_maximized is_fullscreen))
  /\ (forall default, preservesF layouts_of (setup_layout H fuel default))
  /\ (forall layout_id hexstate window_size pos is_maximized is_fullscreen,
        preservesF layouts_of
          (setup_default_layouts H fuel layout_id hexstate window_size pos
             is_maximized is_fullscreen)).
Proof.
  induction fuel as [|fuel (IH1 & IH2 & IH3)].
  - repeat split; intros; apply preservesF_out_of_fuel.
  - split; [|split].
    + intros. rewrite set_window_settings_unfold.
      unfold restore_window_properties, apply_window_state.
      repeat frameF_step; frame.
    + intros. cbn [setup_layout].
      repeat frameF_step; unfold set_conf; frame.
    + intros. cbn [setup_default_layouts].
      repeat frameF_step; unfold set_conf, not_maximized_at_all; frame.
Qed.

(** Without a state to restore, [set_window_settings] writes no option and
    keeps the current quick layout. *)
Lemma preservesF_set_window_settings_falsy (H : Host) (fuel : nat)
    (hexstate window_size pos is_maximized is_fullscreen : PyVal) :
  truthy hexstate = false ->
  preservesF options_and_current
    (set_window_settings H fuel hexstate window_size pos is_maximized is_fullscreen).
Proof.
  intros Hh. destruct fuel as [|fuel]; [apply preservesF_out_of_fuel|].
  rewrite set_window_settings_unfold. rewrite Hh.
  unfold restore_window_properties, apply_window_state.
  repeat frameF_step; frame.
Qed.

Lemma preserves_lookup_set_conf (key : string * string) opt v section :
  key <> (section, opt) ->
  preserves (fun w => conf w !! key) (set_conf opt v section).
Proof.
  intros Hne w. unfold set_conf, modify. cbn [world_of conf on_conf].
  apply lookup_insert_ne. congruence.
Qed.

Lemma preserves_lookup_maximize_dockwidget (H : Host) restore (key : string * string) :
  preserves (fun w => conf w !! key) (maximize_dockwidget H restore).
Proof.
  intros w. rewrite (preserves_conf_maximize_dockwidget H restore w). reflexivity.
Qed.

(** Saving the window settings under a prefix leaves the options outside
    the prefix as they are. *)
Lemma preserves_lookup_save (H : Host) prefix section none_state
    (key : string * string) :
  (forall opt, key <> (section, prefix +:+ opt)) ->
  preserves (fun w => conf w !! key)
    (save_current_window_settings H prefix section none_state).
Proof.
  intros Hne. unfold save_current_window_settings, main_saveState.
  repeat match goal with
         | |- preserves _ (bind _ _) => apply preserves_bind
         | |- preserves _ (gets _) => apply preserves_gets
         | |- preserves _ (set_conf _ _ _) => apply preserves_lookup_set_conf; apply Hne
         | |- preserves _ (maximize_dockwidget _ _) =>
             apply preserves_lookup_maximize_dockwidget
         | |- preserves _ (if ?b then _ else _) => destruct b
         | |- forall _, _ => intro
         end.
Qed.

Lemma bind_Ok_inv {A B} (m : M A) (k : A -> M B) (w w' : World) (b : B) :
  bind m k w = Ok b w' ->
  exists a w1, m w = Ok a w1 /\ k a w1 = Ok b w'.
Proof.
  unfold bind. destruct (m w) as [a w1|e w1]; [|discriminate].
  intros E. exists a, w1. split; [reflexivity | exact E].
Qed.

Lemma layout_prefix_ne (name : string) (rest opt : string) :
  In name ["order"; "active"; "names"; "ui_names"] ->
  ("quick_layouts", name) <> ("quick_layouts", ("layout_" +:+ rest) +:+ opt).
Proof.
  intros Hin E. injection E as E. simpl in Hin.
  destruct Hin as [<-|[<-|[<-|[<-|[]]]]]; simpl in E; discriminate.
Qed.

(** X16.  Whenever [setup_layout(default=True)] returns, the options
    [order], [active] and [names] of the quick layouts hold the identifiers
    of the registered layouts and [ui_names] their displayed names, so that
    custom layouts are gone from these lists; the window settings stored as
    the default layout carry no state, and the current quick layout is the
    Spyder default layout. *)
Theorem setup_layout_default_resets (H : Host) (fuel : nat) (w w' : World) :
  setup_layout H fuel true w = Some (Ok tt w') ->
  conf w' !! ("quick_layouts", "order") = Some (layout_ids w) /\
  conf w' !! ("quick_layouts", "active") = Some (layout_ids w) /\
  conf w' !! ("quick_layouts", "names") = Some (layout_ids w) /\
  conf w' !! ("quick_layouts", "ui_names") = Some (layout_ui_names w) /\
  conf w' !! ("quick_layouts", "layout_default/state") = Some VNone /\
  _current_quick_layout (self w') = Some (SpyderLayout H).
Proof.
  intros Hrun. destruct fuel as [|fuel]; [discriminate|].
  cbn [setup_layout] in Hrun.
  apply bindF_Ok_inv in Hrun.
  destruct Hrun as ([[[[hexstate window_size] pos] is_maximized] is_fullscreen]
                    & w1 & Hload & Hrun).
  injection Hload as Hload.
  pose proof (load_window_settings_default_hexstate _ _ _ _ _ Hload) as Hhex.
  cbn [fst] in Hhex. subst hexstate. cbn [is_None] in Hrun.
  pose proof (preserves_layouts_of_load "window/" true "main" w) as L1.
  rewrite Hload in L1. cbn [world_of] in L1.
  apply bindF_Ok_inv in Hrun. destruct Hrun as ([] & w4 & Hmid & Hfinal).
  pose proof (preservesF_set_window_settings_falsy H fuel VNone window_size pos
                is_maximized is_fullscreen eq_refl w4 _ Hfinal) as Pfinal.
  cbn [world_of] in Pfinal. unfold options_and_current in Pfinal.
  injection Pfinal as Pconf Pcur.
  apply bindF_Ok_inv in Hmid. destruct Hmid as ([] & w2 & Hset & Hmid).
  injection Hset as <-.
  apply bindF_Ok_inv in Hmid. destruct Hmid as ([] & w3 & Hsdl & Hstep).
  assert (L3 : layouts_of w3 = layouts_of w).
  { rewrite <- L1.
    refine (preservesF_bindF layouts_of _ _ _ _ _ _ Hsdl).
    - apply (preservesF_layouts_of H fuel).
    - intros _. apply preservesF_retF. }
  injection Hstep as Hstep.
  apply bind_Ok_inv in Hstep. destruct Hstep as ([] & wa & Hsets & Hstep).
  unfold bind, gets, set_conf, modify in Hsets. injection Hsets as <-.
  fold (layouts_of w3) in Hstep. rewrite L3 in Hstep.
  fold (layout_ids w) (layout_ui_names w) in Hstep.
  set (wa := emit _ _) in Hstep.
  assert (Ha : conf wa !! ("quick_layouts", "order") = Some (layout_ids w) /\
               conf wa !! ("quick_layouts", "active") = Some (layout_ids w) /\
               conf wa !! ("quick_layouts", "names") = Some (layout_ids w) /\
               conf wa !! ("quick_layouts", "ui_names") = Some (layout_ui_names w)).
  { unfold wa, LAYOUT_CONF_SECTION. cbn [conf emit on_conf].
    repeat split.
    - rewrite !lookup_insert_ne by discriminate. apply lookup_insert_eq.
    - rewrite !lookup_insert_ne by discriminate. apply lookup_insert_eq.
    - rewrite !lookup_insert_ne by discriminate. apply lookup_insert_eq.
    - apply lookup_insert_eq. }
  apply bind_Ok_inv in Hstep. destruct Hstep as (order & wb & Horder & Hstep).
  unfold get_conf, LAYOUT_CONF_SECTION in Horder.
  rewrite (proj1 Ha) in Horder. injection Horder as <- <-.
  apply bind_Ok_inv in Hstep. destruct Hstep as (names & wb & Hnames & Hstep).
  injection Hnames as <- <-.
  apply bind_Ok_inv in Hstep. destruct Hstep as ([] & wc & Hloop & Hstep).
  apply bind_Ok_inv in Hstep. destruct Hstep as ([] & wd & Hsave & Hstep).
  injection Hstep as <-.
  assert (Hkeep : forall name, In name ["order"; "active"; "names"; "ui_names"] ->
            conf wd !! ("quick_layouts", name) = conf wa !! ("quick_layouts", name)).
  { intros name Hin.
    assert (Pd : conf wd !! ("quick_layouts", name) = conf wc !! ("quick_layouts", name)).
    { pose proof (preserves_lookup_save H "layout_default/" "quick_layouts" true
                    ("quick_layouts", name)
                    (fun opt => layout_prefix_ne name "default/" opt Hin) wc) as E.
      cbv beta in E. rewrite Hsave in E. exact E. }
    rewrite Pd.
    match type of Hloop with
    | for_each ?l ?body wa = _ =>
        pose proof (preserves_for_each (fun w => conf w !! ("quick_layouts", name))
                      l body) as Pl
    end.
    match type of Pl with
    | ?P -> _ => assert (Hbody : P)
    end.
    { intros index. apply preserves_lookup_save. intros opt.
      apply (layout_prefix_ne name (str_of_Z (Z.of_nat index) +:+ "/") opt Hin). }
    specialize (Pl Hbody wa). cbv beta in Pl. rewrite Hloop in Pl. exact Pl. }
  assert (Hstate : conf wd !! ("quick_layouts", "layout_default/state") = Some VNone).
  { rewrite save_current_window_settings_unfold in Hsave.
    apply bind_Ok_inv in Hsave. destruct Hsave as ([] & wm & _ & Hsave).
    injection Hsave as <-. unfold state_saved. cbn [conf on_conf].
    rewrite lookup_insert_ne by discriminate.
    apply lookup_insert_eq. }
  rewrite Pconf, Pcur. cbn [conf self on_self _current_quick_layout
                            with_current_quick_layout].
  destruct Ha as (Ha1 & Ha2 & Ha3 & Ha4).
  rewrite !Hkeep by (simpl; auto).
  repeat split; assumption.
Qed.

Lemma setup_layout_default_resets_witness :
  conf ResetLayouts.reset !! ("quick_layouts", "order")
  = Some (layout_ids Demo.world_layouts) /\
  conf ResetLayouts.reset !! ("quick_layouts", "active")
  = Some (layout_ids Demo.world_layouts) /\
  conf ResetLayouts.reset !! ("quick_layouts", "names")
  = Some (layout_ids Demo.world_layouts) /\
  conf ResetLayouts.reset !! ("quick_layouts", "ui_names")
  = Some (layout_ui_names Demo.world_layouts) /\
  conf ResetLayouts.reset !! ("quick_layouts", "layout_default/state") = Some VNone /\
  _current_quick_layout (self ResetLayouts.reset) = Some (SpyderLayout Demo.host).
Proof.
  apply (setup_layout_default_resets Demo.host 3 Demo.world_layouts ResetLayouts.reset).
  assert (Hr : returned (setup_layout Demo.host 3 true Demo.world_layouts) = true)
    by (vm_compute; reflexivity).
  unfold ResetLayouts.reset.
  destruct (setup_layout Demo.host 3 true Demo.world_layouts) as [[[] w'|e w']|];
    [reflexivity | discriminate | discriminate].
Defined.
